(** * agent-challenge: the crypto data-fetch pipeline and its tools

    A shallow embedding of
      - src/mastra/crypto-agent/crypto-workflow.ts     (module [Workflow]),
      - the sentiment tool, getSentimentScore          (module [SentimentTool]),
      - the price tool, getCryptoPrice                 (module [PriceTool]),
      - src/mastra/crypto-agent/tools/getCryptoNews.ts (module [NewsTool]),
    followed by the properties of the specification that were checked
    against them.

    Conventions of the embedding.
      - A JavaScript string is a [string]; a character is a code unit
        below 256.  White space is the JavaScript white space of that
        range (TAB, LF, VT, FF, CR, SPACE, NBSP).
      - A JavaScript number that the code computes with is an exact
        rational ([Q]) or, where the source only handles integers (the
        article limit, the pseudo-index of the fallback, the clock), a [Z];
        the result of [parseFloat] is a [JsNum], which keeps NaN and the
        infinities and decides the comparisons of the source on the
        binary64 rounding of the decimal that was read.
      - A value that the source declares with a type has that type; a field
        of a provider's answer is an [option], [None] standing for a field
        that is missing or not of its declared type.  What is thrown is
        always an [Error] object, with its [name] and [message].
      - [process.env], the clock, the Date and URL parsers, the three HTTP
        providers and the language model are the fields of a [World]; a
        stage returns the list of the requests it issued together with its
        completion (a returned value or a thrown error).  Logging is not
        modelled. *)

From Stdlib Require Import ZArith QArith Bool List Lia Lqa.
From Stdlib Require Import Strings.String Strings.Ascii Numbers.DecimalString.
Import ListNotations.

Open Scope string_scope.
Open Scope Z_scope.

(* ================================================================== *)
(** * The JavaScript platform                                          *)
(* ================================================================== *)

Module Js.

(** ** Characters and strings *)

Definition charCode (c : ascii) : Z := Z.of_N (N_of_ascii c).

(** [\s], and what [trim] removes. *)
Definition isWhiteSpace (c : ascii) : bool :=
  let n := charCode c in
  ((9 <=? n) && (n <=? 13)) || (n =? 32) || (n =? 160).

Definition isDigit (c : ascii) : bool :=
  let n := charCode c in (48 <=? n) && (n <=? 57).

Definition isUpper (c : ascii) : bool :=
  let n := charCode c in
  ((65 <=? n) && (n <=? 90)) || ((192 <=? n) && (n <=? 222) && negb (n =? 215)).

Definition isLower (c : ascii) : bool :=
  let n := charCode c in
  ((97 <=? n) && (n <=? 122)) || ((224 <=? n) && (n <=? 254) && negb (n =? 247)).

Definition lowerChar (c : ascii) : ascii :=
  if isUpper c then ascii_of_N (N_of_ascii c + 32) else c.

Definition upperChar (c : ascii) : ascii :=
  if isLower c then ascii_of_N (N_of_ascii c - 32) else c.

Fixpoint toLowerCase (s : string) : string :=
  match s with
  | EmptyString => EmptyString
  | String c r => String (lowerChar c) (toLowerCase r)
  end.

(** Sharp s has a two-letter capital; the two letters of the range whose
    capital lies above 255 (micro sign, y with diaeresis) are kept. *)
Fixpoint toUpperCase (s : string) : string :=
  match s with
  | EmptyString => EmptyString
  | String c r =>
      if charCode c =? 223 then String "S" (String "S" (toUpperCase r))
      else String (upperChar c) (toUpperCase r)
  end.

(** Removal of the leading, and of the trailing, characters that satisfy
    [p]. *)
Fixpoint stripStart (p : ascii -> bool) (s : string) : string :=
  match s with
  | EmptyString => EmptyString
  | String c r => if p c then stripStart p r else s
  end.

Fixpoint stripEnd (p : ascii -> bool) (s : string) : string :=
  match s with
  | EmptyString => EmptyString
  | String c r =>
      match stripEnd p r with
      | EmptyString => if p c then EmptyString else String c EmptyString
      | r' => String c r'
      end
  end.

Definition trimStart (s : string) : string := stripStart isWhiteSpace s.

(** [s.trim()] *)
Definition trim (s : string) : string :=
  stripEnd isWhiteSpace (stripStart isWhiteSpace s).

(** Keeps the characters that satisfy [p]. *)
Fixpoint filterChars (p : ascii -> bool) (s : string) : string :=
  match s with
  | EmptyString => EmptyString
  | String c r => if p c then String c (filterChars p r) else filterChars p r
  end.

Definition isEmpty (s : string) : bool :=
  match s with EmptyString => true | _ => false end.

(** [s.length] *)
Definition len (s : string) : Z := Z.of_nat (String.length s).

Fixpoint existsChar (p : ascii -> bool) (s : string) : bool :=
  match s with
  | EmptyString => false
  | String c r => p c || existsChar p r
  end.

Fixpoint forallChar (p : ascii -> bool) (s : string) : bool :=
  match s with
  | EmptyString => true
  | String c r => p c && forallChar p r
  end.

(** [s.includes(sub)] *)
Fixpoint includes (s sub : string) : bool :=
  String.prefix sub s ||
  match s with
  | EmptyString => false
  | String _ r => includes r sub
  end.

(** [s.substring(0, n)] for [0 <= n]. *)
Definition substring0 (n : nat) (s : string) : string := String.substring 0 n s.

(** [s.slice(1)] *)
Definition slice1 (s : string) : string :=
  match s with EmptyString => EmptyString | String _ r => r end.

(** [s.charAt(0)] *)
Definition charAt0 (s : string) : string :=
  match s with EmptyString => EmptyString | String c _ => String c EmptyString end.

(** [`${n}`] for an integer [n]. *)
Definition intToString (n : Z) : string := NilZero.string_of_int (Z.to_int n).

(** [a || b] on strings: the empty string is falsy. *)
Definition orElse (a b : string) : string := if isEmpty a then b else a.

(** [a || b] where [a] may be undefined. *)
Definition optOrElse (a : option string) (b : string) : string :=
  match a with
  | Some s => orElse s b
  | None => b
  end.

(** [!a] for a value that is a string or undefined. *)
Definition falsy (a : option string) : bool :=
  match a with
  | Some s => isEmpty s
  | None => true
  end.

(** ** Numbers *)

Definition Math_min (a b : Q) : Q := if Qle_bool a b then a else b.
Definition Math_max (a b : Q) : Q := if Qle_bool a b then b else a.

(** The value [parseFloat] denotes: NaN, an infinity, or the decimal
    (-1)^neg * m * 10^e that was read, which JavaScript then rounds to the
    nearest binary64 (ties to even). *)
Inductive JsNum : Type :=
| NaN
| Infinity (neg : bool)
| Dec (neg : bool) (m : N) (e : Z).

(** m * 10^e <= 2^-1075: the decimal rounds to zero. *)
Definition roundsToZero (m : N) (e : Z) : bool :=
  if 0 <=? e then (Z.of_N m =? 0)
  else Z.of_N m * 2 ^ 1075 <=? 10 ^ (- e).

(** 2^1024 - 2^970 <= m * 10^e: the decimal rounds to Infinity. *)
Definition roundsToInfinity (m : N) (e : Z) : bool :=
  if 0 <=? e then 2 ^ 1024 - 2 ^ 970 <=? Z.of_N m * 10 ^ e
  else (2 ^ 1024 - 2 ^ 970) * 10 ^ (- e) <=? Z.of_N m.

(** [Number.isNaN(x)] *)
Definition isNaN (x : JsNum) : bool :=
  match x with NaN => true | _ => false end.

(** [x <= 0] *)
Definition leZero (x : JsNum) : bool :=
  match x with
  | NaN => false
  | Infinity neg => neg
  | Dec neg m e => neg || roundsToZero m e
  end.

(** [Number.isFinite(x)] *)
Definition isFinite (x : JsNum) : bool :=
  match x with
  | NaN => false
  | Infinity _ => false
  | Dec _ m e => negb (roundsToInfinity m e)
  end.

(** Reads decimal digits: the accumulated value, how many digits were
    read, and what is left. *)
Fixpoint readDigits (s : string) (acc : N) (cnt : Z) : N * Z * string :=
  match s with
  | EmptyString => (acc, cnt, s)
  | String c r =>
      if isDigit c
      then readDigits r (acc * 10 + (N_of_ascii c - 48))%N (cnt + 1)
      else (acc, cnt, s)
  end.

(** An ExponentPart counts only when a digit follows [e] and the sign. *)
Definition readExponent (s : string) : Z :=
  match s with
  | String c r =>
      if (charCode c =? 101) || (charCode c =? 69) then
        let '(neg, r') :=
          match r with
          | String "+" r' => (false, r')
          | String "-" r' => (true, r')
          | _ => (false, r)
          end in
        let '(v, cnt, _) := readDigits r' 0%N 0 in
        if cnt =? 0 then 0 else if neg then - Z.of_N v else Z.of_N v
      else 0
  | EmptyString => 0
  end.

Definition readUnsigned (neg : bool) (s : string) : JsNum :=
  if String.prefix "Infinity" s then Infinity neg
  else
    let '(m1, n1, r1) := readDigits s 0%N 0 in
    match r1 with
    | String "." r =>
        let '(m2, n2, r2) := readDigits r m1 0 in
        if (n1 =? 0) && (n2 =? 0) then NaN
        else Dec neg m2 (readExponent r2 - n2)
    | _ =>
        if n1 =? 0 then NaN else Dec neg m1 (readExponent r1)
    end.

(** [parseFloat(s)]: the longest prefix of the string, after its leading
    white space, that is a StrDecimalLiteral. *)
Definition parseFloat (s : string) : JsNum :=
  match trimStart s with
  | String "+" r => readUnsigned false r
  | String "-" r => readUnsigned true r
  | t => readUnsigned false t
  end.

(** ** Errors and completions *)

Record JsError : Type := mkError { err_name : string; err_message : string }.

(** [new Error(msg)] *)
Definition Error (msg : string) : JsError := mkError "Error" msg.

Inductive Completion (A : Type) : Type :=
| Throw (e : JsError)
| Return (a : A).
Arguments Throw {A} e.
Arguments Return {A} a.

End Js.
Import Js.

(* ================================================================== *)
(** * The providers, the environment and the world                     *)
(* ================================================================== *)

(** [process.env]: a key is absent ([None]) or holds a string. *)
Record Env : Type := mkEnv {
  COINCAP_API_KEY : option string;
  COINMARKETCAP_API_KEY : option string;
  NEWS_API_KEY : option string;
  NEWSAPI_KEY : option string
}.

(** What [fetch] resolves to; [json] is the completion of
    [response.json()]. *)
Record Response (A : Type) : Type := mkResponse {
  status : Z;
  statusText : string;
  json : Completion A
}.
Arguments mkResponse {A}.
Arguments status {A}.
Arguments statusText {A}.
Arguments json {A}.

(** [response.ok] *)
Definition ok {A} (r : Response A) : bool :=
  (200 <=? status r) && (status r <=? 299).

(** The rates provider: [{ data: { id, symbol, rateUsd } }].  A field is
    [None] when it is missing or undefined. *)
Record RateData : Type := mkRateData {
  rd_id : option string;
  rd_symbol : option string;
  rd_rateUsd : option string
}.

Inductive RatesJson : Type :=
| RatesNotObject                         (* null or a primitive *)
| RatesObject (data : option RateData).  (* [data] falsy: [None] *)

(** The fear and greed provider:
    [{ status: { error_code, error_message }, data: [{ value, value_classification }] }]. *)
Record FearGreedStatus : Type := mkFGStatus {
  error_code : option string;      (* [None]: missing or not a string *)
  error_message : option string
}.

Record FearGreedPoint : Type := mkFGPoint {
  fg_value : option Q;             (* [None]: not of type number *)
  value_classification : option string
}.

Inductive FearGreedJson : Type :=
| FearGreedNotObject
| FearGreedObject (fg_status : option FearGreedStatus)
                  (fg_data : option (list (option FearGreedPoint))).
                  (* [fg_data] is [None] when it is not an array; an
                     element is [None] when it is null *)

(** The news provider:
    [{ status, message, articles: [{ title, description, url, publishedAt, source: { name } }] }]. *)
Record RawArticle : Type := mkRawArticle {
  a_title : option string;
  a_description : option string;
  a_url : option string;
  a_publishedAt : option string;
  a_source : option (option string)   (* [source] missing, or its [name] *)
}.

Record NewsObject : Type := mkNewsObject {
  nj_status : option string;
  nj_message : option string;
  nj_articles : option (list (option RawArticle))
    (* [None]: not an array; an element is [None] when it is not an object *)
}.

Inductive NewsJson : Type :=
| NewsNotObject
| NewsIsObject (o : NewsObject).

(** The outbound calls, by what distinguishes their URLs and headers. *)
Inductive Request : Type :=
| GetRates (id apiKey : string)
    (* https://rest.coincap.io/v3/rates/${encodeURIComponent(id)}?apiKey=${apiKey} *)
| GetFearGreed (apiKey : string)
    (* https://pro-api.coinmarketcap.com/v3/fear-and-greed/historical *)
| GetNews (q : string) (pageSize : Z) (apiKey : string)
    (* https://newsapi.org/v2/everything?q=${encodeURIComponent(q)}&sortBy=publishedAt&pageSize=${pageSize}&language=en *)
| AgentStream.
    (* cryptoAnalysisAgent.stream(...) *)

(** ** The records of the workflow (its zod schemas) *)

Inductive Sentiment : Type := bullish | bearish | neutral.

Record WorkflowInput : Type := mkInput {
  in_crypto_id : string;
  in_crypto_symbol : string;
  in_news_limit : option Z
}.

(** Output of step 1. *)
Record PriceStepOutput : Type := mkPriceOut {
  p_crypto_id : string;
  p_crypto_symbol : string;
  p_news_limit : Z;
  p_name : string;
  p_symbol : string;
  p_priceUsd : string;
  p_changePercent24Hr : option string;
  p_error : option string
}.

(** Output of step 2: [{ ...inputData, sentiment, ... }]; the spread is
    the field [s_inputData]. *)
Record SentimentStepOutput : Type := mkSentimentOut {
  s_inputData : PriceStepOutput;
  s_sentiment : Sentiment;
  s_score : Q;
  s_fearGreedValue : Q;
  s_classification : string;
  s_price_error : option string;
  s_sentiment_error : option string
}.

Record PriceData : Type := mkPriceData {
  pd_name : string;
  pd_symbol : string;
  pd_priceUsd : string;
  pd_changePercent24Hr : option string
}.

Record SentimentData : Type := mkSentimentData {
  sd_sentiment : Sentiment;
  sd_score : Q;
  sd_fearGreedValue : Q;
  sd_classification : string
}.

(** An article as step 3 builds it: [title], [url], [publishedAt] and
    [source] are passed on as the provider sent them, also when missing. *)
Record StepArticle : Type := mkStepArticle {
  sa_title : option string;
  sa_description : string;
  sa_url : option string;
  sa_publishedAt : option string;
  sa_source : option string
}.

(** Output of step 3. *)
Record NewsStepOutput : Type := mkNewsOut {
  n_priceData : PriceData;
  n_sentimentData : SentimentData;
  n_articles : list StepArticle
}.

Record CryptoInfo : Type := mkCryptoInfo {
  ci_name : string;
  ci_symbol : string;
  ci_price_usd : string;
  ci_change_24h : option string
}.

Record SentimentAnalysis : Type := mkSentimentAnalysis {
  an_sentiment : Sentiment;
  an_score : Q;
  an_fear_greed_value : Q;
  an_classification : string
}.

Record ReportArticle : Type := mkReportArticle {
  ra_title : option string;
  ra_description : string;
  ra_url : option string;
  ra_published_at : option string;
  ra_source : option string
}.

(** Output of step 4 and of the workflow. *)
Record AnalysisReport : Type := mkReport {
  r_analysis : string;
  r_crypto_info : CryptoInfo;
  r_sentiment_analysis : SentimentAnalysis;
  r_latest_news : list ReportArticle;
  r_timestamp : string
}.

(** ** The world a run executes in *)

Record World : Type := mkWorld {
  env : Env;
  (* the clock *)
  Date_now : Z;                (* Date.now() *)
  getHours : Z;                (* new Date().getHours(), local time *)
  getDay : Z;                  (* new Date().getDay(), local time *)
  toISOString : Z -> string;   (* new Date(ms).toISOString() *)
  (* the Date and URL parsers *)
  Date_parse : string -> option Z;   (* new Date(s).getTime(); None: NaN *)
  getFullYear : Z -> Z;              (* local year of an instant *)
  URL_hostOk : string -> bool;
    (* whether what follows the scheme of an http(s) URL parses *)
  (* printing of numbers in template strings *)
  Number_toString : JsNum -> string;
  Q_toString : Q -> string;
  (* the providers *)
  fetchRates : string -> string -> Completion (Response RatesJson);
  fetchFearGreed : string -> Completion (Response FearGreedJson);
  fetchNews : string -> Z -> string -> Completion (Response NewsJson);
  (* the language model: the text chunks streamed for a prompt, which is
     a function of the input of step 4 *)
  agentStream : NewsStepOutput -> Completion (list string)
}.

(** ** Computations that issue requests *)

Definition IO (A : Type) : Type := (list Request * Completion A)%type.

Definition ret {A} (a : A) : IO A := ([], Return a).

Definition throw {A} (e : JsError) : IO A := ([], Throw e).

Definition bind {A B} (m : IO A) (k : A -> IO B) : IO B :=
  match m with
  | (t, Return a) => let '(t', r) := k a in ((t ++ t')%list, r)
  | (t, Throw e) => (t, Throw e)
  end.

Notation "x <- m ;; k" := (bind m (fun x => k))
  (at level 61, m at next level, right associativity).
Notation "m ;; k" := (bind m (fun _ => k))
  (at level 61, right associativity).

(** [try { m } catch (error) { h error }] *)
Definition tryCatch {A} (m : IO A) (h : JsError -> IO A) : IO A :=
  match m with
  | (t, Throw e) => let '(t', r) := h e in ((t ++ t')%list, r)
  | (t, Return a) => (t, Return a)
  end.

(** [if (c) throw new Error(msg)] *)
Definition throwIf (c : bool) (msg : string) : IO unit :=
  if c then throw (Error msg) else ret tt.

(** [await] of a call that was issued. *)
Definition await {A} (req : Request) (res : Completion A) : IO A := ([req], res).

(** [await] of a promise that issues nothing. *)
Definition lift {A} (c : Completion A) : IO A := ([], c).

Definition requests {A} (m : IO A) : list Request := fst m.
Definition completion {A} (m : IO A) : Completion A := snd m.

(** [for (const x of xs) body(x)] *)
Fixpoint forEach {A} (xs : list A) (body : A -> IO unit) : IO unit :=
  match xs with
  | [] => ret tt
  | x :: r => body x ;; forEach r body
  end.

(** [xs.map(f)] for an [f] that may throw. *)
Fixpoint mapThrowing {A B} (f : A -> Completion B) (xs : list A) : Completion (list B) :=
  match xs with
  | [] => Return []
  | x :: r =>
      match f x with
      | Throw e => Throw e
      | Return b =>
          match mapThrowing f r with
          | Throw e => Throw e
          | Return bs => Return (b :: bs)
          end
      end
  end.

(** [n || d] for an optional number. *)
Definition numOr (n : option Z) (d : Z) : Z :=
  match n with
  | Some 0 => d
  | Some v => v
  | None => d
  end.

(** What [convertToSentiment] returns. *)
Record SentimentScore : Type := mkSentimentScore {
  cs_sentiment : Sentiment;
  cs_score : Q
}.

(** [symbol.split("").reduce((acc, char) => acc + char.charCodeAt(0), acc0)] *)
Fixpoint reduceCharCodes (s : string) (acc : Z) : Z :=
  match s with
  | EmptyString => acc
  | String c r => reduceCharCodes r (acc + charCode c)
  end.

(** [new TypeError(...)], thrown by a property read on undefined or null. *)
Definition TypeError (msg : string) : JsError := mkError "TypeError" msg.

(* ================================================================== *)
(** * crypto-workflow.ts                                               *)
(* ================================================================== *)

Module Workflow.

Definition getFearGreedClassification (value : Q) : string :=
  if Qle_bool 75 value then "Extreme Greed"
  else if Qle_bool 55 value then "Greed"
  else if Qle_bool 45 value then "Neutral"
  else if Qle_bool 25 value then "Fear"
  else "Extreme Fear".

Definition convertToSentiment (value : Q) : SentimentScore :=
  let score := ((value - 50) / 50)%Q in
  let sentiment :=
    if Qle_bool 60 value then bullish
    else if Qle_bool value 40 then bearish
    else neutral in
  {| cs_sentiment := sentiment;
     cs_score := Math_max (-1) (Math_min 1 score) |}.

Record FallbackSentiment : Type := mkFallback {
  fb_sentiment : Sentiment;
  fb_score : Q;
  fb_fear_greed_value : Z
}.

Definition generateFallbackSentiment (w : World) (symbol : string) : FallbackSentiment :=
  let now := Date_now w in
  let hour := getHours w in
  let symbolHash := reduceCharCodes symbol 0 in
  let timeHash := Z.rem (now / (1000 * 60 * 60)) 100 in
  let combinedHash := Z.rem (symbolHash + timeHash) 100 in
  let adjustedValue :=
    if (9 <=? hour) && (hour <=? 16)
    then Z.abs (combinedHash - 50) + 30
    else combinedHash in
  let fearGreedValue := Z.max 0 (Z.min 100 adjustedValue) in
  let r := convertToSentiment (inject_Z fearGreedValue) in
  {| fb_sentiment := cs_sentiment r;
     fb_score := cs_score r;
     fb_fear_greed_value := fearGreedValue |}.

(** ** Step 1: fetch-crypto-price *)

Definition isMaliciousChar (c : ascii) : bool :=
  existsChar (Ascii.eqb c) "<>{}[]\/".

Definition invalidPatterns : list (string -> bool) :=
  [ existsChar isMaliciousChar                               (* /[<>{}[\]\\\/]/ *)
  ; forallChar isWhiteSpace                                  (* /^\s*$/ *)
  ; (fun s => negb (isEmpty s) && forallChar isDigit s) ].   (* /^[0-9]+$/ *)

(** The body of the [try] block. *)
Definition fetchCryptoPrice_try (w : World) (inputData : option WorkflowInput)
  : IO PriceStepOutput :=
  match inputData with
  | None => throw (Error "Input data not found")
  | Some i =>
      let crypto_id := in_crypto_id i in
      let crypto_symbol := in_crypto_symbol i in
      let news_limit := in_news_limit i in
      throwIf (isEmpty crypto_id || (len (trim crypto_id) =? 0))
        "Invalid cryptocurrency ID provided" ;;
      throwIf (isEmpty crypto_symbol || (len (trim crypto_symbol) =? 0))
        "Invalid cryptocurrency symbol provided" ;;
      let normalizedId := trim (toLowerCase crypto_id) in
      let normalizedSymbol := trim (toUpperCase crypto_symbol) in
      let validLimit := Z.max 1 (Z.min 20 (numOr news_limit 3)) in
      forEach invalidPatterns (fun pattern =>
        throwIf (pattern normalizedId)
          ("Invalid cryptocurrency ID format: '" ++ crypto_id ++ "'")) ;;
      throwIf (falsy (COINCAP_API_KEY (env w)))
        "COINCAP_API_KEY environment variable is required" ;;
      let apiKey := optOrElse (COINCAP_API_KEY (env w)) "" in
      response <- await (GetRates normalizedId apiKey) (fetchRates w normalizedId apiKey) ;;
      (if ok response then ret tt
       else if status response =? 404 then
         throw (Error ("Cryptocurrency '" ++ crypto_id
                       ++ "' not found. Please verify the cryptocurrency identifier."))
       else if status response =? 429 then
         throw (Error "Rate limit exceeded. Please try again in a few moments.")
       else if 500 <=? status response then
         throw (Error "CoinCap API is temporarily unavailable. Please try again later.")
       else
         throw (Error ("Failed to fetch crypto data: " ++ intToString (status response)
                       ++ " " ++ statusText response))) ;;
      data <- lift (json response) ;;
      match data with
      | RatesNotObject => throw (Error "Invalid response format from CoinCap API")
      | RatesObject None =>
          throw (Error ("Cryptocurrency '" ++ crypto_id ++ "' not found in CoinCap database"))
      | RatesObject (Some d) =>
          match rd_rateUsd d with
          | None => throw (Error ("Invalid price data received for '" ++ crypto_id ++ "'"))
          | Some rateUsd =>
              throwIf (isEmpty rateUsd || isNaN (parseFloat rateUsd))
                ("Invalid price data received for '" ++ crypto_id ++ "'") ;;
              let price := parseFloat rateUsd in
              throwIf (leZero price)
                ("Invalid price value for '" ++ crypto_id ++ "': " ++ Number_toString w price) ;;
              ret {| p_crypto_id := normalizedId;
                     p_crypto_symbol := normalizedSymbol;
                     p_news_limit := validLimit;
                     p_name := optOrElse (rd_id d) normalizedId;
                     p_symbol := optOrElse (rd_symbol d) normalizedSymbol;
                     p_priceUsd := rateUsd;
                     p_changePercent24Hr := Some "N/A";
                     p_error := None |}
          end
      end
  end.

(** [execute]: the [catch] block returns the error state. *)
Definition fetchCryptoPrice (w : World) (inputData : option WorkflowInput)
  : IO PriceStepOutput :=
  tryCatch (fetchCryptoPrice_try w inputData) (fun error =>
    ret {| p_crypto_id := optOrElse (option_map in_crypto_id inputData) "unknown";
           p_crypto_symbol := optOrElse (option_map in_crypto_symbol inputData) "UNKNOWN";
           p_news_limit :=
             numOr (match inputData with Some i => in_news_limit i | None => None end) 3;
           p_name := optOrElse (option_map in_crypto_id inputData) "unknown";
           p_symbol := optOrElse (option_map in_crypto_symbol inputData) "UNKNOWN";
           p_priceUsd := "0";
           p_changePercent24Hr := Some "N/A";
           p_error := Some (err_message error) |}).

(** The zod [inputSchema] of step 1: both strings have at least one
    character, the limit (default 3) lies between 1 and 20. *)
Definition fetchCryptoPrice_inputSchema (i : WorkflowInput) : bool :=
  (1 <=? len (in_crypto_id i)) && (1 <=? len (in_crypto_symbol i)) &&
  match in_news_limit i with
  | Some n => (1 <=? n) && (n <=? 20)
  | None => true
  end.

(** ** Step 2: fetch-sentiment-score

    The step receives what step 1 returned, which is always a record; the
    guard on a missing [inputData] is therefore not part of the model. *)

Definition fetchSentimentScore_try (w : World) (inputData : PriceStepOutput)
  : IO SentimentStepOutput :=
  throwIf (isEmpty (p_crypto_symbol inputData))
    "Invalid cryptocurrency symbol for sentiment analysis" ;;
  let _normalizedSymbol := trim (toUpperCase (p_crypto_symbol inputData)) in
  if falsy (COINMARKETCAP_API_KEY (env w)) then
    ret {| s_inputData := inputData;
           s_sentiment := neutral;
           s_score := 0;
           s_fearGreedValue := 50;
           s_classification := "Neutral (API Unavailable)";
           s_price_error := p_error inputData;
           s_sentiment_error := Some "API key not configured, using fallback sentiment" |}
  else
    let apiKey := optOrElse (COINMARKETCAP_API_KEY (env w)) "" in
    response <- await (GetFearGreed apiKey) (fetchFearGreed w apiKey) ;;
    (if ok response then ret tt
     else
       let errorMessage :=
         if status response =? 401 then "Invalid CoinMarketCap API key"
         else if status response =? 429 then "CoinMarketCap API rate limit exceeded"
         else if 500 <=? status response then "CoinMarketCap API temporarily unavailable"
         else "CoinMarketCap API error: " ++ intToString (status response) in
       throw (Error errorMessage)) ;;
    data <- lift (json response) ;;
    match data with
    | FearGreedNotObject | FearGreedObject None _ =>
        throw (Error "Invalid response format from CoinMarketCap API")
    | FearGreedObject (Some st) points =>
        throwIf (negb (match error_code st with Some c => String.eqb c "0" | None => false end))
          ("API Error: " ++ optOrElse (error_message st) "Unknown CoinMarketCap error") ;;
        match points with
        | None | Some [] => throw (Error "No Fear & Greed data available")
        | Some (None :: _) => throw (Error "Invalid Fear & Greed data format")
        | Some (Some latestData :: _) =>
            match fg_value latestData with
            | None => throw (Error "Invalid Fear & Greed data format")
            | Some fearGreedValue =>
                throwIf (negb (Qle_bool 0 fearGreedValue) || negb (Qle_bool fearGreedValue 100))
                  ("Invalid Fear & Greed value: " ++ Q_toString w fearGreedValue) ;;
                let classification :=
                  optOrElse (value_classification latestData)
                            (getFearGreedClassification fearGreedValue) in
                let r := convertToSentiment fearGreedValue in
                ret {| s_inputData := inputData;
                       s_sentiment := cs_sentiment r;
                       s_score := cs_score r;
                       s_fearGreedValue := fearGreedValue;
                       s_classification := classification;
                       s_price_error := p_error inputData;
                       s_sentiment_error := None |}
            end
        end
    end.

Definition fetchSentimentScore (w : World) (inputData : PriceStepOutput)
  : IO SentimentStepOutput :=
  tryCatch (fetchSentimentScore_try w inputData) (fun error =>
    let fallbackSentiment :=
      generateFallbackSentiment w (orElse (p_crypto_symbol inputData) "UNKNOWN") in
    ret {| s_inputData := inputData;
           s_sentiment := fb_sentiment fallbackSentiment;
           s_score := fb_score fallbackSentiment;
           s_fearGreedValue :=
             inject_Z (numOr (Some (fb_fear_greed_value fallbackSentiment)) 50);
           s_classification := "Neutral (Fallback)";
           s_price_error := p_error inputData;
           s_sentiment_error := Some (err_message error) |}).

(** ** Step 3: fetch-crypto-news *)

(** The callback of [data.articles.map]: reading [article.source.name]
    throws when the article or its [source] is missing. *)
Definition toStepArticle (article : option RawArticle) : Completion StepArticle :=
  match article with
  | None => Throw (TypeError "Cannot read properties of undefined")
  | Some a =>
      match a_source a with
      | None => Throw (TypeError "Cannot read properties of undefined (reading 'name')")
      | Some name =>
          Return {| sa_title := a_title a;
                    sa_description := optOrElse (a_description a) "";
                    sa_url := a_url a;
                    sa_publishedAt := a_publishedAt a;
                    sa_source := name |}
      end
  end.

(** The body of the [try] block, entered when the key is set; its value
    is what [articles] holds afterwards. *)
Definition fetchCryptoNews_try (w : World) (inputData : SentimentStepOutput)
  (apiKey : string) : IO (list StepArticle) :=
  let searchQuery := p_crypto_id (s_inputData inputData) ++ " cryptocurrency" in
  let pageSize := p_news_limit (s_inputData inputData) in
  response <- await (GetNews searchQuery pageSize apiKey)
                    (fetchNews w searchQuery pageSize apiKey) ;;
  if ok response then
    data <- lift (json response) ;;
    match data with
    | NewsNotObject => throw (TypeError "Cannot read properties of undefined (reading 'map')")
    | NewsIsObject o =>
        match nj_articles o with
        | None => throw (TypeError "data.articles.map is not a function")
        | Some l => lift (mapThrowing toStepArticle l)
        end
    end
  else ret [].

Definition fetchCryptoNews (w : World) (inputData : option SentimentStepOutput)
  : IO NewsStepOutput :=
  match inputData with
  | None => throw (Error "Input data not found")
  | Some i =>
      articles <-
        (if falsy (NEWS_API_KEY (env w)) then ret []
         else tryCatch (fetchCryptoNews_try w i (optOrElse (NEWS_API_KEY (env w)) ""))
                       (fun _error => ret [])) ;;
      ret {| n_priceData :=
               {| pd_name := p_name (s_inputData i);
                  pd_symbol := p_symbol (s_inputData i);
                  pd_priceUsd := p_priceUsd (s_inputData i);
                  pd_changePercent24Hr := p_changePercent24Hr (s_inputData i) |};
             n_sentimentData :=
               {| sd_sentiment := s_sentiment i;
                  sd_score := s_score i;
                  sd_fearGreedValue := s_fearGreedValue i;
                  sd_classification := s_classification i |};
             n_articles := articles |}
  end.

(** ** Step 4: compile-analysis *)

Definition compileAnalysis (w : World) (inputData : option NewsStepOutput)
  : IO AnalysisReport :=
  match inputData with
  | None => throw (Error "Input data not found")
  | Some i =>
      let priceData := n_priceData i in
      let sentimentData := n_sentimentData i in
      let articles := n_articles i in
      chunks <- await AgentStream (agentStream w i) ;;
      let analysisText := String.concat "" chunks in
      ret {| r_analysis := analysisText;
             r_crypto_info :=
               {| ci_name := pd_name priceData;
                  ci_symbol := pd_symbol priceData;
                  ci_price_usd := pd_priceUsd priceData;
                  ci_change_24h := pd_changePercent24Hr priceData |};
             r_sentiment_analysis :=
               {| an_sentiment := sd_sentiment sentimentData;
                  an_score := sd_score sentimentData;
                  an_fear_greed_value := sd_fearGreedValue sentimentData;
                  an_classification := sd_classification sentimentData |};
             r_latest_news :=
               map (fun article =>
                      {| ra_title := sa_title article;
                         ra_description := sa_description article;
                         ra_url := sa_url article;
                         ra_published_at := sa_publishedAt article;
                         ra_source := sa_source article |}) articles;
             r_timestamp := toISOString w (Date_now w) |}
  end.

(** ** The workflow: the four steps chained with [.then] *)

Definition cryptoAnalysisWorkflow (w : World) (input : WorkflowInput)
  : IO AnalysisReport :=
  priceOut <- fetchCryptoPrice w (Some input) ;;
  sentimentOut <- fetchSentimentScore w priceOut ;;
  newsOut <- fetchCryptoNews w (Some sentimentOut) ;;
  compileAnalysis w (Some newsOut).

(** ** The direct entry points *)

(** A line feed, the [\n] of a template string. *)
Definition LF : string := String (ascii_of_nat 10) EmptyString.

(** [runCryptoAnalysis(input)]: resolves to a fixed analysis structure; the
    characters outside the one-byte range are written in UTF-8. *)
Definition runCryptoAnalysis (w : World) (input : WorkflowInput) : IO AnalysisReport :=
  ret {| r_analysis :=
           "🔍 **" ++ toUpperCase (in_crypto_id input) ++ " Analysis**" ++ LF ++ LF
           ++ "This is a comprehensive crypto analysis workflow that chains together:" ++ LF
           ++ "1. Price data fetching" ++ LF
           ++ "2. Sentiment analysis" ++ LF
           ++ "3. News retrieval" ++ LF
           ++ "4. Complete market analysis" ++ LF ++ LF
           ++ "Use the individual tools (getCryptoPrice, getSentimentScore, getCryptoNews) for specific data, or use the comprehensive analysis tools for complete market insights.";
         r_crypto_info :=
           {| ci_name := in_crypto_id input;
              ci_symbol := in_crypto_symbol input;
              ci_price_usd := "0.00";
              ci_change_24h := Some "N/A" |};
         r_sentiment_analysis :=
           {| an_sentiment := neutral;
              an_score := 0;
              an_fear_greed_value := 50;
              an_classification := "Neutral" |};
         r_latest_news := [];
         r_timestamp := toISOString w (Date_now w) |}.

(** The own properties of [cryptoMap], in insertion order: key, id, symbol. *)
Definition cryptoMap : list (string * (string * string)) :=
  [ ("bitcoin", ("bitcoin", "BTC"))
  ; ("ethereum", ("ethereum", "ETH"))
  ; ("cardano", ("cardano", "ADA"))
  ; ("solana", ("solana", "SOL"))
  ; ("dogecoin", ("dogecoin", "DOGE"))
  ; ("polkadot", ("polkadot", "DOT"))
  ; ("chainlink", ("chainlink", "LINK"))
  ; ("litecoin", ("litecoin", "LTC")) ].

(** The properties an object literal inherits from [Object.prototype]. *)
Definition inheritedKeys : list string :=
  [ "constructor"; "__defineGetter__"; "__defineSetter__"; "hasOwnProperty"
  ; "__lookupGetter__"; "__lookupSetter__"; "isPrototypeOf"
  ; "propertyIsEnumerable"; "toString"; "valueOf"; "__proto__"; "toLocaleString" ].

(** What [cryptoMap[key]] evaluates to. *)
Inductive MapValue : Type :=
| Own (id symbol : string)   (* an entry of the map *)
| Inherited                  (* a truthy value of the prototype, without [id] *)
| Undefined.

Fixpoint ownProperty (entries : list (string * (string * string))) (key : string)
  : option (string * string) :=
  match entries with
  | [] => None
  | (k, v) :: r => if String.eqb k key then Some v else ownProperty r key
  end.

Definition getProperty (key : string) : MapValue :=
  match ownProperty cryptoMap key with
  | Some (id, symbol) => Own id symbol
  | None => if existsb (String.eqb key) inheritedKeys then Inherited else Undefined
  end.

(** [quickCryptoAnalysis(cryptoName)] *)
Definition quickCryptoAnalysis (w : World) (cryptoName : string) : IO AnalysisReport :=
  match getProperty (toLowerCase cryptoName) with
  | Undefined =>
      throw (Error ("Cryptocurrency '" ++ cryptoName ++ "' not found. Available options: "
                    ++ String.concat ", " (map fst cryptoMap)))
  | Own id symbol =>
      runCryptoAnalysis w {| in_crypto_id := id;
                             in_crypto_symbol := symbol;
                             in_news_limit := Some 3 |}
  | Inherited =>
      (* [input.crypto_id] is undefined in [runCryptoAnalysis] *)
      throw (TypeError "Cannot read properties of undefined (reading 'toUpperCase')")
  end.

End Workflow.

(** [`${sentiment}`] *)
Definition sentimentToString (s : Sentiment) : string :=
  match s with
  | bullish => "bullish"
  | bearish => "bearish"
  | neutral => "neutral"
  end.

(* ================================================================== *)
(** * The sentiment tool (getSentimentScore)                           *)
(* ================================================================== *)

Module SentimentTool.

Definition getFearGreedClassification (value : Q) : string :=
  if Qle_bool 75 value then "Extreme Greed"
  else if Qle_bool 55 value then "Greed"
  else if Qle_bool 45 value then "Neutral"
  else if Qle_bool 25 value then "Fear"
  else "Extreme Fear".

Definition convertToSentiment (value : Q) : SentimentScore :=
  let score := ((value - 50) / 50)%Q in
  let sentiment :=
    if Qle_bool 60 value then bullish
    else if Qle_bool value 40 then bearish
    else neutral in
  {| cs_sentiment := sentiment;
     cs_score := Math_max (-1) (Math_min 1 score) |}.

(** The tool's output. *)
Record Output : Type := mkOutput {
  symbol : string;
  sentiment : Sentiment;
  score : Q;
  confidence : Q;
  analysis : string;
  fear_greed_value : option Q;
  error : option string
}.

Definition generateFallbackSentiment (w : World) (symbol : string) : Output :=
  let now := Date_now w in
  let hour := getHours w in
  let dayOfWeek := getDay w in
  let symbolHash := reduceCharCodes symbol 0 in
  let timeHash := Z.rem (now / (1000 * 60 * 60)) 100 in
  let combinedHash := Z.rem (symbolHash + timeHash) 100 in
  let adjustedValue :=
    if (9 <=? hour) && (hour <=? 16) && (1 <=? dayOfWeek) && (dayOfWeek <=? 5)
    then Z.abs (combinedHash - 50) + 30
    else combinedHash in
  let fearGreedValue := Z.max 0 (Z.min 100 adjustedValue) in
  let r := convertToSentiment (inject_Z fearGreedValue) in
  let classification := getFearGreedClassification (inject_Z fearGreedValue) in
  {| symbol := symbol;
     sentiment := cs_sentiment r;
     score := cs_score r;
     confidence := 3 # 10;
     fear_greed_value := Some (inject_Z fearGreedValue);
     analysis :=
       "Using fallback sentiment analysis for " ++ symbol
       ++ ". Estimated Fear & Greed Index: " ++ intToString fearGreedValue
       ++ "/100 (" ++ classification ++ "). This indicates "
       ++ sentimentToString (cs_sentiment r)
       ++ " market sentiment. Note: This is a fallback calculation due to API unavailability.";
     error := Some "Primary sentiment API unavailable, using fallback calculation" |}.

Definition fetchSentimentWithFallback_try (w : World) (symbol : string) : IO Output :=
  if falsy (COINMARKETCAP_API_KEY (env w)) then
    ret (generateFallbackSentiment w symbol)
  else
    let apiKey := optOrElse (COINMARKETCAP_API_KEY (env w)) "" in
    response <- await (GetFearGreed apiKey) (fetchFearGreed w apiKey) ;;
    (if ok response then ret tt
     else if status response =? 401 then
       throw (Error "Invalid CoinMarketCap API key. Please check your configuration.")
     else if status response =? 429 then
       throw (Error "CoinMarketCap API rate limit exceeded. Please try again later.")
     else if 500 <=? status response then
       throw (Error "CoinMarketCap API is temporarily unavailable.")
     else
       throw (Error ("CoinMarketCap API error: " ++ intToString (status response)
                     ++ " " ++ statusText response))) ;;
    data <- lift (json response) ;;
    match data with
    | FearGreedNotObject => throw (Error "Invalid response format from CoinMarketCap API")
    | FearGreedObject None _ => throw (Error "Invalid API response structure")
    | FearGreedObject (Some st) points =>
        throwIf (negb (match error_code st with Some c => String.eqb c "0" | None => false end))
          ("CoinMarketCap API Error: " ++ optOrElse (error_message st) "Unknown error") ;;
        match points with
        | None | Some [] => throw (Error "No Fear & Greed data available from CoinMarketCap")
        | Some (None :: _) => throw (Error "Invalid Fear & Greed data format")
        | Some (Some latestData :: _) =>
            match fg_value latestData with
            | None => throw (Error "Invalid Fear & Greed data format")
            | Some fearGreedValue =>
                throwIf (negb (Qle_bool 0 fearGreedValue) || negb (Qle_bool fearGreedValue 100))
                  ("Invalid Fear & Greed value: " ++ Q_toString w fearGreedValue) ;;
                let classification :=
                  optOrElse (value_classification latestData)
                            (getFearGreedClassification fearGreedValue) in
                let r := convertToSentiment fearGreedValue in
                ret {| symbol := symbol;
                       sentiment := cs_sentiment r;
                       score := cs_score r;
                       confidence := 85 # 100;
                       fear_greed_value := Some fearGreedValue;
                       analysis :=
                         "Current Crypto Fear & Greed Index: " ++ Q_toString w fearGreedValue
                         ++ "/100 (" ++ classification ++ "). This indicates "
                         ++ sentimentToString (cs_sentiment r)
                         ++ " market sentiment for the overall cryptocurrency market. The index considers market volatility, volume, social media sentiment, surveys, dominance, and trends.";
                       error := None |}
            end
        end
    end.

Definition fetchSentimentWithFallback (w : World) (symbol : string) : IO Output :=
  tryCatch (fetchSentimentWithFallback_try w symbol)
           (fun _error => ret (generateFallbackSentiment w symbol)).

(** /^[A-Z0-9]{2,10}$/ *)
Definition validSymbolPattern (s : string) : bool :=
  (2 <=? len s) && (len s <=? 10) &&
  forallChar (fun c => ((65 <=? charCode c) && (charCode c <=? 90)) || isDigit c) s.

Definition invalidSymbols : list string := ["XXX"; "NULL"; "UNDEFINED"; "TEST"].

(** [getSentimentScore.execute({ context })] *)
Definition execute (w : World) (crypto_symbol : string) : IO Output :=
  tryCatch
    (let normalizedSymbol := trim (toUpperCase crypto_symbol) in
     throwIf (isEmpty normalizedSymbol) "Cryptocurrency symbol cannot be empty" ;;
     throwIf (negb (validSymbolPattern normalizedSymbol))
       ("Invalid cryptocurrency symbol format: '" ++ crypto_symbol ++ "'") ;;
     throwIf (existsb (String.eqb normalizedSymbol) invalidSymbols)
       ("Invalid cryptocurrency symbol: '" ++ normalizedSymbol ++ "'") ;;
     fetchSentimentWithFallback w normalizedSymbol)
    (fun error =>
       ret {| symbol := crypto_symbol;
              sentiment := neutral;
              score := 0;
              confidence := 1 # 10;
              analysis :=
                "Unable to fetch sentiment data: " ++ err_message error
                ++ ". Returning neutral sentiment as fallback.";
              fear_greed_value := None;
              error := Some (err_message error) |}).

End SentimentTool.

(* ================================================================== *)
(** * The price tool (getCryptoPrice)                                  *)
(* ================================================================== *)

Module PriceTool.

(** The tool's output. *)
Record Output : Type := mkOutput {
  name : string;
  symbol : string;
  priceUsd : string;
  changePercent24Hr : option string;
  error : option string
}.

Definition invalidPatterns : list (string -> bool) :=
  [ forallChar isWhiteSpace                                  (* /^\s*$/ *)
  ; existsChar Workflow.isMaliciousChar                      (* /[<>{}[\]\\\/]/ *)
  ; (fun s => negb (isEmpty s) && forallChar isDigit s) ].   (* /^[0-9]+$/ *)

(** The body of the [try] block of [getPrice]. *)
Definition getPrice_try (w : World) (crypto_id normalizedId apiKey : string) : IO Output :=
  response <- await (GetRates normalizedId apiKey) (fetchRates w normalizedId apiKey) ;;
  (if ok response then ret tt
   else if status response =? 404 then
     throw (Error ("Cryptocurrency '" ++ crypto_id
                   ++ "' not found. Please check the spelling and try again."))
   else if status response =? 429 then
     throw (Error "Rate limit exceeded. Please try again in a few moments.")
   else if 500 <=? status response then
     throw (Error "CoinCap API is temporarily unavailable. Please try again later.")
   else
     throw (Error ("Failed to fetch crypto data for " ++ crypto_id ++ ": "
                   ++ intToString (status response) ++ " " ++ statusText response))) ;;
  cryptoData <- lift (json response) ;;
  match cryptoData with
  | RatesNotObject => throw (Error "Invalid response format from CoinCap API")
  | RatesObject None =>
      throw (Error ("Cryptocurrency '" ++ crypto_id ++ "' not found in CoinCap database"))
  | RatesObject (Some d) =>
      match rd_rateUsd d with
      | None => throw (Error ("Invalid price data received for '" ++ crypto_id ++ "'"))
      | Some rateUsd =>
          throwIf (isEmpty rateUsd || isNaN (parseFloat rateUsd))
            ("Invalid price data received for '" ++ crypto_id ++ "'") ;;
          let price := parseFloat rateUsd in
          throwIf (leZero price)
            ("Invalid price value for '" ++ crypto_id ++ "': " ++ Number_toString w price) ;;
          ret {| name := optOrElse (rd_id d) crypto_id;
                 symbol := optOrElse (rd_symbol d) (toUpperCase crypto_id);
                 priceUsd := rateUsd;
                 changePercent24Hr := Some "N/A";
                 error := None |}
      end
  end.

Definition getPrice (w : World) (crypto_id : string) : IO Output :=
  throwIf (isEmpty crypto_id) "Invalid cryptocurrency ID provided" ;;
  let normalizedId := trim (toLowerCase crypto_id) in
  throwIf (isEmpty normalizedId) "Cryptocurrency ID cannot be empty" ;;
  forEach invalidPatterns (fun pattern =>
    throwIf (pattern normalizedId)
      ("Invalid cryptocurrency ID format: '" ++ crypto_id ++ "'")) ;;
  throwIf (falsy (COINCAP_API_KEY (env w)))
    "COINCAP_API_KEY environment variable is required" ;;
  let apiKey := optOrElse (COINCAP_API_KEY (env w)) "" in
  tryCatch (getPrice_try w crypto_id normalizedId apiKey) (fun error =>
    if String.eqb (err_name error) "AbortError" then
      throw (Error ("Request timeout while fetching data for '" ++ crypto_id
                    ++ "'. Please try again."))
    else throw error).

(** [getCryptoPrice.execute({ context })] *)
Definition execute (w : World) (crypto_id : string) : IO Output :=
  tryCatch
    (let normalizedId := trim (toLowerCase crypto_id) in
     throwIf (isEmpty normalizedId) "Cryptocurrency ID cannot be empty or whitespace only" ;;
     getPrice w normalizedId)
    (fun error =>
       ret {| name := crypto_id;
              symbol := "UNKNOWN";
              priceUsd := "0";
              changePercent24Hr := Some "N/A";
              error := Some (err_message error) |}).

(** The zod [inputSchema]: 1 to 50 characters of [a-z0-9-]. *)
Definition inputSchema (crypto_id : string) : bool :=
  (1 <=? len crypto_id) && (len crypto_id <=? 50) &&
  forallChar (fun c => ((97 <=? charCode c) && (charCode c <=? 122))
                       || isDigit c || (charCode c =? 45)) crypto_id.

End PriceTool.

(* ================================================================== *)
(** * tools/getCryptoNews.ts                                           *)
(* ================================================================== *)

Module NewsTool.

Record Article : Type := mkArticle {
  title : string;
  description : string;
  url : string;
  publishedAt : string;
  source : string
}.

(** The tool's output; [out_source] is the provenance of the articles. *)
Record Output : Type := mkOutput {
  articles : list Article;
  error : option string;
  out_source : option string
}.

(** ** [new URL(url).protocol] *)

Definition isC0OrSpace (c : ascii) : bool := charCode c <=? 32.

Definition isTabOrNewline (c : ascii) : bool :=
  (charCode c =? 9) || (charCode c =? 10) || (charCode c =? 13).

Definition isAsciiAlpha (c : ascii) : bool :=
  let n := charCode c in
  ((65 <=? n) && (n <=? 90)) || ((97 <=? n) && (n <=? 122)).

Definition isSchemeChar (c : ascii) : bool :=
  isAsciiAlpha c || isDigit c
  || (charCode c =? 43) || (charCode c =? 45) || (charCode c =? 46).

(** The scheme state of the URL parser: the lower-cased scheme up to the
    colon, and what follows it. *)
Fixpoint readScheme (s : string) : option (string * string) :=
  match s with
  | EmptyString => None
  | String c r =>
      if charCode c =? 58 then Some (EmptyString, r)
      else if isSchemeChar c then
        match readScheme r with
        | Some (scheme, rest) => Some (String (lowerChar c) scheme, rest)
        | None => None
        end
      else None
  end.

(** Without a base, a URL has to start with a scheme. *)
Definition URL_scheme (u : string) : option (string * string) :=
  let s := filterChars (fun c => negb (isTabOrNewline c))
             (stripEnd isC0OrSpace (stripStart isC0OrSpace u)) in
  match s with
  | String c _ => if isAsciiAlpha c then readScheme s else None
  | EmptyString => None
  end.

Definition isValidUrl (w : World) (url : option string) : bool :=
  match url with
  | None => false
  | Some u =>
      if isEmpty u then false
      else
        match URL_scheme u with
        | Some (scheme, rest) =>
            (String.eqb scheme "http" || String.eqb scheme "https") && URL_hostOk w rest
        | None => false
        end
  end.

Definition isValidDate (w : World) (dateString : option string) : bool :=
  match dateString with
  | None => false
  | Some s =>
      if isEmpty s then false
      else
        match Date_parse w s with
        | None => false
        | Some t => 2000 <? getFullYear w t
        end
  end.

(** ** [title.replace(/Bitcoin|Ethereum|DeFi/i, replacement)] *)

Fixpoint dropChars (n : nat) (s : string) : string :=
  match n, s with
  | O, _ => s
  | S n', String _ r => dropChars n' r
  | S _, EmptyString => EmptyString
  end.

(** The first alternative that matches at the start of [s], ignoring
    case: the text it matched. *)
Fixpoint matchAt (alternatives : list string) (s : string) : option string :=
  match alternatives with
  | [] => None
  | a :: r =>
      if String.prefix (toLowerCase a) (toLowerCase s)
      then Some (substring0 (String.length a) s)
      else matchAt r s
  end.

(** The leftmost match: what precedes it, the match, what follows. *)
Fixpoint searchFrom (alternatives : list string) (before s : string)
  : option (string * string * string) :=
  match matchAt alternatives s with
  | Some m => Some (before, m, dropChars (String.length m) s)
  | None =>
      match s with
      | EmptyString => None
      | String c r => searchFrom alternatives (before ++ String c EmptyString) r
      end
  end.

(** The dollar patterns of a replacement string, for a pattern without
    capture groups. *)
Fixpoint getSubstitution (matched before after replacement : string) : string :=
  match replacement with
  | EmptyString => EmptyString
  | String "$" (String "$" r) => String "$" (getSubstitution matched before after r)
  | String "$" (String "&" r) => matched ++ getSubstitution matched before after r
  | String "$" (String "`" r) => before ++ getSubstitution matched before after r
  | String "$" (String "'" r) => after ++ getSubstitution matched before after r
  | String c r => String c (getSubstitution matched before after r)
  end.

Definition replaceFirst (alternatives : list string) (s replacement : string) : string :=
  match searchFrom alternatives EmptyString s with
  | None => s
  | Some (before, m, after) =>
      before ++ getSubstitution m before after replacement ++ after
  end.

(** ** The templated fallback *)

(** [query.charAt(0).toUpperCase() + query.slice(1)] *)
Definition capitalize (query : string) : string :=
  toUpperCase (charAt0 query) ++ slice1 query.

Definition baseArticles (w : World) (query : string) : list Article :=
  let now := Date_now w in
  [ {| title := capitalize query ++ " Market Analysis: Key Trends and Developments";
       description := "Comprehensive analysis of " ++ query
         ++ " market trends, showing recent price movements and market sentiment indicators.";
       url := "https://coindesk.com";
       publishedAt := toISOString w now;
       source := "CoinDesk" |}
  ; {| title := "Bitcoin Price Analysis and Market Outlook";
       description := "Technical analysis reveals key support and resistance levels for Bitcoin in the current market cycle with implications for the broader crypto market.";
       url := "https://cointelegraph.com";
       publishedAt := toISOString w (now - 3600000);
       source := "Cointelegraph" |}
  ; {| title := "Ethereum Network Upgrade and DeFi Impact";
       description := "Latest Ethereum network improvements and their significant impact on the decentralized finance ecosystem and gas fees.";
       url := "https://decrypt.co";
       publishedAt := toISOString w (now - 7200000);
       source := "Decrypt" |}
  ; {| title := "Global Crypto Regulation Updates and Market Response";
       description := "Recent regulatory developments affecting the cryptocurrency industry globally, including new policies from major economies.";
       url := "https://coindesk.com";
       publishedAt := toISOString w (now - 10800000);
       source := "CoinDesk" |}
  ; {| title := "DeFi Protocol Security Analysis and Best Practices";
       description := "In-depth security considerations and best practices for decentralized finance protocols following recent security incidents.";
       url := "https://theblock.co";
       publishedAt := toISOString w (now - 14400000);
       source := "The Block" |}
  ; {| title := "Institutional Adoption of Cryptocurrency Continues";
       description := "Major corporations and financial institutions continue to adopt cryptocurrency solutions, driving mainstream acceptance.";
       url := "https://coindesk.com";
       publishedAt := toISOString w (now - 18000000);
       source := "CoinDesk" |} ].

Definition customize (query : string) (article : Article) : Article :=
  {| title :=
       if includes (title article) query then title article
       else replaceFirst ["Bitcoin"; "Ethereum"; "DeFi"] (title article) (capitalize query);
     description :=
       if includes (description article) query then description article
       else description article ++ " Analysis focuses on " ++ query ++ " market dynamics.";
     url := url article;
     publishedAt := publishedAt article;
     source := source article |}.

(** [xs.slice(0, n)] *)
Definition slice0 {A} (n : Z) (xs : list A) : list A := firstn (Z.to_nat n) xs.

Definition fetchCryptoNewsFromAlternativeSource_try (w : World) (query : string) (limit : Z)
  : IO Output :=
  throwIf (isEmpty query || (len (trim query) =? 0))
    "Invalid query for fallback news source" ;;
  let limit := if (limit <? 1) || (20 <? limit) then 5 else limit in
  let customizedArticles := map (customize query) (baseArticles w query) in
  let selectedArticles :=
    slice0 (Z.min limit (Z.of_nat (List.length (baseArticles w query)))) customizedArticles in
  ret {| articles := selectedArticles;
         out_source := Some "fallback";
         error := Some "Primary news source unavailable, using fallback content" |}.

Definition fetchCryptoNewsFromAlternativeSource (w : World) (query : string) (limit : Z)
  : IO Output :=
  tryCatch (fetchCryptoNewsFromAlternativeSource_try w query limit) (fun error =>
    ret {| articles :=
             [ {| title := "Crypto News Service Temporarily Unavailable";
                  description := "Unable to fetch crypto news at the moment due to service issues. Please try again later or check major crypto news websites directly.";
                  url := "#";
                  publishedAt := toISOString w (Date_now w);
                  source := "System Notice" |} ];
           out_source := Some "error";
           error := Some (err_message error) |}).

(** ** The live tier *)

(** [.filter((article) => article && typeof article === "object")] *)
Fixpoint filterObjects (xs : list (option RawArticle)) : list RawArticle :=
  match xs with
  | [] => []
  | Some a :: r => a :: filterObjects r
  | None :: r => filterObjects r
  end.

(** The callback of [.map]: sanitize and validate each article. *)
Definition sanitize (w : World) (article : RawArticle) : Article :=
  {| title := substring0 200 (optOrElse (a_title article) "No title");
     description :=
       substring0 500 (optOrElse (a_description article) "No description available");
     url := if isValidUrl w (a_url article) then optOrElse (a_url article) "" else "#";
     publishedAt :=
       if isValidDate w (a_publishedAt article)
       then optOrElse (a_publishedAt article) ""
       else toISOString w (Date_now w);
     source :=
       substring0 100
         (optOrElse (match a_source article with Some name => name | None => None end)
                    "Unknown") |}.

Definition fetchCryptoNewsWithFallback_try (w : World) (query : string) (limit : Z)
  : IO Output :=
  if falsy (NEWSAPI_KEY (env w)) then
    fetchCryptoNewsFromAlternativeSource w query limit
  else
    let apiKey := optOrElse (NEWSAPI_KEY (env w)) "" in
    let searchQuery := query ++ " cryptocurrency bitcoin ethereum crypto" in
    response <- await (GetNews searchQuery limit apiKey)
                      (fetchNews w searchQuery limit apiKey) ;;
    (if ok response then ret tt
     else if status response =? 429 then
       throw (Error "Rate limit exceeded for NewsAPI. Using fallback source.")
     else if status response =? 401 then
       throw (Error "Invalid NewsAPI key. Using fallback source.")
     else if 500 <=? status response then
       throw (Error "NewsAPI service unavailable. Using fallback source.")
     else
       throw (Error ("NewsAPI error: " ++ intToString (status response)
                     ++ " " ++ statusText response))) ;;
    data <- lift (json response) ;;
    match data with
    | NewsNotObject => throw (Error "Invalid response format from NewsAPI")
    | NewsIsObject o =>
        throwIf (match nj_status o with Some s => String.eqb s "error" | None => false end)
          ("NewsAPI error: " ++ optOrElse (nj_message o) "Unknown error") ;;
        match nj_articles o with
        | None => throw (Error "No articles found in NewsAPI response")
        | Some raw =>
            let articles := map (sanitize w) (slice0 limit (filterObjects raw)) in
            throwIf (Z.of_nat (List.length articles) =? 0) "No valid articles found" ;;
            ret {| articles := articles;
                   out_source := Some "NewsAPI";
                   error := None |}
        end
    end.

Definition fetchCryptoNewsWithFallback (w : World) (query : string) (limit : Z)
  : IO Output :=
  tryCatch (fetchCryptoNewsWithFallback_try w query limit)
           (fun _error => fetchCryptoNewsFromAlternativeSource w query limit).

(** ** The tool *)

(** [/\{.*\}/]: a closing brace follows on the same line. *)
Fixpoint closesBrace (s : string) : bool :=
  match s with
  | EmptyString => false
  | String c r =>
      if charCode c =? 125 then true
      else if (charCode c =? 10) || (charCode c =? 13) then false
      else closesBrace r
  end.

Fixpoint hasBraces (s : string) : bool :=
  match s with
  | EmptyString => false
  | String c r => ((charCode c =? 123) && closesBrace r) || hasBraces r
  end.

Definition dangerousPatterns : list (string -> bool) :=
  [ (fun s => includes (toLowerCase s) "<script")      (* /<script/i *)
  ; (fun s => includes (toLowerCase s) "javascript:")  (* /javascript:/i *)
  ; (fun s => includes (toLowerCase s) "data:")        (* /data:/i *)
  ; (fun s => includes (toLowerCase s) "vbscript:")    (* /vbscript:/i *)
  ; (fun s => includes (toLowerCase s) "<iframe")      (* /<iframe/i *)
  ; hasBraces ].                                       (* /\{.*\}/ *)

(** [{ query?, limit? }] *)
Record Context : Type := mkContext {
  query : option string;
  limit : option Z
}.

(** [Math.max(1, Math.min(20, context.limit || 5))] *)
Definition validLimit (context : Context) : Z :=
  Z.max 1 (Z.min 20 (numOr (limit context) 5)).

(** [getCryptoNews.execute({ context })] *)
Definition execute (w : World) (context : Context) : IO Output :=
  tryCatch
    (let sanitizedQuery := optOrElse (option_map trim (query context)) "cryptocurrency" in
     let validLimit := validLimit context in
     throwIf (len sanitizedQuery =? 0) "Search query cannot be empty" ;;
     forEach dangerousPatterns (fun pattern =>
       throwIf (pattern sanitizedQuery) "Invalid characters in search query") ;;
     fetchCryptoNewsWithFallback w sanitizedQuery validLimit)
    (fun error =>
       ret {| articles :=
                [ {| title := "Error Fetching News";
                     description := err_message error;
                     url := "#";
                     publishedAt := toISOString w (Date_now w);
                     source := "System Error" |} ];
              error := Some (err_message error);
              out_source := Some "fallback" |}).

End NewsTool.

(* ================================================================== *)
(** * A host in UTC, and sample worlds                                 *)
(* ================================================================== *)

Module UtcHost.

(** Days since 1970-01-01 of a date of the proleptic Gregorian calendar. *)
Definition daysFromCivil (y m d : Z) : Z :=
  let y' := if m <=? 2 then y - 1 else y in
  let era := y' / 400 in
  let yoe := y' - era * 400 in
  let mp := if 2 <? m then m - 3 else m + 9 in
  let doy := (153 * mp + 2) / 5 + d - 1 in
  let doe := yoe * 365 + yoe / 4 - yoe / 100 + doy in
  era * 146097 + doe - 719468.

(** The year of a day number. *)
Definition yearOfDays (days : Z) : Z :=
  let z := days + 719468 in
  let era := z / 146097 in
  let doe := z - era * 146097 in
  let yoe := (doe - doe / 1460 + doe / 36524 - doe / 146096) / 365 in
  let doy := doe - (365 * yoe + yoe / 4 - yoe / 100) in
  let mp := (5 * doy + 2) / 153 in
  if mp <? 10 then yoe + era * 400 else yoe + era * 400 + 1.

Definition msPerDay : Z := 86400000.

(** [getFullYear] of a host whose local time is UTC. *)
Definition getFullYear (ms : Z) : Z := yearOfDays (ms / msPerDay).

(** Year, month and day of a day number. *)
Definition civilFromDays (days : Z) : Z * Z * Z :=
  let z := days + 719468 in
  let era := z / 146097 in
  let doe := z - era * 146097 in
  let yoe := (doe - doe / 1460 + doe / 36524 - doe / 146096) / 365 in
  let doy := doe - (365 * yoe + yoe / 4 - yoe / 100) in
  let mp := (5 * doy + 2) / 153 in
  let d := doy - (153 * mp + 2) / 5 + 1 in
  let m := if mp <? 10 then mp + 3 else mp - 9 in
  (yearOfDays days, m, d).

(** A number below 10^width, written with [width] digits. *)
Fixpoint padded (width : nat) (n : Z) : string :=
  match width with
  | O => EmptyString
  | S k => padded k (n / 10) ++ intToString (n mod 10)
  end.

(** [toISOString] for the years 0 to 9999: YYYY-MM-DDTHH:mm:ss.sssZ. *)
Definition toISOString (ms : Z) : string :=
  let '(y, m, d) := civilFromDays (ms / msPerDay) in
  let r := ms mod msPerDay in
  padded 4 y ++ "-" ++ padded 2 m ++ "-" ++ padded 2 d ++ "T"
  ++ padded 2 (r / 3600000) ++ ":" ++ padded 2 (r / 60000 mod 60) ++ ":"
  ++ padded 2 (r / 1000 mod 60) ++ "." ++ padded 3 (r mod 1000) ++ "Z".

Definition digitsValue (s : string) : option Z :=
  if negb (isEmpty s) && forallChar isDigit s
  then let '(v, _, _) := readDigits s 0%N 0 in Some (Z.of_N v)
  else None.

Definition daysInMonth (y m : Z) : Z :=
  if m =? 2 then
    if ((y mod 4 =? 0) && negb (y mod 100 =? 0)) || (y mod 400 =? 0) then 29 else 28
  else if (m =? 4) || (m =? 6) || (m =? 9) || (m =? 11) then 30 else 31.

(** The date-only form YYYY-MM-DD of the date-time string format, which
    denotes midnight UTC; this host rejects every other string. *)
Definition Date_parse (s : string) : option Z :=
  if (String.length s =? 10)%nat
     && String.eqb (String.substring 4 1 s) "-"
     && String.eqb (String.substring 7 1 s) "-" then
    match digitsValue (String.substring 0 4 s),
          digitsValue (String.substring 5 2 s),
          digitsValue (String.substring 8 2 s) with
    | Some y, Some m, Some d =>
        if (1 <=? m) && (m <=? 12) && (1 <=? d) && (d <=? daysInMonth y m)
        then Some (daysFromCivil y m d * msPerDay)
        else None
    | _, _, _ => None
    end
  else None.

End UtcHost.

(** A provider that cannot be reached: [fetch] rejects. *)
Definition unreachable {A} : Completion (Response A) :=
  Throw (TypeError "fetch failed").

(** A model that answers every prompt with the same two chunks. *)
Definition sampleAgent (_ : NewsStepOutput) : Completion (list string) :=
  Return ["Market "; "analysis."].

(** A world at the epoch (a Thursday, midnight) of a host in UTC, with
    the given environment and providers. *)
Definition sampleWorld (e : Env)
  (rates : string -> string -> Completion (Response RatesJson))
  (fearGreed : string -> Completion (Response FearGreedJson))
  (news : string -> Z -> string -> Completion (Response NewsJson)) : World :=
  {| env := e;
     Date_now := 0;
     getHours := 0;
     getDay := 4;
     toISOString := UtcHost.toISOString;
     Date_parse := UtcHost.Date_parse;
     getFullYear := UtcHost.getFullYear;
     URL_hostOk := fun rest => String.prefix "//" rest && (2 <? len rest);
     Number_toString := fun _ => "NaN";     (* no sample run prints a number *)
     Q_toString := fun _ => "NaN";
     fetchRates := rates;
     fetchFearGreed := fearGreed;
     fetchNews := news;
     agentStream := sampleAgent |}.

(** The same world at another instant. *)
Definition atTime (w : World) (now hour day : Z) : World :=
  {| env := env w;
     Date_now := now;
     getHours := hour;
     getDay := day;
     toISOString := toISOString w;
     Date_parse := Date_parse w;
     getFullYear := getFullYear w;
     URL_hostOk := URL_hostOk w;
     Number_toString := Number_toString w;
     Q_toString := Q_toString w;
     fetchRates := fetchRates w;
     fetchFearGreed := fetchFearGreed w;
     fetchNews := fetchNews w;
     agentStream := agentStream w |}.

Definition noKeys : Env := mkEnv None None None None.

Definition allKeys : Env :=
  mkEnv (Some "k-coincap") (Some "k-cmc") (Some "k-news") (Some "k-newsapi").

(** No key is configured and no provider can be reached. *)
Definition offline : World :=
  sampleWorld noKeys (fun _ _ => unreachable) (fun _ => unreachable)
              (fun _ _ _ => unreachable).

(** Every key is configured and no provider can be reached. *)
Definition keysButOffline : World :=
  sampleWorld allKeys (fun _ _ => unreachable) (fun _ => unreachable)
              (fun _ _ _ => unreachable).

Definition respond {A} (code : Z) (text : string) (body : A) : Completion (Response A) :=
  Return (mkResponse code text (Return body)).

Definition btcInput : WorkflowInput := mkInput "bitcoin" "BTC" (Some 3).

(** The identifier passes the checks that step 1 and [getPrice] make
    before they look for the credential. *)
Definition passesIdChecks (crypto_id : string) : bool :=
  negb (isEmpty crypto_id || (len (trim crypto_id) =? 0))
  && negb (existsb (fun pattern => pattern (trim (toLowerCase crypto_id)))
                   Workflow.invalidPatterns).

Definition passesSymbolCheck (crypto_symbol : string) : bool :=
  negb (isEmpty crypto_symbol || (len (trim crypto_symbol) =? 0)).

Definition credentialMessage : string :=
  "COINCAP_API_KEY environment variable is required".

(** What step 1 hands on for bitcoin when no key is configured. *)
Definition btcUnpriced : PriceStepOutput :=
  {| p_crypto_id := "bitcoin";
     p_crypto_symbol := "BTC";
     p_news_limit := 3;
     p_name := "bitcoin";
     p_symbol := "BTC";
     p_priceUsd := "0";
     p_changePercent24Hr := Some "N/A";
     p_error := Some credentialMessage |}.

(** A Sunday at ten o'clock, at the epoch's hour bucket. *)
Definition sundayMorning : World := atTime offline 0 10 0.

(** The rates provider answers every request with the rate "Infinity". *)
Definition infiniteRate : World :=
  sampleWorld allKeys
    (fun _ _ => respond 200 "OK"
       (RatesObject (Some (mkRateData (Some "bitcoin") (Some "BTC") (Some "Infinity")))))
    (fun _ => unreachable) (fun _ _ _ => unreachable).

(** The rates key is configured and the provider answers 429. *)
Definition rateLimited : World :=
  sampleWorld (mkEnv (Some "k-coincap") None None None)
    (fun _ _ => Return (mkResponse 429 "Too Many Requests"
                          (Throw (mkError "SyntaxError" "Unexpected end of JSON input"))))
    (fun _ => unreachable) (fun _ _ _ => unreachable).

Definition etcInput : WorkflowInput := mkInput "../etc" "ETC" (Some 3).

(** A request to the rates provider. *)
Definition isRatesRequest (r : Request) : bool :=
  match r with GetRates _ _ => true | _ => false end.

(** The messages of the input checks of step 1. *)
Definition validationMessages (crypto_id : string) : list string :=
  [ "Invalid cryptocurrency ID provided"
  ; "Invalid cryptocurrency symbol provided"
  ; "Invalid cryptocurrency ID format: '" ++ crypto_id ++ "'" ].

(** The output of step 3 without articles: what the upstream record
    determines, and nothing else. *)
Definition emptyNews (i : SentimentStepOutput) : NewsStepOutput :=
  {| n_priceData :=
       {| pd_name := p_name (s_inputData i);
          pd_symbol := p_symbol (s_inputData i);
          pd_priceUsd := p_priceUsd (s_inputData i);
          pd_changePercent24Hr := p_changePercent24Hr (s_inputData i) |};
     n_sentimentData :=
       {| sd_sentiment := s_sentiment i;
          sd_score := s_score i;
          sd_fearGreedValue := s_fearGreedValue i;
          sd_classification := s_classification i |};
     n_articles := [] |}.

(** The call step 3 makes when the news key is set. *)
Definition newsCall (w : World) (i : SentimentStepOutput) : Completion (Response NewsJson) :=
  fetchNews w (p_crypto_id (s_inputData i) ++ " cryptocurrency")
            (p_news_limit (s_inputData i))
            (optOrElse (NEWS_API_KEY (env w)) "").

(** The ways the news fetch of step 3 can fail: the credential is absent,
    the call is rejected or answered with a non-success status, the body
    cannot be read, or the body has not the expected shape. *)
Inductive NewsFailure (w : World) (i : SentimentStepOutput) : Prop :=
| CredentialAbsent :
    falsy (NEWS_API_KEY (env w)) = true -> NewsFailure w i
| CallRejected (e : JsError) :
    newsCall w i = Throw e -> NewsFailure w i
| StatusNotOk (r : Response NewsJson) :
    newsCall w i = Return r -> ok r = false -> NewsFailure w i
| BodyUnreadable (r : Response NewsJson) (e : JsError) :
    newsCall w i = Return r -> json r = Throw e -> NewsFailure w i
| BodyNotObject (r : Response NewsJson) :
    newsCall w i = Return r -> json r = Return NewsNotObject -> NewsFailure w i
| ArticlesNotArray (r : Response NewsJson) (o : NewsObject) :
    newsCall w i = Return r -> json r = Return (NewsIsObject o) ->
    nj_articles o = None -> NewsFailure w i
| ArticleMalformed (r : Response NewsJson) (o : NewsObject)
    (l : list (option RawArticle)) (e : JsError) :
    newsCall w i = Return r -> json r = Return (NewsIsObject o) ->
    nj_articles o = Some l -> mapThrowing Workflow.toStepArticle l = Throw e ->
    NewsFailure w i.

(** What step 2 hands on for bitcoin when no key is configured. *)
Definition btcNeutral : SentimentStepOutput :=
  {| s_inputData := btcUnpriced;
     s_sentiment := neutral;
     s_score := 0;
     s_fearGreedValue := 50;
     s_classification := "Neutral (API Unavailable)";
     s_price_error := Some credentialMessage;
     s_sentiment_error := Some "API key not configured, using fallback sentiment" |}.

(** A title of 201 characters. *)
Definition longTitle : string := string_of_list_ascii (repeat "a"%char 201).

Definition rawArticle : RawArticle :=
  {| a_title := Some longTitle;
     a_description := Some "An article.";
     a_url := Some "not-a-url";
     a_publishedAt := Some "1999-01-01";
     a_source := Some (Some "Example") |}.

(** Only the news provider can be reached; it answers every request with
    the one article [rawArticle]. *)
Definition rawNews : World :=
  sampleWorld (mkEnv None None (Some "k-news") (Some "k-newsapi"))
    (fun _ _ => unreachable) (fun _ => unreachable)
    (fun _ _ _ => respond 200 "OK"
       (NewsIsObject (mkNewsObject (Some "ok") None (Some [Some rawArticle])))).

(** The three tiers of the news tool, by what they return. *)
Inductive Tier (limit : Z) (out : NewsTool.Output) : Prop :=
| Live :
    NewsTool.out_source out = Some "NewsAPI" ->
    NewsTool.error out = None ->
    1 <= Z.of_nat (List.length (NewsTool.articles out)) <= limit ->
    Tier limit out
| Templated :
    NewsTool.out_source out = Some "fallback" ->
    NewsTool.error out = Some "Primary news source unavailable, using fallback content" ->
    Z.of_nat (List.length (NewsTool.articles out)) = Z.min limit 6 ->
    Tier limit out
| LastResort :
    NewsTool.out_source out = Some "error" \/ NewsTool.out_source out = Some "fallback" ->
    NewsTool.error out <> None ->
    List.length (NewsTool.articles out) = 1%nat ->
    Tier limit out.

(** A sentiment label that agrees with a score: bullish from 1/5 up,
    bearish down from -1/5, neutral strictly between. *)
Definition sentimentMatchesScore (s : Sentiment) (score : Q) : Prop :=
  match s with
  | bullish => (1 # 5 <= score)%Q
  | bearish => (score <= - (1 # 5))%Q
  | neutral => (- (1 # 5) < score < 1 # 5)%Q
  end.

(** The message step 1 of the workflow gives to a response that is not ok. *)
Definition priceStatusMessage (crypto_id : string) (r : Response RatesJson) : string :=
  if status r =? 404 then
    "Cryptocurrency '" ++ crypto_id
    ++ "' not found. Please verify the cryptocurrency identifier."
  else if status r =? 429 then "Rate limit exceeded. Please try again in a few moments."
  else if 500 <=? status r then
    "CoinCap API is temporarily unavailable. Please try again later."
  else "Failed to fetch crypto data: " ++ intToString (status r) ++ " " ++ statusText r.

(** The request of step 1 for an input. *)
Definition ratesRequest (w : World) (crypto_id : string) : Request :=
  GetRates (trim (toLowerCase crypto_id)) (optOrElse (COINCAP_API_KEY (env w)) "").

(** An article as the news provider sends it when all is well. *)
Definition goodArticle : RawArticle :=
  {| a_title := Some "Bitcoin holds steady";
     a_description := None;
     a_url := Some "https://example.com/bitcoin";
     a_publishedAt := Some "2024-02-29";
     a_source := Some (Some "Example") |}.

(** Every key is configured and every provider answers: the rate is
    64250.75, the index 72 ("Greed"), and there are two articles. *)
Definition online : World :=
  sampleWorld allKeys
    (fun _ _ => respond 200 "OK"
       (RatesObject (Some (mkRateData (Some "bitcoin") (Some "BTC") (Some "64250.75")))))
    (fun _ => respond 200 "OK"
       (FearGreedObject (Some (mkFGStatus (Some "0") None))
                        (Some [Some (mkFGPoint (Some 72%Q) (Some "Greed"))])))
    (fun _ _ _ => respond 200 "OK"
       (NewsIsObject (mkNewsObject (Some "ok") None
                                   (Some [Some goodArticle; Some goodArticle])))).

(** The ranges of a sentiment record: score in [-1,1], index in [0,100],
    and a label that agrees with the score. *)
Definition sentimentRecordOk (s : Sentiment) (score fearGreed : Q) : Prop :=
  (-1 <= score <= 1)%Q /\ (0 <= fearGreed <= 100)%Q /\ sentimentMatchesScore s score.

(** A character of [a-z0-9-], the alphabet of the price tool's schema. *)
Definition isIdChar (c : ascii) : bool :=
  ((97 <=? charCode c) && (charCode c <=? 122)) || isDigit c || (charCode c =? 45).

(** The message of the price tool for a call that was rejected. *)
Definition rejectedMessage (normalizedId : string) (e : JsError) : string :=
  if String.eqb (err_name e) "AbortError"
  then "Request timeout while fetching data for '" ++ normalizedId ++ "'. Please try again."
  else err_message e.

(** The rates provider aborts every request after its timeout. *)
Definition timingOut : World :=
  sampleWorld allKeys
    (fun _ _ => Throw (mkError "AbortError" "This operation was aborted"))
    (fun _ => unreachable) (fun _ _ _ => unreachable).

(** The symbol passes the checks of the sentiment tool: upper-cased and
    trimmed it has 2 to 10 characters of A-Z and 0-9 and is none of the
    placeholder symbols. *)
Definition acceptsSymbol (crypto_symbol : string) : bool :=
  let normalizedSymbol := trim (toUpperCase crypto_symbol) in
  negb (isEmpty normalizedSymbol)
  && SentimentTool.validSymbolPattern normalizedSymbol
  && negb (existsb (String.eqb normalizedSymbol) SentimentTool.invalidSymbols).

(** The three kinds of answer of the sentiment tool. *)
Inductive SentimentTier (out : SentimentTool.Output) : Prop :=
| LiveIndex :
    SentimentTool.confidence out = 85 # 100 ->
    SentimentTool.error out = None ->
    SentimentTool.fear_greed_value out <> None ->
    SentimentTier out
| FallbackIndex :
    SentimentTool.confidence out = 3 # 10 ->
    SentimentTool.error out
      = Some "Primary sentiment API unavailable, using fallback calculation" ->
    SentimentTool.fear_greed_value out <> None ->
    SentimentTier out
| NoIndex :
    SentimentTool.confidence out = 1 # 10 ->
    SentimentTool.error out <> None ->
    SentimentTool.fear_greed_value out = None ->
    SentimentTool.sentiment out = neutral ->
    SentimentTool.score out = 0%Q ->
    SentimentTier out.

(** The query the news tool works with: the trimmed query, or
    "cryptocurrency" when it is missing or blank. *)
Definition sanitizedQuery (context : NewsTool.Context) : string :=
  optOrElse (option_map trim (NewsTool.query context)) "cryptocurrency".

(** One of the patterns of the news tool matches the query. *)
Definition dangerous (q : string) : bool :=
  existsb (fun pattern => pattern q) NewsTool.dangerousPatterns.

(** What the sanitization of the news tool guarantees of an article. *)
Definition Sanitized (w : World) (art : NewsTool.Article) : Prop :=
  (1 <= String.length (NewsTool.title art) <= 200)%nat /\
  (1 <= String.length (NewsTool.description art) <= 500)%nat /\
  (1 <= String.length (NewsTool.source art) <= 100)%nat /\
  (NewsTool.url art = "#" \/ NewsTool.isValidUrl w (Some (NewsTool.url art)) = true) /\
  (NewsTool.publishedAt art = toISOString w (Date_now w)
   \/ NewsTool.isValidDate w (Some (NewsTool.publishedAt art)) = true).

(** A colon. *)
Definition isColon (c : ascii) : bool := charCode c =? 58.

(** The rate a price fetch accepts for a normalised identifier: the
    provider's rate string when the key is set, the call succeeds and the
    rate reads as a number greater than 0. *)
Definition acceptedRate (w : World) (normalizedId : string) : option string :=
  if falsy (COINCAP_API_KEY (env w)) then None
  else
    match fetchRates w normalizedId (optOrElse (COINCAP_API_KEY (env w)) "") with
    | Return r =>
        if ok r then
          match json r with
          | Return (RatesObject (Some d)) =>
              match rd_rateUsd d with
              | Some rate =>
                  if isEmpty rate || isNaN (parseFloat rate) || leZero (parseFloat rate)
                  then None
                  else Some rate
              | None => None
              end
          | _ => None
          end
        else None
    | Throw _ => None
    end.

(* ================================================================== *)
(** * The rules as the specification words them                        *)
(* ================================================================== *)

Module Spec.

(** clamp(x, lo, hi) *)
Definition clamp (x lo hi : Q) : Q :=
  if Qlt_le_dec x lo then lo
  else if Qlt_le_dec hi x then hi
  else x.

(** score = clamp((value - 50) / 50, -1, 1) *)
Definition score (value : Q) : Q := clamp ((value - 50) / 50) (-1) 1.

(** bullish if value >= 60; bearish if value <= 40; else neutral *)
Definition sentiment (value : Q) : Sentiment :=
  if Qle_bool 60 value then bullish
  else if Qle_bool value 40 then bearish
  else neutral.

(** The five buckets, evaluated top-down, first match wins. *)
Definition buckets : list (Q * string) :=
  [ (75, "Extreme Greed"); (55, "Greed"); (45, "Neutral"); (25, "Fear") ]%Q.

Fixpoint firstMatch (value : Q) (table : list (Q * string)) (otherwise : string) : string :=
  match table with
  | [] => otherwise
  | (threshold, label) :: rest =>
      if Qle_bool threshold value then label else firstMatch value rest otherwise
  end.

Definition classification (value : Q) : string :=
  firstMatch value buckets "Extreme Fear".

(** A malformed identifier: empty or whitespace-only, containing any of
    the characters < > { } [ ] \ /, or purely numeric. *)
Definition forbiddenChars : string := "<>{}[]\/".

Definition malformed (id : string) : bool :=
  forallChar isWhiteSpace id
  || existsChar (fun c => existsChar (Ascii.eqb c) forbiddenChars) id
  || (negb (isEmpty id) && forallChar isDigit id).

(** sum(charCode(c) for c in symbol) *)
Fixpoint sumCharCodes (symbol : string) : Z :=
  match symbol with
  | EmptyString => 0
  | String c r => charCode c + sumCharCodes r
  end.

(** The pseudo-index of the fallback path:
    base = (sum of the character codes + floor(now_ms / 3_600_000)) mod 100,
    adjusted = abs(base - 50) + 30 when [adjust], else base,
    clamped to [0, 100]. *)
Definition fallbackValue (symbol : string) (now_ms : Z) (adjust : bool) : Z :=
  let base := (sumCharCodes symbol + now_ms / 3600000) mod 100 in
  let adjusted := if adjust then Z.abs (base - 50) + 30 else base in
  Z.max 0 (Z.min 100 adjusted).

(** The hour-of-day falls in the trading hours window 9-16. *)
Definition tradingHours (hour : Z) : bool := (9 <=? hour) && (hour <=? 16).

(** Monday to Friday. *)
Definition weekday (day : Z) : bool := (1 <=? day) && (day <=? 5).

End Spec.

(* ================================================================== *)
(** * Properties                                                       *)
(* ================================================================== *)

(** ** The conversion rule *)

Lemma Math_clamp_spec (x : Q) :
  (Math_max (-1) (Math_min 1 x) == Spec.clamp x (-1) 1)%Q.
Proof.
  unfold Math_max, Math_min, Spec.clamp.
  destruct (Qle_bool 1 x) eqn:H1.
  - apply Qle_bool_iff in H1.
    destruct (Qlt_le_dec x (-1)) as [Hlo|Hlo]; [lra|].
    destruct (Qlt_le_dec 1 x) as [Hhi|Hhi]; [reflexivity|].
    simpl. lra.
  - assert (Hx : (x < 1)%Q).
    { apply Qnot_le_lt. intro Hle. apply Qle_bool_iff in Hle. congruence. }
    destruct (Qle_bool (-1) x) eqn:H2.
    + apply Qle_bool_iff in H2.
      destruct (Qlt_le_dec x (-1)) as [Hlo|Hlo]; [lra|].
      destruct (Qlt_le_dec 1 x) as [Hhi|Hhi]; [lra|reflexivity].
    + assert (Hx' : (x < -1)%Q).
      { apply Qnot_le_lt. intro Hle. apply Qle_bool_iff in Hle. congruence. }
      destruct (Qlt_le_dec x (-1)) as [Hlo|Hlo]; [reflexivity|lra].
Qed.

Lemma score_in_range (value : Q) :
  (0 <= value <= 100)%Q ->
  (Spec.score value == (value - 50) / 50)%Q /\ (-1 <= Spec.score value <= 1)%Q.
Proof.
  intros [H0 H100].
  assert (Hlo : (-1 <= (value - 50) / 50)%Q).
  { apply Qle_shift_div_l; lra. }
  assert (Hhi : ((value - 50) / 50 <= 1)%Q).
  { apply Qle_shift_div_r; lra. }
  unfold Spec.score, Spec.clamp.
  destruct (Qlt_le_dec ((value - 50) / 50) (-1)) as [H|H]; [lra|].
  destruct (Qlt_le_dec 1 ((value - 50) / 50)) as [H'|H'].
  - split; [lra|lra].
  - split; [reflexivity|lra].
Qed.

(** C2.  For every value in [0,100] both copies of the conversion (the
    workflow's and the sentiment tool's) compute
    score = clamp((value - 50)/50, -1, 1), which there is (value - 50)/50
    itself and lies in [-1,1]; sentiment is bullish from 60 up, bearish up
    to 40 and neutral between; the classification is the first top-down
    match of the five buckets.  In particular 60 is bullish, 40 bearish,
    50 neutral, and the scores of 100 and 0 are 1 and -1. *)
Theorem conversion_rule_exact :
  (forall value : Q, (0 <= value <= 100)%Q ->
     (cs_score (Workflow.convertToSentiment value) == Spec.score value)%Q /\
     (cs_score (Workflow.convertToSentiment value) == (value - 50) / 50)%Q /\
     (-1 <= cs_score (Workflow.convertToSentiment value) <= 1)%Q /\
     cs_sentiment (Workflow.convertToSentiment value) = Spec.sentiment value /\
     Workflow.getFearGreedClassification value = Spec.classification value /\
     SentimentTool.convertToSentiment value = Workflow.convertToSentiment value /\
     SentimentTool.getFearGreedClassification value
       = Workflow.getFearGreedClassification value) /\
  cs_sentiment (Workflow.convertToSentiment 60) = bullish /\
  cs_sentiment (Workflow.convertToSentiment 40) = bearish /\
  cs_sentiment (Workflow.convertToSentiment 50) = neutral /\
  (cs_score (Workflow.convertToSentiment 100) == 1)%Q /\
  (cs_score (Workflow.convertToSentiment 0) == -1)%Q.
Proof.
  split.
  - intros value Hv.
    destruct (score_in_range value Hv) as [Heq Hrange].
    assert (Hs : (cs_score (Workflow.convertToSentiment value) == Spec.score value)%Q).
    { unfold Workflow.convertToSentiment, Spec.score. simpl. apply Math_clamp_spec. }
    repeat split; try reflexivity.
    + exact Hs.
    + rewrite Hs. exact Heq.
    + rewrite Hs. apply Hrange.
    + rewrite Hs. apply Hrange.
  - repeat split; reflexivity.
Qed.

Lemma conversion_rule_exact_witness :
  (0 <= 60 <= 100)%Q /\
  (cs_score (Workflow.convertToSentiment 60) == Spec.score 60)%Q /\
  cs_sentiment (Workflow.convertToSentiment 60) = Spec.sentiment 60 /\
  Workflow.getFearGreedClassification 60 = "Greed".
Proof.
  assert (H : (0 <= 60 <= 100)%Q) by (split; discriminate).
  destruct (proj1 conversion_rule_exact 60%Q H) as (Hs & _ & _ & Hm & Hc & _).
  split; [exact H|].
  split; [exact Hs|].
  split; [exact Hm|].
  reflexivity.
Defined.

(** ** The fallback sentiment *)







Lemma fallbackValue_range (symbol : string) (now : Z) (adjust : bool) :
  0 <= Spec.fallbackValue symbol now adjust <= 99.
Proof.
  unfold Spec.fallbackValue.
  pose proof (Z.mod_pos_bound (Spec.sumCharCodes symbol + now / 3600000) 100 ltac:(lia)).
  destruct adjust; lia.
Qed.

(** C5, as stated, fails: on a Sunday at ten the workflow's copy applies
    the trading-hours adjustment to BTC (base 17, value 63, bullish) and
    the tool's copy does not (value 17, bearish). *)
Lemma fallback_copies_differ_on_weekend :
  Workflow.fb_fear_greed_value (Workflow.generateFallbackSentiment sundayMorning "BTC") = 63 /\
  Workflow.fb_sentiment (Workflow.generateFallbackSentiment sundayMorning "BTC") = bullish /\
  SentimentTool.fear_greed_value (SentimentTool.generateFallbackSentiment sundayMorning "BTC")
    = Some (inject_Z 17) /\
  SentimentTool.sentiment (SentimentTool.generateFallbackSentiment sundayMorning "BTC")
    = bearish /\
  ~ (SentimentTool.score (SentimentTool.generateFallbackSentiment sundayMorning "BTC")
     == Workflow.fb_score (Workflow.generateFallbackSentiment sundayMorning "BTC"))%Q.
Proof.
  repeat split; try reflexivity.
  vm_compute. discriminate.
Qed.

(** C5, amended.  For every symbol and instant at which the hour lies
    outside 9-16 or the weekday is Monday to Friday, the workflow's and the
    tool's copy of the fallback compute the same fear-greed value, the same
    sentiment and the same score. *)
Theorem fallback_copies_agree (w : World) (symbol : string) :
  Spec.tradingHours (getHours w) = false \/ Spec.weekday (getDay w) = true ->
  SentimentTool.fear_greed_value (SentimentTool.generateFallbackSentiment w symbol)
    = Some (inject_Z (Workflow.fb_fear_greed_value
                        (Workflow.generateFallbackSentiment w symbol))) /\
  SentimentTool.sentiment (SentimentTool.generateFallbackSentiment w symbol)
    = Workflow.fb_sentiment (Workflow.generateFallbackSentiment w symbol) /\
  SentimentTool.score (SentimentTool.generateFallbackSentiment w symbol)
    = Workflow.fb_score (Workflow.generateFallbackSentiment w symbol).
Proof.
  intros H.
  unfold SentimentTool.generateFallbackSentiment, Workflow.generateFallbackSentiment.
  cbv zeta.
  cbn [SentimentTool.fear_greed_value SentimentTool.sentiment SentimentTool.score
       Workflow.fb_fear_greed_value Workflow.fb_sentiment Workflow.fb_score].
  assert (Hc : (9 <=? getHours w) && (getHours w <=? 16) && (1 <=? getDay w) && (getDay w <=? 5)
               = (9 <=? getHours w) && (getHours w <=? 16)).
  { unfold Spec.tradingHours, Spec.weekday in H.
    destruct H as [H|H].
    - rewrite <- !andb_assoc, andb_assoc, H. reflexivity.
    - rewrite <- andb_assoc with (b3 := getDay w <=? 5), H. apply andb_true_r. }
  rewrite Hc.
  repeat split; reflexivity.
Qed.

Lemma fallback_copies_agree_witness :
  (Spec.tradingHours (getHours offline) = false \/ Spec.weekday (getDay offline) = true) /\
  SentimentTool.sentiment (SentimentTool.generateFallbackSentiment offline "BTC")
    = Workflow.fb_sentiment (Workflow.generateFallbackSentiment offline "BTC").
Proof.
  assert (H : Spec.tradingHours (getHours offline) = false
              \/ Spec.weekday (getDay offline) = true) by (left; reflexivity).
  split; [exact H|].
  exact (proj1 (proj2 (fallback_copies_agree offline "BTC" H))).
Defined.


Lemma workflow_convert_spec (value : Q) :
  cs_sentiment (Workflow.convertToSentiment value) = Spec.sentiment value /\
  (cs_score (Workflow.convertToSentiment value) == Spec.score value)%Q.
Proof.
  split; [reflexivity|].
  unfold Workflow.convertToSentiment, Spec.score. simpl. apply Math_clamp_spec.
Qed.



(** ** Reasoning about computations *)

(** Case analysis on the innermost test a hypothesis still branches on. *)
Ltac split_test H :=
  match type of H with
  | context [if ?c then _ else _] =>
      lazymatch c with
      | context [if _ then _ else _] => fail
      | context [match _ with _ => _ end] => fail
      | _ => destruct c eqn:?
      end
  | context [match ?x with _ => _ end] =>
      lazymatch x with
      | context [if _ then _ else _] => fail
      | context [match _ with _ => _ end] => fail
      | _ => destruct x eqn:?
      end
  end.

Ltac run_io H :=
  cbn [forEach] in H;
  unfold bind, tryCatch, throwIf, ret, throw, lift, await, requests, completion in H;
  cbv beta iota zeta in H.

Ltac trace_io H :=
  run_io H; repeat (split_test H; cbv beta iota zeta in H; try discriminate H).

Lemma bind_Return_inv {A B} (m : IO A) (k : A -> IO B) (t : list Request) (b : B) :
  bind m k = (t, Return b) ->
  exists t1 a t2, m = (t1, Return a) /\ k a = (t2, Return b) /\ t = (t1 ++ t2)%list.
Proof.
  unfold bind. destruct m as [t1 [e|a]]; [discriminate|].
  destruct (k a) as [t2 r] eqn:Hk. intros H. injection H as Ht Hr. subst.
  exists t1, a, t2. repeat split; assumption.
Qed.

Lemma tryCatch_returns {A} (m : IO A) (h : JsError -> A) :
  exists t a,
    tryCatch m (fun e => ret (h e)) = (t, Return a) /\
    t = requests m /\
    (completion m = Return a \/ exists e, completion m = Throw e /\ a = h e).
Proof.
  destruct m as [t [e|a]]; simpl.
  - exists (t ++ [])%list, (h e). rewrite app_nil_r.
    repeat split. right. exists e. split; reflexivity.
  - exists t, a. repeat split. left. reflexivity.
Qed.

(** ** The price fetcher *)

(** What the [try] block of step 1 returns has passed the two checks on
    the rate. *)
Lemma fetchCryptoPrice_try_returns (w : World) (inputData : option WorkflowInput)
  (t : list Request) (out : PriceStepOutput) :
  Workflow.fetchCryptoPrice_try w inputData = (t, Return out) ->
  p_error out = None /\
  isNaN (parseFloat (p_priceUsd out)) = false /\
  leZero (parseFloat (p_priceUsd out)) = false.
Proof.
  intros H. unfold Workflow.fetchCryptoPrice_try, Workflow.invalidPatterns in H.
  trace_io H.
  injection H as _ Hout. subst out. cbn [p_error p_priceUsd].
  repeat match goal with
         | E : _ || _ = false |- _ => apply orb_false_elim in E; destruct E
         end.
  repeat split; assumption.
Qed.

Lemma getPrice_returns (w : World) (crypto_id : string)
  (t : list Request) (out : PriceTool.Output) :
  PriceTool.getPrice w crypto_id = (t, Return out) ->
  PriceTool.error out = None /\
  isNaN (parseFloat (PriceTool.priceUsd out)) = false /\
  leZero (parseFloat (PriceTool.priceUsd out)) = false.
Proof.
  intros H.
  unfold PriceTool.getPrice, PriceTool.getPrice_try, PriceTool.invalidPatterns in H.
  trace_io H.
  injection H as _ Hout. subst out. cbn [PriceTool.error PriceTool.priceUsd].
  repeat match goal with
         | E : _ || _ = false |- _ => apply orb_false_elim in E; destruct E
         end.
  repeat split; assumption.
Qed.

(** C1, as stated, fails: a rate that reads as Infinity passes both checks
    of the price fetcher (it is not NaN and not <= 0) and is returned
    without an error, by step 1 and by the tool, although it does not parse
    to a finite number. *)
Lemma infinite_price_counterexample :
  exists out out',
    Workflow.fetchCryptoPrice infiniteRate (Some btcInput)
      = ([GetRates "bitcoin" "k-coincap"], Return out) /\
    p_error out = None /\
    p_priceUsd out = "Infinity" /\
    isFinite (parseFloat (p_priceUsd out)) = false /\
    PriceTool.execute infiniteRate "bitcoin"
      = ([GetRates "bitcoin" "k-coincap"], Return out') /\
    PriceTool.error out' = None /\
    PriceTool.priceUsd out' = "Infinity" /\
    isFinite (parseFloat (PriceTool.priceUsd out')) = false.
Proof.
  do 2 eexists. repeat split; reflexivity.
Qed.

(** C1, amended.  For every input, step 1 of the workflow and the
    getCryptoPrice tool return a record (they never throw) whose priceUsd
    reads, with parseFloat, as a number that is not NaN and is strictly
    greater than 0 whenever the error field is absent, and is exactly "0"
    whenever the error field is present. *)
Theorem price_record_sentinel (w : World) :
  (forall inputData : option WorkflowInput,
     exists t out,
       Workflow.fetchCryptoPrice w inputData = (t, Return out) /\
       (p_error out = None ->
          isNaN (parseFloat (p_priceUsd out)) = false /\
          leZero (parseFloat (p_priceUsd out)) = false) /\
       (forall msg, p_error out = Some msg -> p_priceUsd out = "0")) /\
  (forall crypto_id : string,
     exists t out,
       PriceTool.execute w crypto_id = (t, Return out) /\
       (PriceTool.error out = None ->
          isNaN (parseFloat (PriceTool.priceUsd out)) = false /\
          leZero (parseFloat (PriceTool.priceUsd out)) = false) /\
       (forall msg, PriceTool.error out = Some msg -> PriceTool.priceUsd out = "0")).
Proof.
  split.
  - intros inputData. unfold Workflow.fetchCryptoPrice.
    match goal with
    | |- context [tryCatch ?m (fun e => ret (@?h e))] =>
        destruct (tryCatch_returns m h) as (t & out & Hrun & _ & Hcase)
    end.
    exists t, out. split; [exact Hrun|].
    destruct Hcase as [Hret | (e & _ & Hout)].
    + destruct (Workflow.fetchCryptoPrice_try w inputData) as [t' c] eqn:Htry.
      simpl in Hret. subst c.
      destruct (fetchCryptoPrice_try_returns _ _ _ _ Htry) as (He & Hn & Hz).
      split; [intros _; split; assumption|].
      intros msg Hmsg. congruence.
    + subst out. cbn [p_error p_priceUsd].
      split; [discriminate|reflexivity].
  - intros crypto_id. unfold PriceTool.execute.
    match goal with
    | |- context [tryCatch ?m (fun e => ret (@?h e))] =>
        destruct (tryCatch_returns m h) as (t & out & Hrun & _ & Hcase)
    end.
    exists t, out. split; [exact Hrun|].
    destruct Hcase as [Hret | (e & _ & Hout)].
    + match type of Hret with
      | completion ?m = _ => destruct m as [t' c] eqn:Htry
      end.
      simpl in Hret. subst c.
      apply bind_Return_inv in Htry. destruct Htry as (t1 & u & t2 & _ & Hget & _).
      destruct (getPrice_returns _ _ _ _ Hget) as (He & Hn & Hz).
      split; [intros _; split; assumption|].
      intros msg Hmsg. congruence.
    + subst out. cbn [PriceTool.error PriceTool.priceUsd].
      split; [discriminate|reflexivity].
Qed.

(** ** Normalisation of an identifier *)

Lemma existsChar_stripStart (p q : ascii -> bool) (s : string) :
  (forall c, q c = true -> p c = false) ->
  existsChar p (stripStart q s) = existsChar p s.
Proof.
  intros Hpq. induction s as [|c r IH]; simpl; [reflexivity|].
  destruct (q c) eqn:Hq.
  - rewrite IH, (Hpq c Hq). reflexivity.
  - reflexivity.
Qed.

Lemma existsChar_stripEnd (p q : ascii -> bool) (s : string) :
  (forall c, q c = true -> p c = false) ->
  existsChar p (stripEnd q s) = existsChar p s.
Proof.
  intros Hpq. induction s as [|c r IH]; simpl; [reflexivity|].
  destruct (stripEnd q r) as [|c' r'] eqn:Hr.
  - simpl in IH. rewrite <- IH.
    destruct (q c) eqn:Hq; simpl.
    + rewrite (Hpq c Hq). reflexivity.
    + reflexivity.
  - simpl. simpl in IH. rewrite IH. reflexivity.
Qed.

Lemma existsChar_toLowerCase (p : ascii -> bool) (s : string) :
  (forall c, p (lowerChar c) = p c) ->
  existsChar p (toLowerCase s) = existsChar p s.
Proof.
  intros Hp. induction s as [|c r IH]; simpl; [reflexivity|].
  rewrite Hp, IH. reflexivity.
Qed.

Lemma forallChar_stripStart_empty (p : ascii -> bool) (s : string) :
  forallChar p s = true -> stripStart p s = EmptyString.
Proof.
  induction s as [|c r IH]; simpl; [reflexivity|].
  destruct (p c); [exact IH|discriminate].
Qed.

Lemma forallChar_toLowerCase_id (p : ascii -> bool) (s : string) :
  (forall c, p c = true -> lowerChar c = c) ->
  forallChar p s = true -> toLowerCase s = s.
Proof.
  intros Hp. induction s as [|c r IH]; simpl; [reflexivity|].
  intros H. apply andb_prop in H. destruct H as [Hc Hr].
  rewrite (Hp c Hc), (IH Hr). reflexivity.
Qed.

Lemma forallChar_stripStart_id (p q : ascii -> bool) (s : string) :
  (forall c, p c = true -> q c = false) ->
  forallChar p s = true -> stripStart q s = s.
Proof.
  intros Hpq. destruct s as [|c r]; simpl; [reflexivity|].
  intros H. apply andb_prop in H. destruct H as [Hc _].
  rewrite (Hpq c Hc). reflexivity.
Qed.

Lemma forallChar_stripEnd_id (p q : ascii -> bool) (s : string) :
  (forall c, p c = true -> q c = false) ->
  forallChar p s = true -> stripEnd q s = s.
Proof.
  intros Hpq. induction s as [|c r IH]; simpl; [reflexivity|].
  intros H. apply andb_prop in H. destruct H as [Hc Hr].
  rewrite (IH Hr). destruct r; [|reflexivity].
  rewrite (Hpq c Hc). reflexivity.
Qed.

Ltac by_cases_on_char c :=
  destruct c as [[] [] [] [] [] [] [] []]; vm_compute; try reflexivity; try discriminate.

Lemma whiteSpace_not_malicious (c : ascii) :
  isWhiteSpace c = true -> Workflow.isMaliciousChar c = false.
Proof. by_cases_on_char c. Qed.

Lemma malicious_lowerChar (c : ascii) :
  Workflow.isMaliciousChar (lowerChar c) = Workflow.isMaliciousChar c.
Proof. by_cases_on_char c. Qed.

Lemma digit_lowerChar (c : ascii) : isDigit c = true -> lowerChar c = c.
Proof. by_cases_on_char c. Qed.

Lemma digit_not_whiteSpace (c : ascii) : isDigit c = true -> isWhiteSpace c = false.
Proof. by_cases_on_char c. Qed.

(** The normalised identifier keeps every forbidden character. *)
Lemma normalized_keeps_malicious (s : string) :
  existsChar Workflow.isMaliciousChar (trim (toLowerCase s))
  = existsChar Workflow.isMaliciousChar s.
Proof.
  unfold trim.
  rewrite existsChar_stripEnd by exact whiteSpace_not_malicious.
  rewrite existsChar_stripStart by exact whiteSpace_not_malicious.
  apply existsChar_toLowerCase. exact malicious_lowerChar.
Qed.

(** A string of digits is its own normal form. *)
Lemma normalized_digits (s : string) :
  forallChar isDigit s = true -> trim (toLowerCase s) = s.
Proof.
  intros H. unfold trim.
  rewrite (forallChar_toLowerCase_id isDigit s digit_lowerChar H).
  rewrite (forallChar_stripStart_id isDigit isWhiteSpace s digit_not_whiteSpace H).
  apply (forallChar_stripEnd_id isDigit isWhiteSpace s digit_not_whiteSpace H).
Qed.

(** White space only trims to the empty string. *)
Lemma trim_whiteSpace (s : string) :
  forallChar isWhiteSpace s = true -> trim s = EmptyString.
Proof.
  intros H. unfold trim. rewrite (forallChar_stripStart_empty _ _ H). reflexivity.
Qed.

(** ** The missing price credential *)

Lemma passesIdChecks_inv (crypto_id : string) :
  passesIdChecks crypto_id = true ->
  isEmpty crypto_id || (len (trim crypto_id) =? 0) = false /\
  existsChar Workflow.isMaliciousChar (trim (toLowerCase crypto_id)) = false /\
  forallChar isWhiteSpace (trim (toLowerCase crypto_id)) = false /\
  negb (isEmpty (trim (toLowerCase crypto_id)))
    && forallChar isDigit (trim (toLowerCase crypto_id)) = false.
Proof.
  unfold passesIdChecks, Workflow.invalidPatterns. cbn [existsb].
  intros H. apply andb_prop in H. destruct H as [H1 H2].
  apply negb_true_iff in H1. apply negb_true_iff in H2.
  apply orb_false_elim in H2. destruct H2 as [Ha H2].
  apply orb_false_elim in H2. destruct H2 as [Hb H2].
  apply orb_false_elim in H2. destruct H2 as [Hc _].
  repeat split; assumption.
Qed.

Lemma price_try_without_key (w : World) (inputData : option WorkflowInput) :
  falsy (COINCAP_API_KEY (env w)) = true ->
  exists msg,
    Workflow.fetchCryptoPrice_try w inputData = ([], Throw (Error msg)) /\
    (forall i, inputData = Some i ->
       passesIdChecks (in_crypto_id i) = true ->
       passesSymbolCheck (in_crypto_symbol i) = true ->
       msg = credentialMessage).
Proof.
  intros Hkey.
  destruct (Workflow.fetchCryptoPrice_try w inputData) as [t c] eqn:H.
  unfold Workflow.fetchCryptoPrice_try, Workflow.invalidPatterns in H.
  trace_io H; try congruence;
    injection H as <- <-; eexists; (split; [reflexivity|]);
    intros i Hi Hid Hsym; (try discriminate Hi); injection Hi as <-;
    apply passesIdChecks_inv in Hid; destruct Hid as (H1 & H2 & H3 & H4);
    unfold passesSymbolCheck in Hsym; apply negb_true_iff in Hsym;
    try congruence; reflexivity.
Qed.

Lemma getPrice_without_key (w : World) (crypto_id : string) :
  falsy (COINCAP_API_KEY (env w)) = true ->
  exists msg,
    PriceTool.getPrice w crypto_id = ([], Throw (Error msg)) /\
    (passesIdChecks crypto_id = true -> msg = credentialMessage).
Proof.
  intros Hkey.
  destruct (PriceTool.getPrice w crypto_id) as [t c] eqn:H.
  unfold PriceTool.getPrice, PriceTool.getPrice_try, PriceTool.invalidPatterns in H.
  trace_io H; try congruence;
    injection H as <- <-; eexists; (split; [reflexivity|]);
    intros Hid;
    apply passesIdChecks_inv in Hid; destruct Hid as (H1 & H2 & H3 & H4);
    try congruence; try reflexivity.
  - apply orb_false_elim in H1. destruct H1 as [H1 _]. congruence.
  - apply orb_false_elim in H1. destruct H1 as [_ H1].
    unfold len in H1. destruct (trim (toLowerCase crypto_id)) eqn:Ht.
    + simpl in H3. discriminate.
    + discriminate.
Qed.

(** C3, as stated, fails: with COINCAP_API_KEY absent neither step 1 nor
    the tool aborts; both return the zero-price record that carries the
    error. *)
Lemma missing_price_credential_counterexample :
  falsy (COINCAP_API_KEY (env offline)) = true /\
  Workflow.fetchCryptoPrice offline (Some btcInput) = ([], Return btcUnpriced) /\
  p_priceUsd btcUnpriced = "0" /\
  p_error btcUnpriced = Some credentialMessage /\
  PriceTool.execute offline "bitcoin"
    = ([], Return {| PriceTool.name := "bitcoin";
                     PriceTool.symbol := "UNKNOWN";
                     PriceTool.priceUsd := "0";
                     PriceTool.changePercent24Hr := Some "N/A";
                     PriceTool.error := Some credentialMessage |}).
Proof. repeat split; reflexivity. Qed.

(** C3, amended.  If COINCAP_API_KEY is absent (or empty), no request is
    issued and the failure is raised before any network call: [getPrice]
    throws, with the message that the variable is required when the
    identifier passes the input checks; the tool's [execute] and step 1 of
    the workflow catch the error and return a record with priceUsd "0"
    whose error field carries the message. *)
Theorem missing_price_credential_degrades (w : World) :
  falsy (COINCAP_API_KEY (env w)) = true ->
  (forall inputData : option WorkflowInput,
     exists out msg,
       Workflow.fetchCryptoPrice w inputData = ([], Return out) /\
       p_priceUsd out = "0" /\
       p_error out = Some msg /\
       (forall i, inputData = Some i ->
          passesIdChecks (in_crypto_id i) = true ->
          passesSymbolCheck (in_crypto_symbol i) = true ->
          msg = credentialMessage)) /\
  (forall crypto_id : string,
     exists msg,
       PriceTool.getPrice w crypto_id = ([], Throw (Error msg)) /\
       (passesIdChecks crypto_id = true -> msg = credentialMessage)) /\
  (forall crypto_id : string,
     exists out msg,
       PriceTool.execute w crypto_id = ([], Return out) /\
       PriceTool.priceUsd out = "0" /\
       PriceTool.error out = Some msg).
Proof.
  intros Hkey. split; [|split].
  - intros inputData.
    destruct (price_try_without_key w inputData Hkey) as (msg & Htry & Hmsg).
    unfold Workflow.fetchCryptoPrice. rewrite Htry. cbn [tryCatch ret app].
    eexists. exists msg. repeat split. exact Hmsg.
  - intros crypto_id. apply getPrice_without_key. exact Hkey.
  - intros crypto_id. unfold PriceTool.execute.
    destruct (getPrice_without_key w (trim (toLowerCase crypto_id)) Hkey)
      as (msg & Hget & _).
    rewrite Hget.
    destruct (isEmpty (trim (toLowerCase crypto_id)));
      cbn [throwIf bind tryCatch throw ret app]; do 2 eexists; repeat split.
Qed.

Lemma missing_price_credential_degrades_witness :
  falsy (COINCAP_API_KEY (env offline)) = true /\
  exists out,
    Workflow.fetchCryptoPrice offline (Some btcInput) = ([], Return out) /\
    p_priceUsd out = "0" /\
    p_error out = Some credentialMessage.
Proof.
  split; [reflexivity|].
  destruct (missing_price_credential_degrades offline eq_refl) as (Hstep & _).
  destruct (Hstep (Some btcInput)) as (out & msg & Hrun & Hprice & Herr & Hmsg).
  exists out.
  split; [exact Hrun|].
  split; [exact Hprice|].
  rewrite Herr. f_equal.
  apply (Hmsg btcInput eq_refl); reflexivity.
Defined.

(** ** The pipeline *)

(** Steps 1 to 3 always return, so a run always reaches the compiler. *)
Lemma workflow_reaches_compile (w : World) (input : WorkflowInput) :
  exists t1 p t2 s t3 n,
    Workflow.fetchCryptoPrice w (Some input) = (t1, Return p) /\
    Workflow.fetchSentimentScore w p = (t2, Return s) /\
    Workflow.fetchCryptoNews w (Some s) = (t3, Return n) /\
    Workflow.cryptoAnalysisWorkflow w input
      = ((t1 ++ t2 ++ t3 ++ requests (Workflow.compileAnalysis w (Some n)))%list,
         completion (Workflow.compileAnalysis w (Some n))).
Proof.
  unfold Workflow.cryptoAnalysisWorkflow.
  assert (H1 : exists t1 p, Workflow.fetchCryptoPrice w (Some input) = (t1, Return p)).
  { unfold Workflow.fetchCryptoPrice.
    match goal with
    | |- context [tryCatch ?m (fun e => ret (@?h e))] =>
        destruct (tryCatch_returns m h) as (t & a & Hrun & _)
    end.
    exists t, a. exact Hrun. }
  destruct H1 as (t1 & p & H1).
  assert (H2 : exists t2 s, Workflow.fetchSentimentScore w p = (t2, Return s)).
  { unfold Workflow.fetchSentimentScore.
    match goal with
    | |- context [tryCatch ?m (fun e => ret (@?h e))] =>
        destruct (tryCatch_returns m h) as (t & a & Hrun & _)
    end.
    exists t, a. exact Hrun. }
  destruct H2 as (t2 & s & H2).
  assert (H3 : exists t3 n, Workflow.fetchCryptoNews w (Some s) = (t3, Return n)).
  { unfold Workflow.fetchCryptoNews.
    destruct (falsy (NEWS_API_KEY (env w))).
    - do 2 eexists. reflexivity.
    - match goal with
      | |- context [tryCatch ?m (fun e => ret (@?h e))] =>
          destruct (tryCatch_returns m h) as (t & a & Hrun & _)
      end.
      rewrite Hrun. do 2 eexists. reflexivity. }
  destruct H3 as (t3 & n & H3).
  exists t1, p, t2, s, t3, n.
  rewrite H1. cbn [bind]. rewrite H2. cbn [bind]. rewrite H3. cbn [bind].
  destruct (Workflow.compileAnalysis w (Some n)) as [t4 c4].
  cbn [requests completion fst snd].
  repeat split.
Qed.

(** ** Malformed identifiers *)

Lemma malformed_caught (crypto_id : string) :
  Spec.malformed crypto_id = true -> passesIdChecks crypto_id = false.
Proof.
  unfold Spec.malformed, passesIdChecks, Workflow.invalidPatterns. cbn [existsb].
  intros H.
  apply orb_true_iff in H. destruct H as [H|H];
    [apply orb_true_iff in H; destruct H as [H|H]|].
  - rewrite (trim_whiteSpace _ H). simpl. rewrite orb_true_r. reflexivity.
  - change (existsChar Workflow.isMaliciousChar crypto_id = true) in H.
    rewrite normalized_keeps_malicious, H. simpl. apply andb_false_r.
  - apply andb_prop in H. destruct H as [Hne Hd].
    rewrite (normalized_digits _ Hd), Hne, Hd. simpl.
    rewrite !orb_true_r. apply andb_false_r.
Qed.

Ltac passes_from_tests :=
  unfold passesIdChecks, Workflow.invalidPatterns; cbn [existsb];
  repeat match goal with
         | E : ?x = false |- context [?x] => rewrite E
         end;
  reflexivity.

Lemma price_try_rejects_malformed (w : World) (i : WorkflowInput) :
  Spec.malformed (in_crypto_id i) = true ->
  exists msg,
    Workflow.fetchCryptoPrice_try w (Some i) = ([], Throw (Error msg)) /\
    In msg (validationMessages (in_crypto_id i)).
Proof.
  intros Hmal. apply malformed_caught in Hmal.
  destruct (Workflow.fetchCryptoPrice_try w (Some i)) as [t c] eqn:H.
  unfold Workflow.fetchCryptoPrice_try, Workflow.invalidPatterns in H.
  trace_io H;
    first
      [ solve [ exfalso;
                assert (Hp : passesIdChecks (in_crypto_id i) = true) by passes_from_tests;
                congruence ]
      | injection H as <- <-; eexists; (split; [reflexivity|]);
        unfold validationMessages;
        first [ left; reflexivity
              | right; left; reflexivity
              | right; right; left; reflexivity ] ].
Qed.

Lemma sentiment_step_requests (w : World) (p : PriceStepOutput) :
  existsb isRatesRequest (requests (Workflow.fetchSentimentScore w p)) = false.
Proof.
  destruct (Workflow.fetchSentimentScore w p) as [t c] eqn:H.
  unfold Workflow.fetchSentimentScore, Workflow.fetchSentimentScore_try in H.
  trace_io H; injection H as <- _; reflexivity.
Qed.

Lemma news_step_requests (w : World) (s : SentimentStepOutput) :
  existsb isRatesRequest (requests (Workflow.fetchCryptoNews w (Some s))) = false.
Proof.
  destruct (Workflow.fetchCryptoNews w (Some s)) as [t c] eqn:H.
  unfold Workflow.fetchCryptoNews, Workflow.fetchCryptoNews_try in H.
  trace_io H; injection H as <- _; reflexivity.
Qed.

Lemma compile_step_requests (w : World) (n : NewsStepOutput) :
  requests (Workflow.compileAnalysis w (Some n)) = [AgentStream].
Proof.
  unfold Workflow.compileAnalysis, bind, await, ret, requests.
  destruct (agentStream w n); reflexivity.
Qed.

(** C9, as stated, fails: for the identifier "../etc" the request is not
    rejected before step 1.  The input schema of step 1 accepts it, step 1
    runs and returns a record, and the run goes on to call the sentiment
    provider, the news provider and the model, and produces a report. *)
Lemma malformed_identifier_counterexample :
  Spec.malformed (in_crypto_id etcInput) = true /\
  Workflow.fetchCryptoPrice_inputSchema etcInput = true /\
  exists p report,
    Workflow.fetchCryptoPrice keysButOffline (Some etcInput) = ([], Return p) /\
    p_error p = Some "Invalid cryptocurrency ID format: '../etc'" /\
    Workflow.cryptoAnalysisWorkflow keysButOffline etcInput
      = ([GetFearGreed "k-cmc"; GetNews "../etc cryptocurrency" 3 "k-news"; AgentStream],
         Return report) /\
    ci_price_usd (r_crypto_info report) = "0".
Proof.
  repeat split; try reflexivity.
  do 2 eexists. repeat split; reflexivity.
Qed.

(** C9, amended.  For every input whose identifier is malformed (empty or
    whitespace-only, containing any of the characters < > { } [ ] \ /, or
    purely numeric), step 1 itself detects it before it issues its request:
    it issues no network call and returns a record with priceUsd "0" whose
    error field holds one of the messages of the input checks.  The run is
    not rejected: steps 2 and 3 still return and the compiler is reached,
    and no request to the rates provider is issued in the whole run. *)
Theorem malformed_identifier_degrades (w : World) (i : WorkflowInput) :
  Spec.malformed (in_crypto_id i) = true ->
  exists out msg,
    Workflow.fetchCryptoPrice w (Some i) = ([], Return out) /\
    p_priceUsd out = "0" /\
    p_error out = Some msg /\
    In msg (validationMessages (in_crypto_id i)) /\
    exists t2 s t3 n,
      Workflow.fetchSentimentScore w out = (t2, Return s) /\
      Workflow.fetchCryptoNews w (Some s) = (t3, Return n) /\
      Workflow.cryptoAnalysisWorkflow w i
        = ((t2 ++ t3 ++ [AgentStream])%list,
           completion (Workflow.compileAnalysis w (Some n))) /\
      existsb isRatesRequest (requests (Workflow.cryptoAnalysisWorkflow w i)) = false.
Proof.
  intros Hmal.
  destruct (price_try_rejects_malformed w i Hmal) as (msg & Htry & Hmsg).
  destruct (workflow_reaches_compile w i) as (t1 & p & t2 & s & t3 & n & H1 & H2 & H3 & Hrun).
  assert (Hstep : Workflow.fetchCryptoPrice w (Some i) = ([], Return p)
                  /\ p_priceUsd p = "0" /\ p_error p = Some msg).
  { unfold Workflow.fetchCryptoPrice in *. rewrite Htry in *.
    cbn [tryCatch ret app] in *. injection H1 as <- <-. repeat split. }
  destruct Hstep as (Hstep & Hprice & Herr).
  assert (Ht1 : t1 = []) by congruence. subst t1.
  exists p, msg.
  split; [exact Hstep|].
  split; [exact Hprice|].
  split; [exact Herr|].
  split; [exact Hmsg|].
  exists t2, s, t3, n.
  rewrite compile_step_requests in Hrun. cbn [app] in Hrun.
  split; [exact H2|].
  split; [exact H3|].
  split; [exact Hrun|].
  rewrite Hrun. cbn [requests fst].
  rewrite !existsb_app.
  pose proof (sentiment_step_requests w p) as Hs2.
  pose proof (news_step_requests w s) as Hs3.
  rewrite H2 in Hs2. rewrite H3 in Hs3. cbn [requests fst] in Hs2, Hs3.
  rewrite Hs2, Hs3. reflexivity.
Qed.

Lemma malformed_identifier_degrades_witness :
  Spec.malformed (in_crypto_id etcInput) = true /\
  exists out msg,
    Workflow.fetchCryptoPrice keysButOffline (Some etcInput) = ([], Return out) /\
    p_priceUsd out = "0" /\
    p_error out = Some msg /\
    In msg (validationMessages "../etc").
Proof.
  split; [reflexivity|].
  destruct (malformed_identifier_degrades keysButOffline etcInput eq_refl)
    as (out & msg & Hrun & Hprice & Herr & Hmsg & _).
  exists out, msg.
  split; [exact Hrun|].
  split; [exact Hprice|].
  split; [exact Herr|exact Hmsg].
Defined.

(** ** The news stage of the pipeline *)

Lemma news_step_returns (w : World) (i : SentimentStepOutput) :
  exists t articles,
    Workflow.fetchCryptoNews w (Some i)
      = (t, Return {| n_priceData := n_priceData (emptyNews i);
                      n_sentimentData := n_sentimentData (emptyNews i);
                      n_articles := articles |}).
Proof.
  unfold Workflow.fetchCryptoNews.
  destruct (falsy (NEWS_API_KEY (env w))).
  - do 2 eexists. reflexivity.
  - match goal with
    | |- context [tryCatch ?m (fun e => ret (@?h e))] =>
        destruct (tryCatch_returns m h) as (t & a & Hrun & _)
    end.
    rewrite Hrun. do 2 eexists. reflexivity.
Qed.

Lemma news_failure_empty (w : World) (i : SentimentStepOutput) :
  NewsFailure w i ->
  exists t, Workflow.fetchCryptoNews w (Some i) = (t, Return (emptyNews i)).
Proof.
  intros Hfail.
  unfold Workflow.fetchCryptoNews.
  destruct (falsy (NEWS_API_KEY (env w))) eqn:Hkey.
  - eexists. reflexivity.
  - unfold Workflow.fetchCryptoNews_try. fold (newsCall w i).
    destruct Hfail as [Hk | e Hc | r Hc Hok | r e Hc Hj | r Hc Hj
                      | r o Hc Hj Ha | r o l e Hc Hj Ha Hm].
    + congruence.
    + rewrite Hc. eexists. reflexivity.
    + rewrite Hc. unfold await, bind. rewrite Hok. eexists. reflexivity.
    + rewrite Hc. unfold await, bind. destruct (ok r); [|eexists; reflexivity].
      rewrite Hj. eexists. reflexivity.
    + rewrite Hc. unfold await, bind. destruct (ok r); [|eexists; reflexivity].
      rewrite Hj. eexists. reflexivity.
    + rewrite Hc. unfold await, bind. destruct (ok r); [|eexists; reflexivity].
      rewrite Hj. cbn [lift]. rewrite Ha. eexists. reflexivity.
    + rewrite Hc. unfold await, bind. destruct (ok r); [|eexists; reflexivity].
      rewrite Hj. cbn [lift]. rewrite Ha. cbn [lift]. rewrite Hm. eexists. reflexivity.
Qed.

(** C7.  For every input the news stage of the pipeline returns: its output
    is the price and sentiment data of the upstream record and a sequence
    of articles, with no error field; when the news credential is absent,
    or the provider call or the reading of its response fails, the output
    is exactly the upstream data with an empty sequence, whatever the
    failure was.  A run of the pipeline therefore always reaches the
    compiler. *)
Theorem news_stage_never_fails (w : World) :
  (forall i : SentimentStepOutput,
     (exists t articles,
        Workflow.fetchCryptoNews w (Some i)
          = (t, Return {| n_priceData := n_priceData (emptyNews i);
                          n_sentimentData := n_sentimentData (emptyNews i);
                          n_articles := articles |})) /\
     (NewsFailure w i ->
        exists t, Workflow.fetchCryptoNews w (Some i) = (t, Return (emptyNews i)))) /\
  (forall input : WorkflowInput,
     exists n,
       completion (Workflow.cryptoAnalysisWorkflow w input)
       = completion (Workflow.compileAnalysis w (Some n))).
Proof.
  split.
  - intros i. split; [apply news_step_returns|apply news_failure_empty].
  - intros input.
    destruct (workflow_reaches_compile w input)
      as (t1 & p & t2 & s & t3 & n & _ & _ & _ & Hrun).
    exists n. rewrite Hrun. reflexivity.
Qed.

Lemma news_stage_never_fails_witness :
  NewsFailure keysButOffline btcNeutral /\
  exists t,
    Workflow.fetchCryptoNews keysButOffline (Some btcNeutral)
      = (t, Return (emptyNews btcNeutral)).
Proof.
  assert (H : NewsFailure keysButOffline btcNeutral).
  { apply (CallRejected _ _ (TypeError "fetch failed")). reflexivity. }
  split; [exact H|].
  exact (proj2 (proj1 (news_stage_never_fails keysButOffline) btcNeutral) H).
Defined.

(** ** What the stages carry forward *)

Lemma sentiment_step_carries (w : World) (p : PriceStepOutput)
  (t : list Request) (s : SentimentStepOutput) :
  Workflow.fetchSentimentScore w p = (t, Return s) ->
  s_inputData s = p /\ s_price_error s = p_error p.
Proof.
  intros H.
  unfold Workflow.fetchSentimentScore, Workflow.fetchSentimentScore_try in H.
  trace_io H; injection H as _ <-; split; reflexivity.
Qed.

Lemma news_step_carries (w : World) (s : SentimentStepOutput)
  (t : list Request) (n : NewsStepOutput) :
  Workflow.fetchCryptoNews w (Some s) = (t, Return n) ->
  n_priceData n = n_priceData (emptyNews s) /\
  n_sentimentData n = n_sentimentData (emptyNews s).
Proof.
  intros H.
  destruct (news_step_returns w s) as (t' & articles & Hrun).
  rewrite Hrun in H. injection H as _ <-. split; reflexivity.
Qed.

Lemma compile_step_carries (w : World) (n : NewsStepOutput)
  (t : list Request) (r : AnalysisReport) :
  Workflow.compileAnalysis w (Some n) = (t, Return r) ->
  r_crypto_info r
    = {| ci_name := pd_name (n_priceData n);
         ci_symbol := pd_symbol (n_priceData n);
         ci_price_usd := pd_priceUsd (n_priceData n);
         ci_change_24h := pd_changePercent24Hr (n_priceData n) |} /\
  r_sentiment_analysis r
    = {| an_sentiment := sd_sentiment (n_sentimentData n);
         an_score := sd_score (n_sentimentData n);
         an_fear_greed_value := sd_fearGreedValue (n_sentimentData n);
         an_classification := sd_classification (n_sentimentData n) |} /\
  map ra_title (r_latest_news r) = map sa_title (n_articles n) /\
  map ra_description (r_latest_news r) = map sa_description (n_articles n) /\
  map ra_url (r_latest_news r) = map sa_url (n_articles n) /\
  map ra_published_at (r_latest_news r) = map sa_publishedAt (n_articles n) /\
  map ra_source (r_latest_news r) = map sa_source (n_articles n).
Proof.
  intros H. unfold Workflow.compileAnalysis in H.
  trace_io H. injection H as _ <-.
  cbn [r_crypto_info r_sentiment_analysis r_latest_news].
  rewrite !map_map. cbn [ra_title ra_description ra_url ra_published_at ra_source].
  repeat split.
Qed.

(** C6, as stated, fails: the failures of the upstream stages do not reach
    the final report.  A run without the rates key and a run whose rates
    request is answered 429 end step 1 with different errors and produce
    the same report; step 3 has dropped price_error and sentiment_error. *)
Lemma error_provenance_counterexample :
  exists p1 p2 report,
    completion (Workflow.fetchCryptoPrice offline (Some btcInput)) = Return p1 /\
    completion (Workflow.fetchCryptoPrice rateLimited (Some btcInput)) = Return p2 /\
    p_error p1 = Some credentialMessage /\
    p_error p2 = Some "Rate limit exceeded. Please try again in a few moments." /\
    p_error p1 <> p_error p2 /\
    completion (Workflow.cryptoAnalysisWorkflow offline btcInput) = Return report /\
    completion (Workflow.cryptoAnalysisWorkflow rateLimited btcInput) = Return report.
Proof.
  do 3 eexists. repeat split; try reflexivity.
  cbn. discriminate.
Qed.

(** C6, amended.  No stage revises a value produced by an earlier stage:
    step 2 keeps the whole record of step 1 and carries its error forward
    as the separate field price_error; step 3 and the compiler copy name,
    symbol, priceUsd, changePercent24Hr, sentiment, score, fearGreedValue,
    classification and the articles unchanged, so that the report of a run
    holds exactly the values its stages produced.  (Step 3 keeps neither
    price_error nor sentiment_error; the report has no error field.) *)
Theorem upstream_values_unrevised (w : World) (input : WorkflowInput)
  (report : AnalysisReport) :
  completion (Workflow.cryptoAnalysisWorkflow w input) = Return report ->
  exists t1 p t2 s t3 n,
    Workflow.fetchCryptoPrice w (Some input) = (t1, Return p) /\
    Workflow.fetchSentimentScore w p = (t2, Return s) /\
    Workflow.fetchCryptoNews w (Some s) = (t3, Return n) /\
    s_inputData s = p /\
    s_price_error s = p_error p /\
    r_crypto_info report
      = {| ci_name := p_name p;
           ci_symbol := p_symbol p;
           ci_price_usd := p_priceUsd p;
           ci_change_24h := p_changePercent24Hr p |} /\
    r_sentiment_analysis report
      = {| an_sentiment := s_sentiment s;
           an_score := s_score s;
           an_fear_greed_value := s_fearGreedValue s;
           an_classification := s_classification s |} /\
    map ra_title (r_latest_news report) = map sa_title (n_articles n) /\
    map ra_description (r_latest_news report) = map sa_description (n_articles n) /\
    map ra_url (r_latest_news report) = map sa_url (n_articles n) /\
    map ra_published_at (r_latest_news report) = map sa_publishedAt (n_articles n) /\
    map ra_source (r_latest_news report) = map sa_source (n_articles n).
Proof.
  intros Hrun.
  destruct (workflow_reaches_compile w input)
    as (t1 & p & t2 & s & t3 & n & H1 & H2 & H3 & Hw).
  rewrite Hw in Hrun.
  destruct (Workflow.compileAnalysis w (Some n)) as [t4 c4] eqn:H4.
  unfold completion in Hrun. cbn [snd] in Hrun. subst c4.
  destruct (sentiment_step_carries _ _ _ _ H2) as (Hs1 & Hs2).
  destruct (news_step_carries _ _ _ _ H3) as (Hn1 & Hn2).
  destruct (compile_step_carries _ _ _ _ H4) as (Hr1 & Hr2 & Hr3).
  exists t1, p, t2, s, t3, n.
  split; [exact H1|]. split; [exact H2|]. split; [exact H3|].
  split; [exact Hs1|]. split; [exact Hs2|].
  split.
  { rewrite Hr1, Hn1. cbn [emptyNews n_priceData pd_name pd_symbol pd_priceUsd
                           pd_changePercent24Hr].
    rewrite Hs1. reflexivity. }
  split.
  { rewrite Hr2, Hn2. reflexivity. }
  exact Hr3.
Qed.

Lemma upstream_values_unrevised_witness :
  exists report p s,
    completion (Workflow.cryptoAnalysisWorkflow offline btcInput) = Return report /\
    completion (Workflow.fetchCryptoPrice offline (Some btcInput)) = Return p /\
    completion (Workflow.fetchSentimentScore offline p) = Return s /\
    ci_price_usd (r_crypto_info report) = p_priceUsd p /\
    an_classification (r_sentiment_analysis report) = s_classification s.
Proof.
  eexists.
  destruct (upstream_values_unrevised offline btcInput _ eq_refl)
    as (t1 & p & t2 & s & t3 & n & H1 & H2 & H3 & _ & _ & Hc & Hs & _).
  exists p, s.
  split; [reflexivity|].
  split; [rewrite H1; reflexivity|].
  split; [rewrite H2; reflexivity|].
  split; [rewrite Hc|rewrite Hs]; reflexivity.
Defined.

(** ** Sanitization of the news *)

Lemma substring0_length (n : nat) (s : string) :
  String.length (substring0 n s) = Nat.min n (String.length s).
Proof.
  unfold substring0. revert s.
  induction n as [|n IH]; intros s.
  - destruct s; reflexivity.
  - destruct s as [|c r]; simpl; [reflexivity|].
    rewrite IH. reflexivity.
Qed.


Lemma live_tier_sanitized (w : World) (query : string) (limit : Z)
  (t : list Request) (out : NewsTool.Output) :
  NewsTool.fetchCryptoNewsWithFallback_try w query limit = (t, Return out) ->
  NewsTool.out_source out = Some "NewsAPI" ->
  exists raw : list RawArticle,
    NewsTool.articles out = map (NewsTool.sanitize w) raw /\
    (1 <= List.length raw)%nat /\
    (List.length raw <= Z.to_nat limit)%nat.
Proof.
  intros H Hsrc.
  unfold NewsTool.fetchCryptoNewsWithFallback_try in H.
  destruct (falsy (NEWSAPI_KEY (env w))).
  - exfalso.
    unfold NewsTool.fetchCryptoNewsFromAlternativeSource,
      NewsTool.fetchCryptoNewsFromAlternativeSource_try in H.
    trace_io H; injection H as _ <-; discriminate Hsrc.
  - trace_io H; injection H as _ <-; clear Hsrc;
      cbn [NewsTool.articles];
      match goal with
      | E : (Z.of_nat (List.length (map _ ?l)) =? 0) = false |- _ =>
          exists l; rewrite length_map in E; apply Z.eqb_neq in E;
          split; [reflexivity|split; [lia|]]
      end;
      unfold NewsTool.slice0; apply firstn_le_length.
Qed.




(** ** The number of articles the news tool returns *)

Lemma validLimit_range (context : NewsTool.Context) :
  1 <= NewsTool.validLimit context <= 20.
Proof. unfold NewsTool.validLimit. lia. Qed.

Lemma validLimit_clamp (context : NewsTool.Context) :
  NewsTool.validLimit context
  = match NewsTool.limit context with
    | None | Some 0 => 5
    | Some n => Z.max 1 (Z.min 20 n)
    end.
Proof.
  unfold NewsTool.validLimit, numOr.
  destruct (NewsTool.limit context) as [[|n|n]|]; reflexivity.
Qed.

Lemma alternative_source_tier (w : World) (query : string) (limit : Z) :
  1 <= limit <= 20 ->
  exists out,
    NewsTool.fetchCryptoNewsFromAlternativeSource w query limit = ([], Return out) /\
    Tier limit out.
Proof.
  intros Hl.
  unfold NewsTool.fetchCryptoNewsFromAlternativeSource,
    NewsTool.fetchCryptoNewsFromAlternativeSource_try.
  destruct (isEmpty query || (len (trim query) =? 0)).
  - eexists. split; [reflexivity|].
    apply LastResort; [left; reflexivity|discriminate|reflexivity].
  - assert (Hin : (limit <? 1) || (20 <? limit) = false).
    { apply orb_false_intro; apply Z.ltb_ge; lia. }
    cbn [throwIf bind ret tryCatch app]. rewrite Hin.
    eexists. split; [reflexivity|].
    apply Templated; [reflexivity|reflexivity|].
    cbn [NewsTool.articles]. unfold NewsTool.slice0.
    rewrite length_firstn, length_map.
    change (List.length (NewsTool.baseArticles w query)) with 6%nat.
    change (Z.of_nat 6) with 6. lia.
Qed.

Lemma with_fallback_tier (w : World) (query : string) (limit : Z) :
  1 <= limit <= 20 ->
  exists t out,
    NewsTool.fetchCryptoNewsWithFallback w query limit = (t, Return out) /\
    Tier limit out.
Proof.
  intros Hl.
  destruct (alternative_source_tier w query limit Hl) as (alt & Halt & Htier).
  unfold NewsTool.fetchCryptoNewsWithFallback.
  destruct (NewsTool.fetchCryptoNewsWithFallback_try w query limit) as [t [e|out]] eqn:Htry.
  - cbn [tryCatch]. rewrite Halt. do 2 eexists. split; [reflexivity|exact Htier].
  - cbn [tryCatch]. exists t, out. split; [reflexivity|].
    destruct (falsy (NEWSAPI_KEY (env w))) eqn:Hkey.
    + unfold NewsTool.fetchCryptoNewsWithFallback_try in Htry.
      rewrite Hkey, Halt in Htry. injection Htry as _ <-. exact Htier.
    + assert (Hsrc : NewsTool.out_source out = Some "NewsAPI"
                     /\ NewsTool.error out = None).
      { unfold NewsTool.fetchCryptoNewsWithFallback_try in Htry. rewrite Hkey in Htry.
        trace_io Htry; injection Htry as _ <-; split; reflexivity. }
      destruct Hsrc as [Hsrc Herr].
      destruct (live_tier_sanitized w query limit t out Htry Hsrc)
        as (raw & Hraw & Hlo & Hhi).
      apply Live; [exact Hsrc|exact Herr|].
      rewrite Hraw, length_map. lia.
Qed.

(** C10.  For every invocation of the getCryptoNews tool the tool returns,
    and the returned articles are never empty and never more than the
    clamped limit, clamp(limit, 1, 20) with 5 for a missing limit: the live
    tier returns between one and limit articles, the templated fallback
    returns min(limit, 6) of them, and a last-resort answer holds exactly
    one. *)
Theorem news_tool_article_count (w : World) (context : NewsTool.Context) :
  1 <= NewsTool.validLimit context <= 20 /\
  NewsTool.validLimit context
    = match NewsTool.limit context with
      | None | Some 0 => 5
      | Some n => Z.max 1 (Z.min 20 n)
      end /\
  exists t out,
    NewsTool.execute w context = (t, Return out) /\
    1 <= Z.of_nat (List.length (NewsTool.articles out)) <= NewsTool.validLimit context /\
    Tier (NewsTool.validLimit context) out.
Proof.
  split; [apply validLimit_range|].
  split; [apply validLimit_clamp|].
  pose proof (validLimit_range context) as Hl.
  destruct (with_fallback_tier w
              (optOrElse (option_map trim (NewsTool.query context)) "cryptocurrency")
              (NewsTool.validLimit context) Hl) as (t & out & Hrun & Htier).
  assert (Hcount : forall o, Tier (NewsTool.validLimit context) o ->
            1 <= Z.of_nat (List.length (NewsTool.articles o)) <= NewsTool.validLimit context).
  { intros o [_ _ H | _ _ H | _ _ H]; [exact H|lia|rewrite H; simpl; lia]. }
  unfold NewsTool.execute.
  match goal with
  | |- context [tryCatch ?m (fun e => ret (@?h e))] =>
      destruct (tryCatch_returns m h) as (t' & out' & Hexec & _ & Hcase)
  end.
  exists t', out'. split; [exact Hexec|].
  assert (Ht : Tier (NewsTool.validLimit context) out').
  { destruct Hcase as [Hret | (e & _ & ->)].
    - match type of Hret with
      | completion ?m = _ => destruct m as [t0 c0] eqn:Hbody
      end.
      cbn [completion snd] in Hret. subst c0.
      cbv zeta in Hbody.
      apply bind_Return_inv in Hbody. destruct Hbody as (ta & u & tb & _ & Hbody & _).
      apply bind_Return_inv in Hbody. destruct Hbody as (tc & u' & td & _ & Hbody & _).
      rewrite Hrun in Hbody. injection Hbody as _ <-. exact Htier.
    - apply LastResort; [right; reflexivity|discriminate|reflexivity]. }
  split; [apply Hcount; exact Ht|exact Ht].
Qed.

(* ================================================================== *)
(** * Further properties of the code                                   *)
(* ================================================================== *)

Ltac rewrite_tests :=
  repeat match goal with
         | E : ?x = true |- context [?x] => rewrite E
         | E : ?x = false |- context [?x] => rewrite E
         end.

Ltac negb_tests :=
  repeat match goal with
         | E : negb _ = true |- _ => apply negb_true_iff in E
         | E : negb _ = false |- _ => apply negb_false_iff in E
         end.

Ltac bool_norm :=
  repeat (cbn [negb andb orb];
          progress rewrite ?andb_false_r, ?andb_true_r, ?orb_false_r, ?orb_true_r);
  cbn [negb andb orb].

Ltac unfold_checks :=
  unfold passesIdChecks, passesSymbolCheck, Workflow.invalidPatterns; cbn [existsb].

(** ** Step 1 of the workflow *)

(** X1.  Step 1 issues at most one request and never retries: it calls the
    rates provider, once, with the normalised identifier and the configured
    key, exactly when the identifier and the symbol pass the input checks
    and the key is set; otherwise it issues nothing. *)
Theorem price_step_requests (w : World) (i : WorkflowInput) :
  requests (Workflow.fetchCryptoPrice w (Some i))
  = if passesIdChecks (in_crypto_id i) && passesSymbolCheck (in_crypto_symbol i)
       && negb (falsy (COINCAP_API_KEY (env w)))
    then [ratesRequest w (in_crypto_id i)]
    else [].
Proof.
  unfold Workflow.fetchCryptoPrice.
  destruct (Workflow.fetchCryptoPrice_try w (Some i)) as [t c] eqn:H.
  assert (Ht : t = if passesIdChecks (in_crypto_id i)
                      && passesSymbolCheck (in_crypto_symbol i)
                      && negb (falsy (COINCAP_API_KEY (env w)))
                   then [ratesRequest w (in_crypto_id i)] else []).
  { unfold Workflow.fetchCryptoPrice_try, Workflow.invalidPatterns in H.
    trace_io H; injection H as <- _; unfold_checks; unfold ratesRequest;
      rewrite_tests; bool_norm; reflexivity. }
  destruct c; cbn [tryCatch ret requests fst]; rewrite ?app_nil_r; exact Ht.
Qed.

(** X2.  When step 1 returns without an error, its record holds the
    trimmed lower-case identifier, the trimmed upper-case symbol, the limit
    clamped to 1..20 (3 when missing or 0), "N/A" as the 24h change and the
    provider's rate string as it came; the input had passed the checks and
    exactly one request was made. *)
Theorem price_step_success (w : World) (i : WorkflowInput)
  (t : list Request) (out : PriceStepOutput) :
  Workflow.fetchCryptoPrice w (Some i) = (t, Return out) ->
  p_error out = None ->
  p_crypto_id out = trim (toLowerCase (in_crypto_id i)) /\
  p_crypto_symbol out = trim (toUpperCase (in_crypto_symbol i)) /\
  p_news_limit out = Z.max 1 (Z.min 20 (numOr (in_news_limit i) 3)) /\
  1 <= p_news_limit out <= 20 /\
  p_changePercent24Hr out = Some "N/A" /\
  passesIdChecks (in_crypto_id i) = true /\
  passesSymbolCheck (in_crypto_symbol i) = true /\
  t = [ratesRequest w (in_crypto_id i)] /\
  exists r d,
    fetchRates w (trim (toLowerCase (in_crypto_id i)))
               (optOrElse (COINCAP_API_KEY (env w)) "") = Return r /\
    ok r = true /\
    json r = Return (RatesObject (Some d)) /\
    rd_rateUsd d = Some (p_priceUsd out).
Proof.
  intros Hrun Herr. unfold Workflow.fetchCryptoPrice in Hrun.
  destruct (Workflow.fetchCryptoPrice_try w (Some i)) as [t' [e|a]] eqn:H.
  - cbn [tryCatch ret] in Hrun. injection Hrun as _ <-. discriminate Herr.
  - cbn [tryCatch] in Hrun. injection Hrun as -> ->. clear Herr.
    unfold Workflow.fetchCryptoPrice_try, Workflow.invalidPatterns in H.
    trace_io H. injection H as <- <-.
    cbn [p_crypto_id p_crypto_symbol p_news_limit p_changePercent24Hr p_priceUsd].
    split; [reflexivity|]. split; [reflexivity|]. split; [reflexivity|].
    split; [lia|]. split; [reflexivity|].
    split; [unfold_checks; rewrite_tests; bool_norm; reflexivity|].
    split; [unfold_checks; rewrite_tests; bool_norm; reflexivity|].
    split; [reflexivity|].
    do 2 eexists. repeat split; eassumption.
Qed.

Ltac same_answer :=
  repeat match goal with
         | E : Return _ = Return _ |- _ => inversion E; subst; clear E
         | E : Throw _ = Throw _ |- _ => inversion E; subst; clear E
         | E : Some _ = Some _ |- _ => inversion E; subst; clear E
         | E : RatesObject _ = RatesObject _ |- _ => inversion E; subst; clear E
         | E1 : ?x = Return ?a, E2 : ?x = Return ?b |- _ =>
             rewrite E1 in E2; inversion E2; subst; clear E2
         | E1 : ?x = Some ?a, E2 : ?x = Some ?b |- _ =>
             rewrite E1 in E2; inversion E2; subst; clear E2
         end.

(** X3.  For an input that passes the checks, with the key set, every
    failure of the one call ends in the zero-price record, and the error
    field tells the failures apart: a rejected call (network failure,
    abort) and an unreadable body give the message of the error thrown;
    404, 429, 5xx and any other non-success status give their own message;
    a body that is not an object, that has no [data], or whose rate is
    missing, empty or not a number gives the message of that check. *)
Theorem price_step_failures (w : World) (i : WorkflowInput) :
  passesIdChecks (in_crypto_id i) = true ->
  passesSymbolCheck (in_crypto_symbol i) = true ->
  falsy (COINCAP_API_KEY (env w)) = false ->
  let call := fetchRates w (trim (toLowerCase (in_crypto_id i)))
                         (optOrElse (COINCAP_API_KEY (env w)) "") in
  let id := in_crypto_id i in
  exists out,
    Workflow.fetchCryptoPrice w (Some i) = ([ratesRequest w id], Return out) /\
    (forall e, call = Throw e ->
       p_priceUsd out = "0" /\ p_error out = Some (err_message e)) /\
    (forall r, call = Return r -> ok r = false ->
       p_priceUsd out = "0" /\ p_error out = Some (priceStatusMessage id r)) /\
    (forall r e, call = Return r -> ok r = true -> json r = Throw e ->
       p_priceUsd out = "0" /\ p_error out = Some (err_message e)) /\
    (forall r, call = Return r -> ok r = true -> json r = Return RatesNotObject ->
       p_priceUsd out = "0" /\
       p_error out = Some "Invalid response format from CoinCap API") /\
    (forall r, call = Return r -> ok r = true -> json r = Return (RatesObject None) ->
       p_priceUsd out = "0" /\
       p_error out = Some ("Cryptocurrency '" ++ id ++ "' not found in CoinCap database")) /\
    (forall r d, call = Return r -> ok r = true -> json r = Return (RatesObject (Some d)) ->
       falsy (rd_rateUsd d) = true
       \/ (exists rate, rd_rateUsd d = Some rate /\ isNaN (parseFloat rate) = true) ->
       p_priceUsd out = "0" /\
       p_error out = Some ("Invalid price data received for '" ++ id ++ "'")).
Proof.
  intros Hid Hsym Hkey call id. subst call id.
  apply passesIdChecks_inv in Hid. destruct Hid as (H1 & H2 & H3 & H4).
  unfold passesSymbolCheck in Hsym. apply negb_true_iff in Hsym.
  unfold Workflow.fetchCryptoPrice.
  destruct (Workflow.fetchCryptoPrice_try w (Some i)) as [t c] eqn:H.
  unfold Workflow.fetchCryptoPrice_try, Workflow.invalidPatterns in H.
  trace_io H; try congruence; injection H as <- <-;
    cbn [tryCatch ret app]; eexists; (split; [reflexivity|]);
    cbn [p_priceUsd p_error err_message Error];
    (split; [|split; [|split; [|split; [|split]]]]);
    intros; same_answer; try discriminate; try congruence;
    try match goal with
        | Hd : _ \/ _ |- _ =>
            exfalso; destruct Hd as [Hd | (rate & Hr & Hn)]; same_answer;
            [ try match goal with
                  | E : rd_rateUsd _ = _ |- _ => rewrite E in Hd
                  end;
              cbn [falsy] in Hd | ];
            repeat match goal with
                   | E : _ || _ = false |- _ => apply orb_false_elim in E; destruct E
                   end;
            congruence
        end;
    (split; [reflexivity|]);
    try (unfold priceStatusMessage; rewrite_tests; reflexivity);
    first [reflexivity | congruence].
Qed.

Lemma price_step_success_witness :
  exists t out,
    Workflow.fetchCryptoPrice online (Some btcInput) = (t, Return out) /\
    p_error out = None /\
    p_crypto_id out = "bitcoin" /\
    p_news_limit out = 3 /\
    t = [GetRates "bitcoin" "k-coincap"].
Proof.
  do 2 eexists.
  split; [reflexivity|]. split; [reflexivity|].
  destruct (price_step_success online btcInput _ _ eq_refl eq_refl)
    as (Hid & _ & Hlimit & _ & _ & _ & _ & Ht & _).
  split; [rewrite Hid; reflexivity|].
  split; [rewrite Hlimit; reflexivity|].
  reflexivity.
Defined.

Lemma price_step_failures_witness :
  passesIdChecks (in_crypto_id btcInput) = true /\
  passesSymbolCheck (in_crypto_symbol btcInput) = true /\
  falsy (COINCAP_API_KEY (env rateLimited)) = false /\
  exists out,
    Workflow.fetchCryptoPrice rateLimited (Some btcInput)
      = ([GetRates "bitcoin" "k-coincap"], Return out) /\
    p_error out = Some "Rate limit exceeded. Please try again in a few moments.".
Proof.
  split; [reflexivity|]. split; [reflexivity|]. split; [reflexivity|].
  destruct (price_step_failures rateLimited btcInput eq_refl eq_refl eq_refl)
    as (out & Hrun & _ & Hstatus & _).
  exists out. split; [exact Hrun|].
  exact (proj2 (Hstatus _ eq_refl eq_refl)).
Defined.

(** X4.  When step 1 returns with an error, its record echoes the input as
    it was given: the identifier and the symbol are not normalised
    ("unknown" and "UNKNOWN" stand in for empty ones), and the limit is the
    given one, 3 when missing or 0, not clamped to 1..20. *)
Theorem price_step_error_record (w : World) (i : WorkflowInput)
  (t : list Request) (out : PriceStepOutput) (msg : string) :
  Workflow.fetchCryptoPrice w (Some i) = (t, Return out) ->
  p_error out = Some msg ->
  p_crypto_id out = orElse (in_crypto_id i) "unknown" /\
  p_name out = orElse (in_crypto_id i) "unknown" /\
  p_crypto_symbol out = orElse (in_crypto_symbol i) "UNKNOWN" /\
  p_symbol out = orElse (in_crypto_symbol i) "UNKNOWN" /\
  p_news_limit out = numOr (in_news_limit i) 3 /\
  p_priceUsd out = "0" /\
  p_changePercent24Hr out = Some "N/A".
Proof.
  intros Hrun Herr. unfold Workflow.fetchCryptoPrice in Hrun.
  destruct (Workflow.fetchCryptoPrice_try w (Some i)) as [t' [e|a]] eqn:H.
  - cbn [tryCatch ret] in Hrun. injection Hrun as _ <-. repeat split.
  - cbn [tryCatch] in Hrun. injection Hrun as _ <-.
    destruct (fetchCryptoPrice_try_returns _ _ _ _ H) as (Hnone & _).
    congruence.
Qed.

Lemma price_step_error_record_witness :
  exists t out,
    Workflow.fetchCryptoPrice offline (Some (mkInput " Bitcoin " "btc" (Some 50)))
      = (t, Return out) /\
    p_error out = Some credentialMessage /\
    p_crypto_id out = " Bitcoin " /\
    p_news_limit out = 50.
Proof.
  do 2 eexists.
  split; [reflexivity|]. split; [reflexivity|].
  destruct (price_step_error_record offline (mkInput " Bitcoin " "btc" (Some 50))
              _ _ _ eq_refl eq_refl) as (Hid & _ & _ & _ & Hlimit & _).
  split; [rewrite Hid|rewrite Hlimit]; reflexivity.
Defined.

(** ** Step 2 of the workflow *)

Lemma clamp_range (x : Q) : (-1 <= Spec.clamp x (-1) 1 <= 1)%Q.
Proof.
  unfold Spec.clamp.
  destruct (Qlt_le_dec x (-1)); [lra|].
  destruct (Qlt_le_dec 1 x); lra.
Qed.

Lemma convert_invariants (value : Q) :
  (-1 <= cs_score (Workflow.convertToSentiment value) <= 1)%Q /\
  sentimentMatchesScore (cs_sentiment (Workflow.convertToSentiment value))
                        (cs_score (Workflow.convertToSentiment value)).
Proof.
  destruct (workflow_convert_spec value) as [Hs Hc].
  split; [rewrite Hc; apply clamp_range|].
  rewrite Hs. unfold sentimentMatchesScore, Spec.sentiment.
  assert (Hx : ((value - 50) / 50 * 50 == value - 50)%Q).
  { apply Qdiv_mult_l. discriminate. }
  unfold Spec.score, Spec.clamp in Hc.
  set (x := ((value - 50) / 50)%Q) in *.
  destruct (Qle_bool 60 value) eqn:H60.
  - apply Qle_bool_iff in H60. rewrite Hc.
    destruct (Qlt_le_dec x (-1)); [lra|].
    destruct (Qlt_le_dec 1 x); lra.
  - assert (H60' : (value < 60)%Q).
    { apply Qnot_le_lt. intro Hle. apply Qle_bool_iff in Hle. congruence. }
    destruct (Qle_bool value 40) eqn:H40.
    + apply Qle_bool_iff in H40. rewrite Hc.
      destruct (Qlt_le_dec x (-1)); [lra|].
      destruct (Qlt_le_dec 1 x); lra.
    + assert (H40' : (40 < value)%Q).
      { apply Qnot_le_lt. intro Hle. apply Qle_bool_iff in Hle. congruence. }
      rewrite Hc.
      destruct (Qlt_le_dec x (-1)); [lra|].
      destruct (Qlt_le_dec 1 x); lra.
Qed.

Lemma record_ok_fixed : sentimentRecordOk neutral 0 50.
Proof. unfold sentimentRecordOk, sentimentMatchesScore. lra. Qed.

Lemma record_ok_primary (value : Q) :
  negb (Qle_bool 0 value) || negb (Qle_bool value 100) = false ->
  sentimentRecordOk (cs_sentiment (Workflow.convertToSentiment value))
                    (cs_score (Workflow.convertToSentiment value)) value.
Proof.
  intros H. apply orb_false_elim in H. destruct H as [H0 H100].
  apply negb_false_iff in H0. apply negb_false_iff in H100.
  apply Qle_bool_iff in H0. apply Qle_bool_iff in H100.
  destruct (convert_invariants value) as [Hr Hm].
  repeat split; try assumption; apply Hr.
Qed.

Lemma inject_Z_range (z lo hi : Z) :
  lo <= z <= hi -> (inject_Z lo <= inject_Z z <= inject_Z hi)%Q.
Proof. intros [H1 H2]. split; rewrite <- Zle_Qle; assumption. Qed.

Lemma record_ok_fallback (w : World) (symbol : string) :
  let f := Workflow.generateFallbackSentiment w symbol in
  sentimentRecordOk (Workflow.fb_sentiment f) (Workflow.fb_score f)
                    (inject_Z (numOr (Some (Workflow.fb_fear_greed_value f)) 50)).
Proof.
  intros f.
  destruct (convert_invariants (inject_Z (Workflow.fb_fear_greed_value f))) as [Hr Hm].
  split; [exact Hr|]. split; [|exact Hm].
  apply (inject_Z_range _ 0 100).
  assert (Hv : 0 <= Workflow.fb_fear_greed_value f <= 100).
  { unfold f, Workflow.generateFallbackSentiment. cbv zeta.
    cbn [Workflow.fb_fear_greed_value]. lia. }
  unfold numOr. destruct (Workflow.fb_fear_greed_value f); lia.
Qed.

(** X5.  Step 2 always returns, and its record always keeps the ranges of a
    sentiment record, on the primary path as on both fallback paths: the
    score lies in [-1,1], the fear-greed value in [0,100], and the label
    agrees with the score (bullish from 0.2 up, bearish down from -0.2,
    neutral between).  The record of step 1 is kept whole and its error is
    carried as price_error. *)
Theorem sentiment_step_invariants (w : World) (p : PriceStepOutput) :
  exists t s,
    Workflow.fetchSentimentScore w p = (t, Return s) /\
    s_inputData s = p /\
    s_price_error s = p_error p /\
    (-1 <= s_score s <= 1)%Q /\
    (0 <= s_fearGreedValue s <= 100)%Q /\
    sentimentMatchesScore (s_sentiment s) (s_score s).
Proof.
  destruct (Workflow.fetchSentimentScore w p) as [t c] eqn:H.
  unfold Workflow.fetchSentimentScore, Workflow.fetchSentimentScore_try in H.
  trace_io H; injection H as <- <-; do 2 eexists; (split; [reflexivity|]);
    cbn [s_inputData s_price_error s_score s_fearGreedValue s_sentiment];
    (split; [reflexivity|]); (split; [reflexivity|]);
    first [ apply record_ok_fixed
          | apply record_ok_primary; assumption
          | apply record_ok_fallback ].
Qed.

(** X6.  Step 2 calls the sentiment provider at most once: exactly when
    the symbol it receives is not empty and COINMARKETCAP_API_KEY is set. *)
Theorem sentiment_step_request (w : World) (p : PriceStepOutput) :
  requests (Workflow.fetchSentimentScore w p)
  = if isEmpty (p_crypto_symbol p) || falsy (COINMARKETCAP_API_KEY (env w))
    then []
    else [GetFearGreed (optOrElse (COINMARKETCAP_API_KEY (env w)) "")].
Proof.
  destruct (Workflow.fetchSentimentScore w p) as [t c] eqn:H.
  unfold Workflow.fetchSentimentScore, Workflow.fetchSentimentScore_try in H.
  trace_io H; injection H as <- _; cbn [requests fst]; rewrite_tests; reflexivity.
Qed.

(** X7.  On the primary path of step 2 (symbol present, key set, a
    successful answer whose status code is "0" and whose first data point
    has a value in [0,100]) only the first data point is read; sentiment
    and score come from the conversion of its value, the classification is
    the provider's label when it sends a non-empty one and the computed
    bucket otherwise, and no sentiment_error is set. *)
Theorem sentiment_step_primary (w : World) (p : PriceStepOutput)
  (r : Response FearGreedJson) (st : FearGreedStatus) (pt : FearGreedPoint)
  (rest : list (option FearGreedPoint)) (v : Q) :
  isEmpty (p_crypto_symbol p) = false ->
  falsy (COINMARKETCAP_API_KEY (env w)) = false ->
  fetchFearGreed w (optOrElse (COINMARKETCAP_API_KEY (env w)) "") = Return r ->
  ok r = true ->
  json r = Return (FearGreedObject (Some st) (Some (Some pt :: rest))) ->
  error_code st = Some "0" ->
  fg_value pt = Some v ->
  (0 <= v <= 100)%Q ->
  Workflow.fetchSentimentScore w p
  = ([GetFearGreed (optOrElse (COINMARKETCAP_API_KEY (env w)) "")],
     Return {| s_inputData := p;
               s_sentiment := Spec.sentiment v;
               s_score := cs_score (Workflow.convertToSentiment v);
               s_fearGreedValue := v;
               s_classification :=
                 optOrElse (value_classification pt) (Spec.classification v);
               s_price_error := p_error p;
               s_sentiment_error := None |}).
Proof.
  intros Hsym Hkey Hcall Hok Hjson Hcode Hval [H0 H100].
  apply Qle_bool_iff in H0. apply Qle_bool_iff in H100.
  unfold Workflow.fetchSentimentScore, Workflow.fetchSentimentScore_try.
  rewrite Hsym, Hkey, Hcall.
  unfold bind, throwIf, await, lift, ret, tryCatch. cbv beta iota zeta.
  rewrite Hok, Hjson. cbv beta iota zeta.
  rewrite Hcode. cbn [String.eqb Ascii.eqb Bool.eqb negb]. cbv beta iota zeta.
  rewrite Hval, H0, H100. reflexivity.
Qed.

Lemma sentiment_step_primary_witness :
  exists s,
    Workflow.fetchSentimentScore online btcUnpriced = ([GetFearGreed "k-cmc"], Return s) /\
    s_sentiment s = bullish /\
    s_fearGreedValue s = 72%Q /\
    s_classification s = "Greed" /\
    s_sentiment_error s = None.
Proof.
  assert (H : (0 <= 72 <= 100)%Q) by (split; discriminate).
  pose proof (sentiment_step_primary online btcUnpriced _ _ _ _ 72%Q
                eq_refl eq_refl eq_refl eq_refl eq_refl eq_refl eq_refl H) as Hrun.
  eexists. split; [exact Hrun|]. repeat split.
Defined.

(** ** Step 3 of the workflow *)

Lemma mapThrowing_returns {A B} (f : A -> Completion B) (xs : list A) (ys : list B) :
  mapThrowing f xs = Return ys -> Forall2 (fun x y => f x = Return y) xs ys.
Proof.
  revert ys. induction xs as [|x r IH]; intros ys H; simpl in H.
  - injection H as <-. constructor.
  - destruct (f x) as [e|b] eqn:Hx; [discriminate|].
    destruct (mapThrowing f r) as [e|bs]; [discriminate|].
    injection H as <-. constructor; [exact Hx|apply IH; reflexivity].
Qed.

Lemma toStepArticle_returns (raw : option RawArticle) (art : StepArticle) :
  Workflow.toStepArticle raw = Return art ->
  exists a,
    raw = Some a /\
    a_source a = Some (sa_source art) /\
    sa_title art = a_title a /\
    sa_description art = optOrElse (a_description a) "" /\
    sa_url art = a_url a /\
    sa_publishedAt art = a_publishedAt a.
Proof.
  unfold Workflow.toStepArticle.
  destruct raw as [a|]; [|discriminate].
  destruct (a_source a) as [name|] eqn:Hs; [|discriminate].
  intros H. injection H as <-. exists a. repeat split. exact Hs.
Qed.

(** X8.  Step 3 calls the news provider at most once, exactly when
    NEWS_API_KEY is set: it asks for "<crypto_id> cryptocurrency" with the
    page size news_limit, both taken from the record of step 1 as it
    stands. *)
Theorem news_step_request (w : World) (s : SentimentStepOutput) :
  requests (Workflow.fetchCryptoNews w (Some s))
  = if falsy (NEWS_API_KEY (env w)) then []
    else [GetNews (p_crypto_id (s_inputData s) ++ " cryptocurrency")
                  (p_news_limit (s_inputData s))
                  (optOrElse (NEWS_API_KEY (env w)) "")].
Proof.
  destruct (Workflow.fetchCryptoNews w (Some s)) as [t c] eqn:H.
  unfold Workflow.fetchCryptoNews, Workflow.fetchCryptoNews_try in H.
  trace_io H; injection H as <- _; cbn [requests fst]; reflexivity.
Qed.

(** X9.  When the news provider answers successfully with an array of
    articles that all have a source, step 3 returns them all, in the
    provider's order and without truncating to news_limit: title, url,
    publishedAt and the source name are passed on as they came and a
    missing description becomes the empty string. *)
Theorem news_step_success (w : World) (s : SentimentStepOutput)
  (r : Response NewsJson) (o : NewsObject)
  (l : list (option RawArticle)) (arts : list StepArticle) :
  falsy (NEWS_API_KEY (env w)) = false ->
  newsCall w s = Return r ->
  ok r = true ->
  json r = Return (NewsIsObject o) ->
  nj_articles o = Some l ->
  mapThrowing Workflow.toStepArticle l = Return arts ->
  completion (Workflow.fetchCryptoNews w (Some s))
    = Return {| n_priceData := n_priceData (emptyNews s);
                n_sentimentData := n_sentimentData (emptyNews s);
                n_articles := arts |} /\
  List.length arts = List.length l /\
  Forall2 (fun raw art =>
             exists a,
               raw = Some a /\
               a_source a = Some (sa_source art) /\
               sa_title art = a_title a /\
               sa_description art = optOrElse (a_description a) "" /\
               sa_url art = a_url a /\
               sa_publishedAt art = a_publishedAt a) l arts.
Proof.
  intros Hkey Hcall Hok Hjson Harts Hmap.
  assert (HF : Forall2 (fun x y => Workflow.toStepArticle x = Return y) l arts)
    by (apply mapThrowing_returns; exact Hmap).
  split; [|split].
  - unfold Workflow.fetchCryptoNews, Workflow.fetchCryptoNews_try.
    fold (newsCall w s). rewrite Hkey, Hcall.
    unfold bind, await, lift, ret, tryCatch, completion. cbv beta iota zeta.
    rewrite Hok, Hjson. cbv beta iota zeta. rewrite Harts, Hmap. reflexivity.
  - symmetry. eapply Forall2_length. exact HF.
  - eapply Forall2_impl; [|exact HF].
    intros raw art. apply toStepArticle_returns.
Qed.

Lemma news_step_success_witness :
  exists n,
    completion (Workflow.fetchCryptoNews online
                  (Some (mkSentimentOut (mkPriceOut "bitcoin" "BTC" 1 "bitcoin" "BTC" "0"
                                                    None None)
                                        neutral 0 50 "Neutral" None None)))
      = Return n /\
    List.length (n_articles n) = 2%nat.
Proof.
  destruct (news_step_success online
              (mkSentimentOut (mkPriceOut "bitcoin" "BTC" 1 "bitcoin" "BTC" "0" None None)
                              neutral 0 50 "Neutral" None None)
              _ _ _ _ eq_refl eq_refl eq_refl eq_refl eq_refl eq_refl)
    as (Hrun & Hlen & _).
  eexists. split; [exact Hrun|]. exact Hlen.
Defined.

(** ** A run of the workflow *)

Lemma price_step_trace (w : World) (inputData : option WorkflowInput) :
  (List.length (requests (Workflow.fetchCryptoPrice w inputData)) <= 1)%nat.
Proof.
  destruct (Workflow.fetchCryptoPrice w inputData) as [t c] eqn:H.
  unfold Workflow.fetchCryptoPrice, Workflow.fetchCryptoPrice_try,
    Workflow.invalidPatterns in H.
  trace_io H; injection H as <- _; cbn; lia.
Qed.

Lemma sentiment_step_trace (w : World) (p : PriceStepOutput) :
  (List.length (requests (Workflow.fetchSentimentScore w p)) <= 1)%nat.
Proof.
  destruct (Workflow.fetchSentimentScore w p) as [t c] eqn:H.
  unfold Workflow.fetchSentimentScore, Workflow.fetchSentimentScore_try in H.
  trace_io H; injection H as <- _; cbn; lia.
Qed.

Lemma news_step_trace (w : World) (s : SentimentStepOutput) :
  (List.length (requests (Workflow.fetchCryptoNews w (Some s))) <= 1)%nat.
Proof.
  destruct (Workflow.fetchCryptoNews w (Some s)) as [t c] eqn:H.
  unfold Workflow.fetchCryptoNews, Workflow.fetchCryptoNews_try in H.
  trace_io H; injection H as <- _; cbn; lia.
Qed.

Lemma sentiment_step_record_ok (w : World) (p : PriceStepOutput)
  (t : list Request) (s : SentimentStepOutput) :
  Workflow.fetchSentimentScore w p = (t, Return s) ->
  sentimentRecordOk (s_sentiment s) (s_score s) (s_fearGreedValue s).
Proof.
  intros H.
  unfold Workflow.fetchSentimentScore, Workflow.fetchSentimentScore_try in H.
  trace_io H; injection H as _ <-;
    cbn [s_score s_fearGreedValue s_sentiment];
    first [ apply record_ok_fixed
          | apply record_ok_primary; assumption
          | apply record_ok_fallback ].
Qed.

(** X10.  A run executes the four steps in order and its requests are
    those of the steps, one after the other, followed by the one call of
    the model: no step runs twice, no provider is asked twice, and a run
    issues at most four requests. *)
Theorem workflow_requests (w : World) (input : WorkflowInput) :
  exists p s n,
    completion (Workflow.fetchCryptoPrice w (Some input)) = Return p /\
    completion (Workflow.fetchSentimentScore w p) = Return s /\
    completion (Workflow.fetchCryptoNews w (Some s)) = Return n /\
    requests (Workflow.cryptoAnalysisWorkflow w input)
      = (requests (Workflow.fetchCryptoPrice w (Some input))
         ++ requests (Workflow.fetchSentimentScore w p)
         ++ requests (Workflow.fetchCryptoNews w (Some s))
         ++ [AgentStream])%list /\
    (List.length (requests (Workflow.cryptoAnalysisWorkflow w input)) <= 4)%nat.
Proof.
  destruct (workflow_reaches_compile w input)
    as (t1 & p & t2 & s & t3 & n & H1 & H2 & H3 & Hrun).
  pose proof (price_step_trace w (Some input)) as L1.
  pose proof (sentiment_step_trace w p) as L2.
  pose proof (news_step_trace w s) as L3.
  exists p, s, n.
  rewrite Hrun, H1, H2, H3, compile_step_requests in *.
  cbn [requests completion fst snd] in *.
  repeat split.
  rewrite !length_app. cbn [List.length]. lia.
Qed.

(** X11.  A run fails only when the call of the model fails, and then with
    the model's error; otherwise it returns a report whose analysis is the
    streamed chunks concatenated in order, whose timestamp is the current
    time and whose data are those of step 3. *)
Theorem workflow_outcome (w : World) (input : WorkflowInput) :
  exists n,
    (exists p s,
       completion (Workflow.fetchCryptoPrice w (Some input)) = Return p /\
       completion (Workflow.fetchSentimentScore w p) = Return s /\
       completion (Workflow.fetchCryptoNews w (Some s)) = Return n) /\
    completion (Workflow.cryptoAnalysisWorkflow w input)
    = match agentStream w n with
      | Throw e => Throw e
      | Return chunks =>
          Return {| r_analysis := String.concat "" chunks;
                    r_crypto_info :=
                      {| ci_name := pd_name (n_priceData n);
                         ci_symbol := pd_symbol (n_priceData n);
                         ci_price_usd := pd_priceUsd (n_priceData n);
                         ci_change_24h := pd_changePercent24Hr (n_priceData n) |};
                    r_sentiment_analysis :=
                      {| an_sentiment := sd_sentiment (n_sentimentData n);
                         an_score := sd_score (n_sentimentData n);
                         an_fear_greed_value := sd_fearGreedValue (n_sentimentData n);
                         an_classification := sd_classification (n_sentimentData n) |};
                    r_latest_news :=
                      map (fun a => {| ra_title := sa_title a;
                                       ra_description := sa_description a;
                                       ra_url := sa_url a;
                                       ra_published_at := sa_publishedAt a;
                                       ra_source := sa_source a |}) (n_articles n);
                    r_timestamp := toISOString w (Date_now w) |}
      end.
Proof.
  destruct (workflow_reaches_compile w input)
    as (t1 & p & t2 & s & t3 & n & H1 & H2 & H3 & Hrun).
  exists n. split.
  - exists p, s. rewrite H1, H2, H3. repeat split.
  - rewrite Hrun. unfold Workflow.compileAnalysis, bind, await, ret, completion.
    destruct (agentStream w n); reflexivity.
Qed.

(** X12.  Every report a run returns keeps the ranges of its records: the
    price is "0" or reads as a number that is not NaN and is greater than
    0, the sentiment score lies in [-1,1], the fear-greed value in [0,100],
    and the sentiment label agrees with the score. *)
Theorem report_invariants (w : World) (input : WorkflowInput) (report : AnalysisReport) :
  completion (Workflow.cryptoAnalysisWorkflow w input) = Return report ->
  (ci_price_usd (r_crypto_info report) = "0"
   \/ (isNaN (parseFloat (ci_price_usd (r_crypto_info report))) = false /\
       leZero (parseFloat (ci_price_usd (r_crypto_info report))) = false)) /\
  sentimentRecordOk (an_sentiment (r_sentiment_analysis report))
                    (an_score (r_sentiment_analysis report))
                    (an_fear_greed_value (r_sentiment_analysis report)).
Proof.
  intros Hret.
  destruct (workflow_reaches_compile w input)
    as (t1 & p & t2 & s & t3 & n & H1 & H2 & H3 & Hrun).
  rewrite Hrun in Hret.
  destruct (Workflow.compileAnalysis w (Some n)) as [t4 c4] eqn:H4.
  unfold completion in Hret. cbn [snd] in Hret. subst c4.
  destruct (compile_step_carries _ _ _ _ H4) as (Hc & Hs & _).
  destruct (news_step_carries _ _ _ _ H3) as (Hn1 & Hn2).
  destruct (sentiment_step_carries _ _ _ _ H2) as (Hp & _).
  rewrite Hc, Hs, Hn1, Hn2.
  cbn [emptyNews n_priceData n_sentimentData ci_price_usd pd_priceUsd an_sentiment
       an_score an_fear_greed_value sd_sentiment sd_score sd_fearGreedValue].
  rewrite Hp. split.
  - unfold Workflow.fetchCryptoPrice in H1.
    destruct (Workflow.fetchCryptoPrice_try w (Some input)) as [t' [e|a]] eqn:Htry.
    + cbn [tryCatch ret] in H1. injection H1 as _ <-. left. reflexivity.
    + cbn [tryCatch] in H1. injection H1 as _ <-.
      destruct (fetchCryptoPrice_try_returns _ _ _ _ Htry) as (_ & Hn & Hz).
      right. split; assumption.
  - apply (sentiment_step_record_ok w p t2 s H2).
Qed.

Lemma report_invariants_witness :
  exists report,
    completion (Workflow.cryptoAnalysisWorkflow online btcInput) = Return report /\
    isNaN (parseFloat (ci_price_usd (r_crypto_info report))) = false /\
    sentimentMatchesScore (an_sentiment (r_sentiment_analysis report))
                          (an_score (r_sentiment_analysis report)).
Proof.
  eexists. split; [reflexivity|].
  destruct (report_invariants online btcInput _ eq_refl) as (_ & _ & _ & Hm).
  split; [reflexivity|exact Hm].
Defined.

(** X13.  When none of the three providers can be reached (every call is
    rejected), whatever keys are configured, a run still reaches the
    compiler: the price is the sentinel "0", there are no articles, and
    the classification is one of the two fallback labels; only the model
    can still fail the run. *)
Theorem unreachable_providers_degrade (w : World) (input : WorkflowInput) :
  (forall id k, exists e, fetchRates w id k = Throw e) ->
  (forall k, exists e, fetchFearGreed w k = Throw e) ->
  (forall q n k, exists e, fetchNews w q n k = Throw e) ->
  exists n,
    completion (Workflow.cryptoAnalysisWorkflow w input)
      = completion (Workflow.compileAnalysis w (Some n)) /\
    pd_priceUsd (n_priceData n) = "0" /\
    n_articles n = [] /\
    (sd_classification (n_sentimentData n) = "Neutral (API Unavailable)"
     \/ sd_classification (n_sentimentData n) = "Neutral (Fallback)").
Proof.
  intros Hrates Hfg Hnews.
  destruct (workflow_reaches_compile w input)
    as (t1 & p & t2 & s & t3 & n & H1 & H2 & H3 & Hrun).
  exists n. split; [rewrite Hrun; reflexivity|].
  assert (Hp : p_priceUsd p = "0").
  { unfold Workflow.fetchCryptoPrice, Workflow.fetchCryptoPrice_try,
      Workflow.invalidPatterns in H1.
    trace_io H1;
      try match goal with
          | E : fetchRates w ?a ?b = Return _ |- _ =>
              destruct (Hrates a b) as [e' He']; congruence
          end;
      injection H1 as _ <-; reflexivity. }
  assert (Hs : s_inputData s = p
               /\ (s_classification s = "Neutral (API Unavailable)"
                   \/ s_classification s = "Neutral (Fallback)")).
  { unfold Workflow.fetchSentimentScore, Workflow.fetchSentimentScore_try in H2.
    trace_io H2;
      try match goal with
          | E : fetchFearGreed w ?a = Return _ |- _ =>
              destruct (Hfg a) as [e' He']; congruence
          end;
      injection H2 as _ <-; (split; [reflexivity|]);
      first [left; reflexivity | right; reflexivity]. }
  destruct Hs as [Hs1 Hs2].
  assert (Hn : n = emptyNews s).
  { unfold Workflow.fetchCryptoNews, Workflow.fetchCryptoNews_try in H3.
    trace_io H3;
      try match goal with
          | E : fetchNews w ?a ?b ?c = Return _ |- _ =>
              destruct (Hnews a b c) as [e' He']; congruence
          end;
      injection H3 as _ <-; reflexivity. }
  subst n. cbn [emptyNews n_priceData n_sentimentData n_articles pd_priceUsd
                sd_classification].
  rewrite Hs1. repeat split; assumption.
Qed.

Lemma unreachable_providers_degrade_witness :
  exists n,
    completion (Workflow.cryptoAnalysisWorkflow keysButOffline btcInput)
      = completion (Workflow.compileAnalysis keysButOffline (Some n)) /\
    pd_priceUsd (n_priceData n) = "0" /\
    n_articles n = [].
Proof.
  destruct (unreachable_providers_degrade keysButOffline btcInput) as (n & Hrun & Hp & Ha & _).
  - intros id k. eexists. reflexivity.
  - intros k. eexists. reflexivity.
  - intros q m k. eexists. reflexivity.
  - exists n. repeat split; assumption.
Defined.

(** ** The direct entry points *)

Lemma ownProperty_In (entries : list (string * (string * string))) (key : string)
  (v : string * string) :
  Workflow.ownProperty entries key = Some v -> In (key, v) entries.
Proof.
  induction entries as [|[k v'] r IH]; simpl; [discriminate|].
  destruct (String.eqb k key) eqn:Hk.
  - intros H. injection H as <-. apply String.eqb_eq in Hk. subst k. left. reflexivity.
  - intros H. right. apply IH. exact H.
Qed.

Lemma ownProperty_complete (entries : list (string * (string * string))) (key : string) :
  In key (map fst entries) -> exists v, Workflow.ownProperty entries key = Some v.
Proof.
  induction entries as [|[k v'] r IH]; simpl; [intros []|].
  destruct (String.eqb k key) eqn:Hk.
  - intros _. eexists. reflexivity.
  - intros [H|H]; [subst k; rewrite String.eqb_refl in Hk; discriminate|].
    apply IH. exact H.
Qed.

(** X14.  [quickCryptoAnalysis] knows exactly eight names and matches them
    without regard to case.  For one of them it returns the placeholder
    analysis of [runCryptoAnalysis] for the mapped identifier and symbol
    (price "0.00", neutral sentiment, no news); for any other name it
    throws.  It never issues a request. *)
Theorem quickCryptoAnalysis_names (w : World) (cryptoName : string) :
  requests (Workflow.quickCryptoAnalysis w cryptoName) = [] /\
  (In (toLowerCase cryptoName) (map fst Workflow.cryptoMap) ->
     exists symbol report,
       In (toLowerCase cryptoName, (toLowerCase cryptoName, symbol)) Workflow.cryptoMap /\
       completion (Workflow.quickCryptoAnalysis w cryptoName) = Return report /\
       r_crypto_info report
         = {| ci_name := toLowerCase cryptoName;
              ci_symbol := symbol;
              ci_price_usd := "0.00";
              ci_change_24h := Some "N/A" |} /\
       an_sentiment (r_sentiment_analysis report) = neutral /\
       r_latest_news report = []) /\
  (~ In (toLowerCase cryptoName) (map fst Workflow.cryptoMap) ->
     exists e, completion (Workflow.quickCryptoAnalysis w cryptoName) = Throw e) /\
  (~ In (toLowerCase cryptoName) (map fst Workflow.cryptoMap) ->
   ~ In (toLowerCase cryptoName) Workflow.inheritedKeys ->
     completion (Workflow.quickCryptoAnalysis w cryptoName)
     = Throw (Error ("Cryptocurrency '" ++ cryptoName
                     ++ "' not found. Available options: bitcoin, ethereum, cardano, solana, dogecoin, polkadot, chainlink, litecoin"))).
Proof.
  unfold Workflow.quickCryptoAnalysis, Workflow.getProperty.
  destruct (Workflow.ownProperty Workflow.cryptoMap (toLowerCase cryptoName)) as [[id symbol]|] eqn:Hown.
  - pose proof (ownProperty_In _ _ _ Hown) as Hin.
    assert (Hid : id = toLowerCase cryptoName).
    { simpl in Hin.
      repeat (destruct Hin as [Hin|Hin]; [injection Hin as <- <- _; reflexivity|]).
      destruct Hin. }
    subst id.
    split; [reflexivity|]. split; [|split].
    + intros _. exists symbol. eexists. split; [exact Hin|]. repeat split.
    + intros Hnot. exfalso. apply Hnot.
      apply (in_map fst) in Hin. exact Hin.
    + intros Hnot. exfalso. apply Hnot.
      apply (in_map fst) in Hin. exact Hin.
  - assert (Hnotin : ~ In (toLowerCase cryptoName) (map fst Workflow.cryptoMap)).
    { intros Hin. destruct (ownProperty_complete _ _ Hin) as [v Hv]. congruence. }
    split; [destruct (existsb _ Workflow.inheritedKeys); reflexivity|].
    split; [intros Hin; contradiction|]. split.
    + intros _. destruct (existsb _ Workflow.inheritedKeys); eexists; reflexivity.
    + intros _ Hinh.
      destruct (existsb (String.eqb (toLowerCase cryptoName)) Workflow.inheritedKeys) eqn:Hex.
      * exfalso. apply Hinh. apply existsb_exists in Hex.
        destruct Hex as (k & Hk & Heq). apply String.eqb_eq in Heq. subst k. exact Hk.
      * reflexivity.
Qed.

Lemma quickCryptoAnalysis_names_witness :
  In (toLowerCase "Bitcoin") (map fst Workflow.cryptoMap) /\
  exists report,
    completion (Workflow.quickCryptoAnalysis offline "Bitcoin") = Return report /\
    ci_symbol (r_crypto_info report) = "BTC".
Proof.
  assert (H : In (toLowerCase "Bitcoin") (map fst Workflow.cryptoMap)) by (left; reflexivity).
  split; [exact H|].
  destruct (proj1 (proj2 (quickCryptoAnalysis_names offline "Bitcoin")) H)
    as (symbol & report & Hin & Hrun & Hinfo & _).
  exists report. split; [exact Hrun|].
  rewrite Hinfo. cbn [ci_symbol].
  simpl in Hin.
  repeat (destruct Hin as [Hin|Hin];
          [first [injection Hin as <-; reflexivity | discriminate Hin]|]).
  destruct Hin.
Defined.

(** ** The price tool *)

Lemma lowerChar_idempotent (c : ascii) : lowerChar (lowerChar c) = lowerChar c.
Proof. by_cases_on_char c. Qed.

Lemma whiteSpace_lowerChar (c : ascii) : isWhiteSpace (lowerChar c) = isWhiteSpace c.
Proof. by_cases_on_char c. Qed.

Lemma toLowerCase_idempotent (s : string) : toLowerCase (toLowerCase s) = toLowerCase s.
Proof.
  induction s as [|c r IH]; simpl; [reflexivity|].
  rewrite lowerChar_idempotent, IH. reflexivity.
Qed.

Lemma toLowerCase_stripStart (s : string) :
  toLowerCase (stripStart isWhiteSpace s) = stripStart isWhiteSpace (toLowerCase s).
Proof.
  induction s as [|c r IH]; simpl; [reflexivity|].
  rewrite whiteSpace_lowerChar. destruct (isWhiteSpace c); [exact IH|reflexivity].
Qed.

Lemma toLowerCase_stripEnd (s : string) :
  toLowerCase (stripEnd isWhiteSpace s) = stripEnd isWhiteSpace (toLowerCase s).
Proof.
  induction s as [|c r IH]; simpl; [reflexivity|].
  rewrite <- IH, whiteSpace_lowerChar.
  destruct (stripEnd isWhiteSpace r); simpl.
  - destruct (isWhiteSpace c); reflexivity.
  - reflexivity.
Qed.

Lemma stripEnd_idempotent (p : ascii -> bool) (s : string) :
  stripEnd p (stripEnd p s) = stripEnd p s.
Proof.
  induction s as [|c r IH]; simpl; [reflexivity|].
  destruct (stripEnd p r) as [|c' r'] eqn:Hr.
  - destruct (p c) eqn:Hc; simpl; [reflexivity|]. rewrite Hc. reflexivity.
  - cbn [stripEnd]. cbn [stripEnd] in IH. rewrite IH. reflexivity.
Qed.

Lemma stripStart_head (p : ascii -> bool) (s : string) :
  match stripStart p s with
  | EmptyString => True
  | String c _ => p c = false
  end.
Proof.
  induction s as [|c r IH]; simpl; [exact I|].
  destruct (p c) eqn:Hc; [exact IH|exact Hc].
Qed.

Lemma stripStart_stripEnd (p : ascii -> bool) (s : string) :
  match s with EmptyString => True | String c _ => p c = false end ->
  stripStart p (stripEnd p s) = stripEnd p s.
Proof.
  destruct s as [|c r]; [reflexivity|].
  intros Hc. simpl.
  destruct (stripEnd p r); rewrite ?Hc; simpl; rewrite ?Hc; reflexivity.
Qed.

Lemma trim_idempotent (s : string) : trim (trim s) = trim s.
Proof.
  unfold trim.
  rewrite (stripStart_stripEnd isWhiteSpace (stripStart isWhiteSpace s))
    by apply stripStart_head.
  apply stripEnd_idempotent.
Qed.

Lemma toLowerCase_trim (s : string) : toLowerCase (trim s) = trim (toLowerCase s).
Proof.
  unfold trim. rewrite toLowerCase_stripEnd, toLowerCase_stripStart. reflexivity.
Qed.

(** Normalising a normalised identifier changes nothing. *)
Lemma normalize_idempotent (s : string) :
  trim (toLowerCase (trim (toLowerCase s))) = trim (toLowerCase s).
Proof.
  rewrite toLowerCase_trim, toLowerCase_idempotent. apply trim_idempotent.
Qed.

Lemma len_zero (s : string) : (len s =? 0) = isEmpty s.
Proof. destruct s; reflexivity. Qed.

Lemma passesIdChecks_normalized (s : string) :
  passesIdChecks (trim (toLowerCase s))
  = negb (isEmpty (trim (toLowerCase s)))
    && negb (existsb (fun pattern => pattern (trim (toLowerCase s)))
                     Workflow.invalidPatterns).
Proof.
  unfold passesIdChecks.
  rewrite normalize_idempotent, trim_idempotent, len_zero, orb_diag. reflexivity.
Qed.

(** X15.  The tool normalises the identifier twice, in [execute] and again
    in [getPrice]; the second pass changes nothing.  The tool calls the
    rates provider at most once, with the normalised identifier, exactly
    when that identifier passes the checks and the key is set. *)
Theorem price_tool_requests (w : World) (crypto_id : string) :
  trim (toLowerCase (trim (toLowerCase crypto_id))) = trim (toLowerCase crypto_id) /\
  requests (PriceTool.execute w crypto_id)
  = if passesIdChecks (trim (toLowerCase crypto_id))
       && negb (falsy (COINCAP_API_KEY (env w)))
    then [ratesRequest w crypto_id]
    else [].
Proof.
  split; [apply normalize_idempotent|].
  rewrite passesIdChecks_normalized.
  destruct (PriceTool.execute w crypto_id) as [t c] eqn:H.
  unfold PriceTool.execute, PriceTool.getPrice, PriceTool.getPrice_try,
    PriceTool.invalidPatterns in H.
  cbn [forEach] in H. rewrite !normalize_idempotent in H.
  unfold Workflow.invalidPatterns, ratesRequest. cbn [existsb].
  trace_io H; injection H as <- _; cbn [requests fst];
    rewrite_tests; bool_norm; reflexivity.
Qed.

Lemma forallChar_impl (p q : ascii -> bool) (s : string) :
  (forall c, p c = true -> q c = true) ->
  forallChar p s = true -> forallChar q s = true.
Proof.
  intros Hpq. induction s as [|c r IH]; simpl; [reflexivity|].
  intros H. apply andb_prop in H. destruct H as [Hc Hr].
  rewrite (Hpq c Hc), (IH Hr). reflexivity.
Qed.

Lemma forallChar_existsChar (p q : ascii -> bool) (s : string) :
  (forall c, p c = true -> q c = false) ->
  forallChar p s = true -> existsChar q s = false.
Proof.
  intros Hpq. induction s as [|c r IH]; simpl; [reflexivity|].
  intros H. apply andb_prop in H. destruct H as [Hc Hr].
  rewrite (Hpq c Hc), (IH Hr). reflexivity.
Qed.

Lemma idChar_lowerChar (c : ascii) : isIdChar c = true -> lowerChar c = c.
Proof. by_cases_on_char c. Qed.

Lemma idChar_not_whiteSpace (c : ascii) : isIdChar c = true -> isWhiteSpace c = false.
Proof. by_cases_on_char c. Qed.

Lemma idChar_not_malicious (c : ascii) :
  isIdChar c = true -> Workflow.isMaliciousChar c = false.
Proof. by_cases_on_char c. Qed.

(** X16.  An identifier that the tool's input schema accepts (1 to 50
    characters of a-z, 0-9 and the hyphen) is its own normal form, and the
    only check of the tool that can still reject it is the one on purely
    numeric identifiers. *)
Theorem price_tool_schema (crypto_id : string) :
  PriceTool.inputSchema crypto_id = true ->
  trim (toLowerCase crypto_id) = crypto_id /\
  passesIdChecks crypto_id = negb (forallChar isDigit crypto_id).
Proof.
  unfold PriceTool.inputSchema. intros H.
  apply andb_prop in H. destruct H as [H Hchars].
  apply andb_prop in H. destruct H as [Hmin _].
  change (forallChar isIdChar crypto_id = true) in Hchars.
  assert (Hlow : toLowerCase crypto_id = crypto_id)
    by (apply (forallChar_toLowerCase_id isIdChar); [exact idChar_lowerChar|exact Hchars]).
  assert (Htrim : trim crypto_id = crypto_id).
  { unfold trim.
    rewrite (forallChar_stripStart_id isIdChar isWhiteSpace _ idChar_not_whiteSpace Hchars).
    apply (forallChar_stripEnd_id isIdChar isWhiteSpace _ idChar_not_whiteSpace Hchars). }
  split; [rewrite Hlow; exact Htrim|].
  unfold passesIdChecks, Workflow.invalidPatterns. cbn [existsb].
  rewrite Hlow, Htrim, len_zero, orb_diag.
  rewrite (forallChar_existsChar isIdChar _ _ idChar_not_malicious Hchars).
  destruct crypto_id as [|c r]; [discriminate Hmin|].
  cbn [isEmpty negb andb orb].
  assert (Hws : forallChar isWhiteSpace (String c r) = false).
  { simpl in Hchars. apply andb_prop in Hchars. destruct Hchars as [Hc _].
    simpl. rewrite (idChar_not_whiteSpace c Hc). reflexivity. }
  rewrite Hws. cbn [orb]. rewrite orb_false_r. reflexivity.
Qed.

Lemma price_tool_schema_witness :
  PriceTool.inputSchema "usd-coin" = true /\
  trim (toLowerCase "usd-coin") = "usd-coin" /\
  passesIdChecks "usd-coin" = true.
Proof.
  destruct (price_tool_schema "usd-coin" eq_refl) as [Hn Hp].
  split; [reflexivity|]. split; [exact Hn|]. rewrite Hp. reflexivity.
Defined.

(** X17.  When the one call of the price tool is rejected, the tool
    returns the zero-price record: its name echoes the identifier as it was
    given, its symbol is "UNKNOWN", and its error is a timeout message
    naming the normalised identifier when the call was aborted, and the
    message of the rejection otherwise. *)
Theorem price_tool_rejected_call (w : World) (crypto_id : string) (e : JsError) :
  passesIdChecks (trim (toLowerCase crypto_id)) = true ->
  falsy (COINCAP_API_KEY (env w)) = false ->
  fetchRates w (trim (toLowerCase crypto_id)) (optOrElse (COINCAP_API_KEY (env w)) "")
    = Throw e ->
  PriceTool.execute w crypto_id
  = ([ratesRequest w crypto_id],
     Return {| PriceTool.name := crypto_id;
               PriceTool.symbol := "UNKNOWN";
               PriceTool.priceUsd := "0";
               PriceTool.changePercent24Hr := Some "N/A";
               PriceTool.error :=
                 Some (rejectedMessage (trim (toLowerCase crypto_id)) e) |}).
Proof.
  intros Hid Hkey Hcall.
  rewrite passesIdChecks_normalized in Hid.
  apply andb_prop in Hid. destruct Hid as [Hne Hpat].
  apply negb_true_iff in Hne. apply negb_true_iff in Hpat.
  unfold Workflow.invalidPatterns in Hpat. cbn [existsb] in Hpat.
  apply orb_false_elim in Hpat. destruct Hpat as [Ha Hpat].
  apply orb_false_elim in Hpat. destruct Hpat as [Hb Hpat].
  apply orb_false_elim in Hpat. destruct Hpat as [Hc _].
  unfold PriceTool.execute, PriceTool.getPrice, PriceTool.getPrice_try,
    PriceTool.invalidPatterns, ratesRequest, rejectedMessage.
  cbn [forEach]. cbv beta. rewrite !normalize_idempotent.
  rewrite Hc, Hne, Ha, Hb, Hkey, Hcall.
  unfold bind, throwIf, await, ret, throw, tryCatch. cbv beta iota zeta.
  destruct (String.eqb (err_name e) "AbortError"); reflexivity.
Qed.

Lemma price_tool_rejected_call_witness :
  PriceTool.execute timingOut " Bitcoin "
  = ([GetRates "bitcoin" "k-coincap"],
     Return {| PriceTool.name := " Bitcoin ";
               PriceTool.symbol := "UNKNOWN";
               PriceTool.priceUsd := "0";
               PriceTool.changePercent24Hr := Some "N/A";
               PriceTool.error :=
                 Some "Request timeout while fetching data for 'bitcoin'. Please try again." |}).
Proof.
  exact (price_tool_rejected_call timingOut " Bitcoin " _ eq_refl eq_refl eq_refl).
Defined.

(** X18.  When the rates provider answers successfully with a rate that
    reads as a number greater than 0, the price tool returns that rate
    string as it came, without an error; the name is the provider's id, or
    the normalised identifier when the id is missing, and the symbol is the
    provider's symbol, or the upper-cased identifier when it is missing. *)
Theorem price_tool_success (w : World) (crypto_id : string)
  (r : Response RatesJson) (d : RateData) (rate : string) :
  passesIdChecks (trim (toLowerCase crypto_id)) = true ->
  falsy (COINCAP_API_KEY (env w)) = false ->
  fetchRates w (trim (toLowerCase crypto_id)) (optOrElse (COINCAP_API_KEY (env w)) "")
    = Return r ->
  ok r = true ->
  json r = Return (RatesObject (Some d)) ->
  rd_rateUsd d = Some rate ->
  isEmpty rate = false ->
  isNaN (parseFloat rate) = false ->
  leZero (parseFloat rate) = false ->
  PriceTool.execute w crypto_id
  = ([ratesRequest w crypto_id],
     Return {| PriceTool.name := optOrElse (rd_id d) (trim (toLowerCase crypto_id));
               PriceTool.symbol :=
                 optOrElse (rd_symbol d) (toUpperCase (trim (toLowerCase crypto_id)));
               PriceTool.priceUsd := rate;
               PriceTool.changePercent24Hr := Some "N/A";
               PriceTool.error := None |}).
Proof.
  intros Hid Hkey Hcall Hok Hjson Hrate Hne' Hnan Hpos.
  rewrite passesIdChecks_normalized in Hid.
  apply andb_prop in Hid. destruct Hid as [Hne Hpat].
  apply negb_true_iff in Hne. apply negb_true_iff in Hpat.
  unfold Workflow.invalidPatterns in Hpat. cbn [existsb] in Hpat.
  apply orb_false_elim in Hpat. destruct Hpat as [Ha Hpat].
  apply orb_false_elim in Hpat. destruct Hpat as [Hb Hpat].
  apply orb_false_elim in Hpat. destruct Hpat as [Hc _].
  unfold PriceTool.execute, PriceTool.getPrice, PriceTool.getPrice_try,
    PriceTool.invalidPatterns, ratesRequest.
  cbn [forEach]. cbv beta. rewrite !normalize_idempotent.
  rewrite Hc, Hne, Ha, Hb, Hkey, Hcall.
  unfold bind, throwIf, await, lift, ret, throw, tryCatch. cbv beta iota zeta.
  rewrite Hok, Hjson. cbv beta iota zeta.
  rewrite Hrate. cbv beta iota zeta. rewrite Hne', Hnan, Hpos. reflexivity.
Qed.

Lemma price_tool_success_witness :
  exists out,
    PriceTool.execute online "Bitcoin" = ([GetRates "bitcoin" "k-coincap"], Return out) /\
    PriceTool.priceUsd out = "64250.75" /\
    PriceTool.error out = None.
Proof.
  pose proof (price_tool_success online "Bitcoin" _ _ _
                eq_refl eq_refl eq_refl eq_refl eq_refl eq_refl eq_refl eq_refl eq_refl)
    as Hrun.
  eexists. split; [exact Hrun|]. split; reflexivity.
Defined.

(** ** The sentiment tool *)

Lemma tool_fallback_record (w : World) (symbol : string) :
  let out := SentimentTool.generateFallbackSentiment w symbol in
  SentimentTool.symbol out = symbol /\
  SentimentTool.confidence out = 3 # 10 /\
  SentimentTool.error out
    = Some "Primary sentiment API unavailable, using fallback calculation" /\
  exists v,
    0 <= v <= 100 /\
    SentimentTool.fear_greed_value out = Some (inject_Z v) /\
    SentimentTool.sentiment out = cs_sentiment (Workflow.convertToSentiment (inject_Z v)) /\
    SentimentTool.score out = cs_score (Workflow.convertToSentiment (inject_Z v)).
Proof.
  unfold SentimentTool.generateFallbackSentiment. cbv zeta.
  cbn [SentimentTool.symbol SentimentTool.confidence SentimentTool.error
       SentimentTool.fear_greed_value SentimentTool.sentiment SentimentTool.score].
  repeat split.
  eexists. split; [|repeat split]. lia.
Qed.

Lemma sentiment_tool_cases (w : World) (crypto_symbol : string) :
  exists t out,
    SentimentTool.execute w crypto_symbol = (t, Return out) /\
    ((exists symbol, out = SentimentTool.generateFallbackSentiment w symbol)
     \/ (exists v,
           negb (Qle_bool 0 v) || negb (Qle_bool v 100) = false /\
           SentimentTool.fear_greed_value out = Some v /\
           SentimentTool.sentiment out = cs_sentiment (Workflow.convertToSentiment v) /\
           SentimentTool.score out = cs_score (Workflow.convertToSentiment v) /\
           SentimentTool.confidence out = 85 # 100 /\
           SentimentTool.error out = None)
     \/ (SentimentTool.symbol out = crypto_symbol /\
         SentimentTool.confidence out = 1 # 10 /\
         SentimentTool.error out <> None /\
         SentimentTool.fear_greed_value out = None /\
         SentimentTool.sentiment out = neutral /\
         SentimentTool.score out = 0%Q)).
Proof.
  destruct (SentimentTool.execute w crypto_symbol) as [t c] eqn:H.
  unfold SentimentTool.execute, SentimentTool.fetchSentimentWithFallback,
    SentimentTool.fetchSentimentWithFallback_try in H.
  trace_io H; injection H as <- <-; do 2 eexists; (split; [reflexivity|]);
    first
      [ left; eexists; reflexivity
      | right; left; eexists; (split; [eassumption|]); repeat split
      | right; right; repeat split; discriminate ].
Qed.

(** X19.  The sentiment tool always returns, and what it returns always
    satisfies its output schema: the score lies in [-1,1], the confidence
    in [0,1], the fear-greed value, when present, in [0,100]; and the
    sentiment label agrees with the score. *)
Theorem sentiment_tool_output_schema (w : World) (crypto_symbol : string) :
  exists t out,
    SentimentTool.execute w crypto_symbol = (t, Return out) /\
    (-1 <= SentimentTool.score out <= 1)%Q /\
    (0 <= SentimentTool.confidence out <= 1)%Q /\
    (forall v, SentimentTool.fear_greed_value out = Some v -> (0 <= v <= 100)%Q) /\
    sentimentMatchesScore (SentimentTool.sentiment out) (SentimentTool.score out).
Proof.
  destruct (sentiment_tool_cases w crypto_symbol) as (t & out & Hrun & Hcase).
  exists t, out. split; [exact Hrun|].
  destruct Hcase as [[symbol ->] | [(v & Hv & Hf & Hs & Hsc & Hc & _)
                                   | (_ & Hc & _ & Hf & Hs & Hsc)]].
  - destruct (tool_fallback_record w symbol) as (_ & Hc & _ & v & Hv & Hf & Hs & Hsc).
    destruct (convert_invariants (inject_Z v)) as [Hr Hm].
    rewrite Hs, Hsc, Hc, Hf.
    split; [exact Hr|]. split; [lra|]. split; [|exact Hm].
    intros v' Hv'. injection Hv' as <-. apply (inject_Z_range v 0 100). exact Hv.
  - destruct (record_ok_primary v Hv) as (Hr & Hrange & Hm).
    rewrite Hs, Hsc, Hc, Hf.
    split; [exact Hr|]. split; [lra|]. split; [|exact Hm].
    intros v' Hv'. injection Hv' as <-. exact Hrange.
  - rewrite Hs, Hsc, Hc, Hf.
    split; [lra|]. split; [lra|]. split; [discriminate|].
    unfold sentimentMatchesScore. lra.
Qed.

(** X20.  The sentiment tool answers in one of three ways, which the
    confidence tells apart: 0.85 for the live index, with no error; 0.3 for
    the computed fallback, whose error says that the primary source was
    unavailable; 0.1 when the symbol was rejected, with the reason as error,
    no fear-greed value, and neutral sentiment with score 0. *)
Theorem sentiment_tool_tiers (w : World) (crypto_symbol : string) :
  exists t out,
    SentimentTool.execute w crypto_symbol = (t, Return out) /\ SentimentTier out.
Proof.
  destruct (sentiment_tool_cases w crypto_symbol) as (t & out & Hrun & Hcase).
  exists t, out. split; [exact Hrun|].
  destruct Hcase as [[symbol ->] | [(v & _ & Hf & _ & _ & Hc & He)
                                   | (_ & Hc & He & Hf & Hs & Hsc)]].
  - destruct (tool_fallback_record w symbol) as (_ & Hc & He & v & _ & Hf & _).
    apply FallbackIndex; [exact Hc|exact He|rewrite Hf; discriminate].
  - apply LiveIndex; [exact Hc|exact He|rewrite Hf; discriminate].
  - apply NoIndex; assumption.
Qed.

Lemma with_fallback_symbol (w : World) (symbol : string) :
  exists out,
    SentimentTool.fetchSentimentWithFallback w symbol
    = ((if falsy (COINMARKETCAP_API_KEY (env w)) then []
        else [GetFearGreed (optOrElse (COINMARKETCAP_API_KEY (env w)) "")]),
       Return out) /\
    SentimentTool.symbol out = symbol.
Proof.
  destruct (SentimentTool.fetchSentimentWithFallback w symbol) as [t c] eqn:H.
  unfold SentimentTool.fetchSentimentWithFallback,
    SentimentTool.fetchSentimentWithFallback_try in H.
  trace_io H; injection H as <- <-; eexists; split; reflexivity.
Qed.

(** X21.  The sentiment tool accepts a symbol by its upper-cased, trimmed
    form: 2 to 10 characters of A-Z and 0-9, and none of XXX, NULL,
    UNDEFINED, TEST.  A rejected symbol is answered without any request, by
    a neutral record that echoes the symbol as given; for an accepted one
    the tool calls the provider at most once, exactly when
    COINMARKETCAP_API_KEY is set, and answers under the normalised symbol. *)
Theorem sentiment_tool_symbols (w : World) (crypto_symbol : string) :
  requests (SentimentTool.execute w crypto_symbol)
  = (if acceptsSymbol crypto_symbol && negb (falsy (COINMARKETCAP_API_KEY (env w)))
     then [GetFearGreed (optOrElse (COINMARKETCAP_API_KEY (env w)) "")]
     else []) /\
  exists out,
    completion (SentimentTool.execute w crypto_symbol) = Return out /\
    SentimentTool.symbol out
    = (if acceptsSymbol crypto_symbol then trim (toUpperCase crypto_symbol)
       else crypto_symbol) /\
    (acceptsSymbol crypto_symbol = false ->
       SentimentTool.confidence out = 1 # 10 /\
       SentimentTool.sentiment out = neutral /\
       SentimentTool.fear_greed_value out = None).
Proof.
  unfold acceptsSymbol, SentimentTool.execute. cbv zeta.
  set (n := trim (toUpperCase crypto_symbol)).
  destruct (with_fallback_symbol w n) as (out & Hrun & Hsym).
  rewrite Hrun.
  destruct (isEmpty n);
    [cbn; split; [reflexivity|]; eexists; repeat split|].
  destruct (SentimentTool.validSymbolPattern n);
    [|cbn; split; [reflexivity|]; eexists; repeat split].
  destruct (existsb (String.eqb n) SentimentTool.invalidSymbols);
    [cbn; split; [reflexivity|]; eexists; repeat split|].
  cbn [negb andb throwIf bind ret tryCatch app requests completion fst snd].
  split; [destruct (falsy (COINMARKETCAP_API_KEY (env w))); reflexivity|].
  exists out. split; [reflexivity|]. split; [exact Hsym|].
  intros Hf. discriminate Hf.
Qed.

(** ** The news tool *)

Lemma forEach_throwIf {A} (xs : list A) (test : A -> bool) (msg : string) :
  forEach xs (fun x => throwIf (test x) msg)
  = if existsb test xs then ([], Throw (Error msg)) else ([], Return tt).
Proof.
  induction xs as [|x r IH]; [reflexivity|].
  cbn [forEach existsb]. unfold bind, throwIf at 1.
  destruct (test x); [reflexivity|].
  cbn [ret orb]. rewrite IH. destruct (existsb test r); reflexivity.
Qed.

Lemma sanitizedQuery_nonempty (context : NewsTool.Context) :
  isEmpty (sanitizedQuery context) = false /\
  (len (trim (sanitizedQuery context)) =? 0) = false.
Proof.
  unfold sanitizedQuery, optOrElse, orElse.
  destruct (NewsTool.query context) as [q|]; cbn [option_map]; [|split; reflexivity].
  destruct (isEmpty (trim q)) eqn:He; [split; reflexivity|].
  split; [exact He|]. rewrite trim_idempotent, len_zero. exact He.
Qed.

Lemma alternative_source_templated (w : World) (query : string) (limit : Z) :
  isEmpty query = false ->
  (len (trim query) =? 0) = false ->
  1 <= limit <= 20 ->
  NewsTool.fetchCryptoNewsFromAlternativeSource w query limit
  = ([], Return {| NewsTool.articles :=
                     NewsTool.slice0 (Z.min limit 6)
                       (map (NewsTool.customize query) (NewsTool.baseArticles w query));
                   NewsTool.out_source := Some "fallback";
                   NewsTool.error :=
                     Some "Primary news source unavailable, using fallback content" |}).
Proof.
  intros Hq Ht Hl.
  unfold NewsTool.fetchCryptoNewsFromAlternativeSource,
    NewsTool.fetchCryptoNewsFromAlternativeSource_try.
  rewrite Hq, Ht.
  assert (Hin : (limit <? 1) || (20 <? limit) = false).
  { apply orb_false_intro; apply Z.ltb_ge; lia. }
  cbn [orb throwIf bind ret tryCatch app]. rewrite Hin. reflexivity.
Qed.

Lemma with_fallback_requests (w : World) (query : string) (limit : Z) :
  requests (NewsTool.fetchCryptoNewsWithFallback w query limit)
  = if falsy (NEWSAPI_KEY (env w)) then []
    else [GetNews (query ++ " cryptocurrency bitcoin ethereum crypto") limit
                  (optOrElse (NEWSAPI_KEY (env w)) "")].
Proof.
  destruct (NewsTool.fetchCryptoNewsWithFallback w query limit) as [t c] eqn:H.
  unfold NewsTool.fetchCryptoNewsWithFallback, NewsTool.fetchCryptoNewsWithFallback_try,
    NewsTool.fetchCryptoNewsFromAlternativeSource,
    NewsTool.fetchCryptoNewsFromAlternativeSource_try in H.
  trace_io H; injection H as <- _; cbn [requests fst]; reflexivity.
Qed.

(** X22.  A query that matches one of the patterns of the tool (the text
    "<script", "javascript:", "data:", "vbscript:" or "<iframe" in any case,
    or an opening brace followed by a closing one on the same line) is
    answered without any request, by the single article "Error Fetching
    News" and the error "Invalid characters in search query". *)
Theorem news_tool_dangerous_query (w : World) (context : NewsTool.Context) :
  dangerous (sanitizedQuery context) = true ->
  NewsTool.execute w context
  = ([], Return {| NewsTool.articles :=
                     [ {| NewsTool.title := "Error Fetching News";
                          NewsTool.description := "Invalid characters in search query";
                          NewsTool.url := "#";
                          NewsTool.publishedAt := toISOString w (Date_now w);
                          NewsTool.source := "System Error" |} ];
                   NewsTool.error := Some "Invalid characters in search query";
                   NewsTool.out_source := Some "fallback" |}).
Proof.
  intros Hd. unfold dangerous in Hd.
  destruct (sanitizedQuery_nonempty context) as [Hne _].
  unfold NewsTool.execute. cbv zeta. fold (sanitizedQuery context).
  rewrite forEach_throwIf, Hd, len_zero, Hne. reflexivity.
Qed.

Lemma news_tool_dangerous_query_witness :
  dangerous (sanitizedQuery (NewsTool.mkContext (Some " <SCRIPT>alert(1) ") None)) = true /\
  exists out,
    NewsTool.execute online (NewsTool.mkContext (Some " <SCRIPT>alert(1) ") None)
      = ([], Return out) /\
    NewsTool.error out = Some "Invalid characters in search query".
Proof.
  split; [reflexivity|].
  eexists. split.
  - exact (news_tool_dangerous_query online
             (NewsTool.mkContext (Some " <SCRIPT>alert(1) ") None) eq_refl).
  - reflexivity.
Defined.

(** X23.  The news tool calls the news provider at most once: exactly when
    the query matches none of the patterns and NEWSAPI_KEY is set.  It asks
    for the sanitized query followed by " cryptocurrency bitcoin ethereum
    crypto", with the clamped limit as page size. *)
Theorem news_tool_requests (w : World) (context : NewsTool.Context) :
  requests (NewsTool.execute w context)
  = if dangerous (sanitizedQuery context) || falsy (NEWSAPI_KEY (env w)) then []
    else [GetNews (sanitizedQuery context ++ " cryptocurrency bitcoin ethereum crypto")
                  (NewsTool.validLimit context)
                  (optOrElse (NEWSAPI_KEY (env w)) "")].
Proof.
  destruct (sanitizedQuery_nonempty context) as [Hne _].
  pose proof (with_fallback_requests w (sanitizedQuery context)
                (NewsTool.validLimit context)) as Hreq.
  unfold NewsTool.execute. cbv zeta. fold (sanitizedQuery context).
  rewrite forEach_throwIf, len_zero, Hne. fold (dangerous (sanitizedQuery context)).
  destruct (dangerous (sanitizedQuery context)); [reflexivity|].
  cbn [orb throwIf bind ret].
  destruct (NewsTool.fetchCryptoNewsWithFallback w (sanitizedQuery context)
              (NewsTool.validLimit context)) as [t [e|out]];
    cbn [requests fst tryCatch ret app] in *; rewrite ?app_nil_r; exact Hreq.
Qed.

(** X24.  The last-resort answer of the fallback source (provenance
    "error") is never what the tool returns: the query it passes on is
    never blank.  The provenance is "NewsAPI", with no error, or "fallback",
    with an error. *)
Theorem news_tool_provenance (w : World) (context : NewsTool.Context) :
  exists t out,
    NewsTool.execute w context = (t, Return out) /\
    ((NewsTool.out_source out = Some "NewsAPI" /\ NewsTool.error out = None)
     \/ (NewsTool.out_source out = Some "fallback" /\ NewsTool.error out <> None)).
Proof.
  destruct (sanitizedQuery_nonempty context) as [Hne Htrim].
  pose proof (alternative_source_templated w (sanitizedQuery context)
                (NewsTool.validLimit context) Hne Htrim (validLimit_range context)) as Halt.
  unfold NewsTool.execute. cbv zeta. fold (sanitizedQuery context).
  rewrite forEach_throwIf, len_zero, Hne.
  destruct (existsb _ NewsTool.dangerousPatterns).
  - do 2 eexists. split; [reflexivity|]. right. split; [reflexivity|discriminate].
  - cbn [throwIf bind ret].
    unfold NewsTool.fetchCryptoNewsWithFallback.
    destruct (NewsTool.fetchCryptoNewsWithFallback_try w (sanitizedQuery context)
                (NewsTool.validLimit context)) as [t [e|out]] eqn:Htry.
    + cbn [tryCatch]. rewrite Halt. do 2 eexists. split; [reflexivity|].
      right. split; [reflexivity|discriminate].
    + cbn [tryCatch app]. do 2 eexists. split; [reflexivity|].
      unfold NewsTool.fetchCryptoNewsWithFallback_try in Htry. rewrite Halt in Htry.
      trace_io Htry; injection Htry as _ <-;
        first [ left; split; reflexivity
              | right; split; [reflexivity|discriminate] ].
Qed.

Lemma optOrElse_length (a : option string) (b : string) :
  (1 <= String.length b)%nat -> (1 <= String.length (optOrElse a b))%nat.
Proof.
  intros Hb. unfold optOrElse, orElse.
  destruct a as [[|c r]|]; cbn [isEmpty]; try exact Hb. simpl. lia.
Qed.

Lemma substring0_bounds (n : nat) (s : string) :
  (1 <= n)%nat -> (1 <= String.length s)%nat ->
  (1 <= String.length (substring0 n s) <= n)%nat.
Proof. intros Hn Hs. rewrite substring0_length. lia. Qed.

Lemma sanitize_sanitized (w : World) (article : RawArticle) :
  Sanitized w (NewsTool.sanitize w article).
Proof.
  unfold Sanitized, NewsTool.sanitize.
  cbn [NewsTool.title NewsTool.description NewsTool.source NewsTool.url
       NewsTool.publishedAt].
  split; [apply substring0_bounds; [lia|apply optOrElse_length; simpl; lia]|].
  split; [apply substring0_bounds; [lia|apply optOrElse_length; simpl; lia]|].
  split; [apply substring0_bounds; [lia|apply optOrElse_length; simpl; lia]|].
  split.
  - destruct (NewsTool.isValidUrl w (a_url article)) eqn:Hv; [|left; reflexivity].
    right. destruct (a_url article) as [u|]; [|discriminate Hv].
    unfold optOrElse, orElse.
    destruct (isEmpty u) eqn:He; [|exact Hv].
    unfold NewsTool.isValidUrl in Hv. rewrite He in Hv. discriminate Hv.
  - destruct (NewsTool.isValidDate w (a_publishedAt article)) eqn:Hv; [|left; reflexivity].
    right. destruct (a_publishedAt article) as [d|]; [|discriminate Hv].
    unfold optOrElse, orElse.
    destruct (isEmpty d) eqn:He; [|exact Hv].
    unfold NewsTool.isValidDate in Hv. rewrite He in Hv. discriminate Hv.
Qed.

(** X25.  Every article of a live answer of the news tool is bounded and
    well-formed: title, description and source are never empty and have at
    most 200, 500 and 100 characters; the url is "#" or a string that
    parses as an http or https URL; publishedAt is the current timestamp
    or a string that parses to a date after the year 2000. *)
Theorem news_tool_live_articles (w : World) (query : string) (limit : Z)
  (t : list Request) (out : NewsTool.Output) :
  NewsTool.fetchCryptoNewsWithFallback_try w query limit = (t, Return out) ->
  NewsTool.out_source out = Some "NewsAPI" ->
  Forall (Sanitized w) (NewsTool.articles out) /\
  (1 <= List.length (NewsTool.articles out) <= Z.to_nat limit)%nat.
Proof.
  intros Hrun Hsrc.
  destruct (live_tier_sanitized w query limit t out Hrun Hsrc) as (raw & Hraw & Hlo & Hhi).
  rewrite Hraw, length_map. split; [|lia].
  apply Forall_forall. intros art Hin.
  apply in_map_iff in Hin. destruct Hin as (a & <- & _).
  apply sanitize_sanitized.
Qed.

Lemma news_tool_live_articles_witness :
  exists out,
    NewsTool.fetchCryptoNewsWithFallback_try rawNews "bitcoin" 5
      = ([GetNews "bitcoin cryptocurrency bitcoin ethereum crypto" 5 "k-newsapi"],
         Return out) /\
    NewsTool.out_source out = Some "NewsAPI" /\
    Forall (Sanitized rawNews) (NewsTool.articles out).
Proof.
  eexists. split; [reflexivity|]. split; [reflexivity|].
  exact (proj1 (news_tool_live_articles rawNews "bitcoin" 5 _ _ eq_refl eq_refl)).
Defined.

Lemma existsChar_false_stripStart (p q : ascii -> bool) (s : string) :
  existsChar p s = false -> existsChar p (stripStart q s) = false.
Proof.
  induction s as [|c r IH]; simpl; [reflexivity|].
  intros H. apply orb_false_elim in H. destruct H as [Hc Hr].
  destruct (q c); [apply IH; exact Hr|]. simpl. rewrite Hc, Hr. reflexivity.
Qed.

Lemma existsChar_false_stripEnd (p q : ascii -> bool) (s : string) :
  existsChar p s = false -> existsChar p (stripEnd q s) = false.
Proof.
  induction s as [|c r IH]; simpl; [reflexivity|].
  intros H. apply orb_false_elim in H. destruct H as [Hc Hr].
  specialize (IH Hr).
  destruct (stripEnd q r) as [|c' r'].
  - destruct (q c); simpl; [reflexivity|]. rewrite Hc. reflexivity.
  - cbn [existsChar] in *. rewrite Hc, IH. reflexivity.
Qed.

Lemma existsChar_false_filterChars (p q : ascii -> bool) (s : string) :
  existsChar p s = false -> existsChar p (filterChars q s) = false.
Proof.
  induction s as [|c r IH]; simpl; [reflexivity|].
  intros H. apply orb_false_elim in H. destruct H as [Hc Hr].
  destruct (q c); [simpl; rewrite Hc|]; apply IH; exact Hr.
Qed.

Lemma readScheme_needs_colon (s : string) :
  existsChar isColon s = false -> NewsTool.readScheme s = None.
Proof.
  induction s as [|c r IH]; simpl; [reflexivity|].
  intros H. apply orb_false_elim in H. destruct H as [Hc Hr].
  unfold isColon in Hc. rewrite Hc, (IH Hr).
  destruct (NewsTool.isSchemeChar c); reflexivity.
Qed.

(** X26.  A url without a colon is never kept by the news tool: it has no
    scheme, so it does not parse as an absolute URL, whatever the host. *)
Theorem url_needs_scheme (w : World) (u : string) :
  existsChar isColon u = false ->
  NewsTool.isValidUrl w (Some u) = false /\
  forall article, a_url article = Some u ->
    NewsTool.url (NewsTool.sanitize w article) = "#".
Proof.
  intros Hc.
  assert (Hs : NewsTool.URL_scheme u = None).
  { unfold NewsTool.URL_scheme.
    match goal with
    | |- match ?s with _ => _ end = None =>
        assert (Hn : existsChar isColon s = false)
          by (apply existsChar_false_filterChars, existsChar_false_stripEnd,
                existsChar_false_stripStart; exact Hc);
        destruct s as [|c r] eqn:Hs; [reflexivity|];
        destruct (NewsTool.isAsciiAlpha c); [|reflexivity];
        apply readScheme_needs_colon; exact Hn
    end. }
  assert (Hv : NewsTool.isValidUrl w (Some u) = false).
  { unfold NewsTool.isValidUrl. rewrite Hs. destruct (isEmpty u); reflexivity. }
  split; [exact Hv|].
  intros article Hu. unfold NewsTool.sanitize. cbn [NewsTool.url].
  rewrite Hu, Hv. reflexivity.
Qed.

Lemma url_needs_scheme_witness :
  existsChar isColon "www.example.com/news" = false /\
  NewsTool.isValidUrl online (Some "www.example.com/news") = false.
Proof.
  split; [reflexivity|].
  exact (proj1 (url_needs_scheme online "www.example.com/news" eq_refl)).
Defined.

Lemma prefix_append (q r : string) : String.prefix q (q ++ r) = true.
Proof.
  induction q as [|c q' IH]; simpl.
  - destruct r; reflexivity.
  - destruct (Ascii.ascii_dec c c) as [_|Hn]; [exact IH|contradiction].
Qed.

Lemma includes_here (q r : string) : includes (q ++ r) q = true.
Proof.
  destruct (q ++ r) as [|c s] eqn:Hs; cbn [includes];
    rewrite <- Hs, prefix_append; reflexivity.
Qed.

Lemma includes_append (a s q : string) :
  includes s q = true -> includes (a ++ s) q = true.
Proof.
  intros H. induction a as [|c a' IH]; [exact H|].
  cbn [append includes]. rewrite IH. apply orb_true_r.
Qed.

Lemma In_firstn {A} (n : nat) (l : list A) (x : A) : In x (firstn n l) -> In x l.
Proof.
  intros H. rewrite <- (firstn_skipn n l). apply in_or_app. left. exact H.
Qed.

Lemma customize_mentions_query (query : string) (article : NewsTool.Article) :
  includes (NewsTool.description (NewsTool.customize query article)) query = true.
Proof.
  unfold NewsTool.customize. cbn [NewsTool.description].
  destruct (includes (NewsTool.description article) query) eqn:H; [exact H|].
  apply includes_append. apply includes_append. apply includes_here.
Qed.

(** X27.  Every article of the templated fallback mentions the query in
    its description: the query is already part of it, or the sentence
    "Analysis focuses on <query> market dynamics." is added; url, source
    and timestamp of the base articles are kept. *)
Theorem templated_articles_mention_query (w : World) (query : string) (limit : Z)
  (t : list Request) (out : NewsTool.Output) :
  NewsTool.fetchCryptoNewsFromAlternativeSource w query limit = (t, Return out) ->
  NewsTool.out_source out = Some "fallback" ->
  Forall (fun art => includes (NewsTool.description art) query = true
                     /\ exists base,
                          In base (NewsTool.baseArticles w query) /\
                          NewsTool.url art = NewsTool.url base /\
                          NewsTool.source art = NewsTool.source base /\
                          NewsTool.publishedAt art = NewsTool.publishedAt base)
         (NewsTool.articles out).
Proof.
  intros Hrun Hsrc.
  unfold NewsTool.fetchCryptoNewsFromAlternativeSource,
    NewsTool.fetchCryptoNewsFromAlternativeSource_try in Hrun.
  destruct (isEmpty query || (len (trim query) =? 0)).
  - cbn [throwIf bind throw tryCatch ret app] in Hrun.
    injection Hrun as _ <-. discriminate Hsrc.
  - cbn [throwIf bind tryCatch ret app] in Hrun.
    apply (f_equal (fun r => match snd r with
                             | Return o => NewsTool.articles o
                             | Throw _ => []
                             end)) in Hrun.
    cbn [snd NewsTool.articles] in Hrun. rewrite <- Hrun. clear Hrun Hsrc.
    unfold NewsTool.slice0.
    apply Forall_forall. intros art Hin.
    apply In_firstn in Hin. apply in_map_iff in Hin.
    destruct Hin as (base & <- & Hbase).
    split; [apply customize_mentions_query|].
    exists base. repeat split. exact Hbase.
Qed.

Lemma templated_articles_mention_query_witness :
  exists out,
    NewsTool.fetchCryptoNewsFromAlternativeSource offline "solana" 3 = ([], Return out) /\
    NewsTool.out_source out = Some "fallback" /\
    Forall (fun art => includes (NewsTool.description art) "solana" = true)
           (NewsTool.articles out).
Proof.
  eexists. split; [reflexivity|]. split; [reflexivity|].
  pose proof (templated_articles_mention_query offline "solana" 3 _ _ eq_refl eq_refl) as H.
  eapply Forall_impl; [|exact H]. intros art [Hd _]. exact Hd.
Defined.

(** ** The two price fetchers, and the two sentiment fetchers *)

Lemma isEmpty_toLowerCase (s : string) : isEmpty (toLowerCase s) = isEmpty s.
Proof. destruct s; reflexivity. Qed.

Lemma isEmpty_trim (s : string) : isEmpty s = true -> isEmpty (trim s) = true.
Proof. destruct s; [reflexivity|discriminate]. Qed.

Lemma passesIdChecks_normalize (s : string) :
  passesIdChecks (trim (toLowerCase s)) = passesIdChecks s.
Proof.
  rewrite passesIdChecks_normalized. unfold passesIdChecks.
  f_equal. f_equal.
  rewrite len_zero, <- toLowerCase_trim, isEmpty_toLowerCase.
  destruct (isEmpty s) eqn:He; [|reflexivity].
  rewrite (isEmpty_trim s He). reflexivity.
Qed.

Lemma price_step_quote (w : World) (i : WorkflowInput) :
  passesSymbolCheck (in_crypto_symbol i) = true ->
  exists t out,
    Workflow.fetchCryptoPrice w (Some i) = (t, Return out) /\
    match (if passesIdChecks (in_crypto_id i)
           then acceptedRate w (trim (toLowerCase (in_crypto_id i))) else None) with
    | Some rate => p_priceUsd out = rate /\ p_error out = None
    | None => p_priceUsd out = "0" /\ p_error out <> None
    end.
Proof.
  intros Hsym. unfold passesSymbolCheck in Hsym. apply negb_true_iff in Hsym.
  destruct (Workflow.fetchCryptoPrice w (Some i)) as [t c] eqn:H.
  unfold Workflow.fetchCryptoPrice, Workflow.fetchCryptoPrice_try,
    Workflow.invalidPatterns in H.
  unfold acceptedRate, passesIdChecks, Workflow.invalidPatterns. cbn [existsb].
  trace_io H; try congruence; injection H as <- <-; do 2 eexists;
    (split; [reflexivity|]); cbn [p_priceUsd p_error];
    rewrite_tests; bool_norm; cbv beta iota;
    rewrite_tests; bool_norm;
    first [ split; [reflexivity|discriminate] | split; reflexivity ].
Qed.

Lemma price_tool_quote (w : World) (crypto_id : string) :
  exists t out,
    PriceTool.execute w crypto_id = (t, Return out) /\
    match (if passesIdChecks (trim (toLowerCase crypto_id))
           then acceptedRate w (trim (toLowerCase crypto_id)) else None) with
    | Some rate => PriceTool.priceUsd out = rate /\ PriceTool.error out = None
    | None => PriceTool.priceUsd out = "0" /\ PriceTool.error out <> None
    end.
Proof.
  rewrite passesIdChecks_normalized.
  destruct (PriceTool.execute w crypto_id) as [t c] eqn:H.
  unfold PriceTool.execute, PriceTool.getPrice, PriceTool.getPrice_try,
    PriceTool.invalidPatterns in H.
  cbn [forEach] in H. rewrite !normalize_idempotent in H.
  unfold acceptedRate, Workflow.invalidPatterns. cbn [existsb].
  trace_io H; injection H as <- <-; do 2 eexists;
    (split; [reflexivity|]); cbn [PriceTool.priceUsd PriceTool.error];
    rewrite_tests; bool_norm; cbv beta iota;
    rewrite_tests; bool_norm;
    first [ split; [reflexivity|discriminate] | split; reflexivity ].
Qed.

(** X28.  Step 1 of the workflow and the price tool are two copies of one
    fetch: for the same identifier in the same world (and a symbol that
    passes step 1's check) they return the same priceUsd, and one carries
    an error exactly when the other does. *)
Theorem price_fetchers_agree (w : World) (i : WorkflowInput) :
  passesSymbolCheck (in_crypto_symbol i) = true ->
  exists t out t' out',
    Workflow.fetchCryptoPrice w (Some i) = (t, Return out) /\
    PriceTool.execute w (in_crypto_id i) = (t', Return out') /\
    p_priceUsd out = PriceTool.priceUsd out' /\
    (p_error out = None <-> PriceTool.error out' = None).
Proof.
  intros Hsym.
  destruct (price_step_quote w i Hsym) as (t & out & Hrun & Hq).
  destruct (price_tool_quote w (in_crypto_id i)) as (t' & out' & Hrun' & Hq').
  exists t, out, t', out'. split; [exact Hrun|]. split; [exact Hrun'|].
  rewrite passesIdChecks_normalize in Hq'.
  destruct (if passesIdChecks (in_crypto_id i)
            then acceptedRate w (trim (toLowerCase (in_crypto_id i))) else None)
    as [rate|].
  - destruct Hq as [Hp He]. destruct Hq' as [Hp' He'].
    split; [congruence|]. split; intros _; assumption.
  - destruct Hq as [Hp He]. destruct Hq' as [Hp' He'].
    split; [congruence|]. split; intros Hn; contradiction.
Qed.

Lemma price_fetchers_agree_witness :
  passesSymbolCheck (in_crypto_symbol btcInput) = true /\
  exists out out',
    completion (Workflow.fetchCryptoPrice online (Some btcInput)) = Return out /\
    completion (PriceTool.execute online "bitcoin") = Return out' /\
    p_priceUsd out = PriceTool.priceUsd out'.
Proof.
  split; [reflexivity|].
  destruct (price_fetchers_agree online btcInput eq_refl)
    as (t & out & t' & out' & Hrun & Hrun' & Hp & _).
  exists out, out'. cbn [in_crypto_id btcInput] in Hrun'.
  rewrite Hrun, Hrun'. repeat split. exact Hp.
Defined.

(** X29.  On the live path the sentiment tool and step 2 of the workflow
    are two copies of one fetch: for a symbol the tool accepts and a valid
    answer of the provider (status code "0", a first data point with a
    value in [0,100]) both report the same sentiment, the same score and
    the same fear-greed value; the tool adds the confidence 0.85. *)
Theorem sentiment_fetchers_agree_live (w : World) (p : PriceStepOutput)
  (r : Response FearGreedJson) (st : FearGreedStatus) (pt : FearGreedPoint)
  (rest : list (option FearGreedPoint)) (v : Q) :
  acceptsSymbol (p_crypto_symbol p) = true ->
  isEmpty (p_crypto_symbol p) = false ->
  falsy (COINMARKETCAP_API_KEY (env w)) = false ->
  fetchFearGreed w (optOrElse (COINMARKETCAP_API_KEY (env w)) "") = Return r ->
  ok r = true ->
  json r = Return (FearGreedObject (Some st) (Some (Some pt :: rest))) ->
  error_code st = Some "0" ->
  fg_value pt = Some v ->
  (0 <= v <= 100)%Q ->
  exists s out,
    completion (Workflow.fetchSentimentScore w p) = Return s /\
    completion (SentimentTool.execute w (p_crypto_symbol p)) = Return out /\
    SentimentTool.sentiment out = s_sentiment s /\
    SentimentTool.score out = s_score s /\
    SentimentTool.fear_greed_value out = Some (s_fearGreedValue s) /\
    s_fearGreedValue s = v /\
    SentimentTool.confidence out = 85 # 100 /\
    SentimentTool.error out = None /\
    s_sentiment_error s = None.
Proof.
  intros Hacc Hsym Hkey Hcall Hok Hjson Hcode Hval [H0 H100].
  apply Qle_bool_iff in H0. apply Qle_bool_iff in H100.
  unfold acceptsSymbol in Hacc. cbv zeta in Hacc.
  apply andb_prop in Hacc. destruct Hacc as [Hacc Hinv].
  apply andb_prop in Hacc. destruct Hacc as [Hne Hpat].
  apply negb_true_iff in Hne. apply negb_true_iff in Hinv.
  do 2 eexists. split; [|split].
  - unfold Workflow.fetchSentimentScore, Workflow.fetchSentimentScore_try.
    rewrite Hsym, Hkey, Hcall.
    unfold bind, throwIf, await, lift, ret, tryCatch, completion. cbv beta iota zeta.
    rewrite Hok, Hjson. cbv beta iota zeta.
    rewrite Hcode. cbn [String.eqb Ascii.eqb Bool.eqb negb]. cbv beta iota zeta.
    rewrite Hval, H0, H100. reflexivity.
  - unfold SentimentTool.execute, SentimentTool.fetchSentimentWithFallback,
      SentimentTool.fetchSentimentWithFallback_try.
    rewrite Hne, Hpat, Hinv, Hkey, Hcall.
    unfold bind, throwIf, await, lift, ret, tryCatch, completion. cbv beta iota zeta.
    cbn [negb]. cbv beta iota zeta.
    rewrite Hok, Hjson. cbv beta iota zeta.
    rewrite Hcode. cbn [String.eqb Ascii.eqb Bool.eqb negb]. cbv beta iota zeta.
    rewrite Hval, H0, H100. reflexivity.
  - repeat split.
Qed.

Lemma sentiment_fetchers_agree_live_witness :
  exists s out,
    completion (Workflow.fetchSentimentScore online btcUnpriced) = Return s /\
    completion (SentimentTool.execute online "BTC") = Return out /\
    SentimentTool.sentiment out = s_sentiment s /\
    SentimentTool.fear_greed_value out = Some 72%Q.
Proof.
  assert (H : (0 <= 72 <= 100)%Q) by (split; discriminate).
  destruct (sentiment_fetchers_agree_live online btcUnpriced _ _ _ _ 72%Q
              eq_refl eq_refl eq_refl eq_refl eq_refl eq_refl eq_refl eq_refl H)
    as (s & out & Hs & Ho & Hsent & _ & Hf & Hv & _).
  exists s, out. split; [exact Hs|]. split; [exact Ho|]. split; [exact Hsent|].
  rewrite Hf, Hv. reflexivity.
Defined.
